(** * Paperless AI pipeline: ingestion worker, recovery, routing and
      duplicate confirmation

    A shallow embedding of the parts of the repository that the
    ingestion pipeline and the duplicate engine consist of:

    - [Hashing]: [calculate_md5] of [scripts/ai_watchdog.py] and the
      SHA-256 uid of [scripts/ai_post_consume.py], over real MD5 and
      SHA-256;
    - [Watchdog]: [gpu_worker], [recover_staged_files] and
      [process_file_single] from the rendering on
      ([scripts/ai_watchdog.py]), with [DocumentOptimizer.optimize_image]
      and the import of [scripts/modules/paperless_client.py];
    - [LLM]: [LLMClient.generate] ([scripts/modules/llm_client.py]);
    - [Duplicates]: [ChromaClient.find_similar] and
      [DuplicateDetector.process];
    - [Dates]: [DuplicateDetector._extract_dates];
    - [Extractor]: [MetadataExtractor.extract_text_from_images];
    - [Intake]: [process_file_single] as a whole;
    - [LLMConfig]: [LLMClient.__init__];
    - [PostConsume]: the sidecar, the vision retry and the content
      override of [main] in [scripts/ai_post_consume.py];
    - [Retagger]: one round of [ai_retagger].

    Python exceptions are values of [exn]; code that can raise lives in
    a small state-and-exception monad over the modelled world. The
    definitions come first, with concrete worlds ([Examples],
    [MoreExamples]), then the facts, module by module. *)

From Stdlib Require Import ZArith NArith QArith Lia List Bool Sorted.
From Stdlib Require Import Strings.String Strings.Ascii Init.Byte.
From Stdlib Require Import DecimalString Qround.
From stdpp Require Import base option list gmap strings.

Local Open Scope Z_scope.

(* ===================================================================== *)
(** * Hashing: hashlib.md5 and hashlib.sha256                             *)
(* ===================================================================== *)

Module Hashing.

(** 32-bit words are [Z] in [0, 2^32); every addition wraps. *)
Definition w32 (x : Z) : Z := x mod 4294967296.
Definition add32 (x y : Z) : Z := w32 (x + y).
Definition not32 (x : Z) : Z := Z.lxor x 4294967295.
Definition rotl32 (x n : Z) : Z :=
  Z.lor (w32 (Z.shiftl x n)) (Z.shiftr x (32 - n)).
Definition rotr32 (x n : Z) : Z :=
  Z.lor (Z.shiftr x n) (w32 (Z.shiftl x (32 - n))).

Definition byte_of_Z (x : Z) : byte :=
  match Byte.of_N (Z.to_N (x mod 256)) with
  | Some b => b
  | None => x00
  end.
Definition Z_of_byte (b : byte) : Z := Z.of_N (Byte.to_N b).

(** The [n] low bytes of [x], least significant first. *)
Fixpoint le_bytes (n : nat) (x : Z) : list byte :=
  match n with
  | O => []
  | S k => byte_of_Z x :: le_bytes k (Z.shiftr x 8)
  end.
Definition be_bytes (n : nat) (x : Z) : list byte := rev (le_bytes n x).

Definition le_word (bs : list byte) : Z :=
  fold_right (fun b acc => Z_of_byte b + 256 * acc) 0 bs.
Definition be_word (bs : list byte) : Z := le_word (rev bs).

(** Cut a list in pieces of [n] elements ([fuel] bounds the number of
    pieces; the callers pass the length of the list). *)
Fixpoint chunks_fuel {A} (fuel n : nat) (l : list A) : list (list A) :=
  match fuel with
  | O => []
  | S f =>
      match l with
      | [] => []
      | _ => firstn n l :: chunks_fuel f n (skipn n l)
      end
  end.
Definition chunks {A} (n : nat) (l : list A) : list (list A) :=
  chunks_fuel (length l) n l.

(** Padding shared by both algorithms: 0x80, zeros up to 56 mod 64, then
    the bit length in eight bytes ([len_bytes] fixes the byte order). *)
Definition pad (len_bytes : nat -> Z -> list byte) (msg : list byte)
  : list byte :=
  let l := Z.of_nat (length msg) in
  let zeros := Z.to_nat ((55 - l) mod 64) in
  msg ++ x80 :: repeat x00 zeros ++ len_bytes 8%nat (8 * l).

(** ** MD5 (RFC 1321) *)

Definition md5_K : list Z :=
  [3614090360; 3905402710; 606105819; 3250441966; 4118548399; 1200080426;
   2821735955; 4249261313; 1770035416; 2336552879; 4294925233; 2304563134;
   1804603682; 4254626195; 2792965006; 1236535329; 4129170786; 3225465664;
   643717713; 3921069994; 3593408605; 38016083; 3634488961; 3889429448;
   568446438; 3275163606; 4107603335; 1163531501; 2850285829; 4243563512;
   1735328473; 2368359562; 4294588738; 2272392833; 1839030562; 4259657740;
   2763975236; 1272893353; 4139469664; 3200236656; 681279174; 3936430074;
   3572445317; 76029189; 3654602809; 3873151461; 530742520; 3299628645;
   4096336452; 1126891415; 2878612391; 4237533241; 1700485571; 2399980690;
   4293915773; 2240044497; 1873313359; 4264355552; 2734768916; 1309151649;
   4149444226; 3174756917; 718787259; 3951481745].

Definition md5_shift : list Z :=
  [7; 12; 17; 22; 7; 12; 17; 22; 7; 12; 17; 22; 7; 12; 17; 22;
   5; 9; 14; 20; 5; 9; 14; 20; 5; 9; 14; 20; 5; 9; 14; 20;
   4; 11; 16; 23; 4; 11; 16; 23; 4; 11; 16; 23; 4; 11; 16; 23;
   6; 10; 15; 21; 6; 10; 15; 21; 6; 10; 15; 21; 6; 10; 15; 21].

Definition md5_state : Type := Z * Z * Z * Z.

Definition md5_init : md5_state :=
  (1732584193, 4023233417, 2562383102, 271733878).

Definition md5_round (M : list Z) (st : md5_state) (i : nat) : md5_state :=
  let '(A, B, C, D) := st in
  let iz := Z.of_nat i in
  let '(F, g) :=
    if iz <? 16 then (Z.lor (Z.land B C) (Z.land (not32 B) D), iz)
    else if iz <? 32 then
      (Z.lor (Z.land D B) (Z.land (not32 D) C), (5 * iz + 1) mod 16)
    else if iz <? 48 then (Z.lxor B (Z.lxor C D), (3 * iz + 5) mod 16)
    else (Z.lxor C (Z.lor B (not32 D)), (7 * iz) mod 16) in
  let F' := add32 (add32 (add32 F A) (nth i md5_K 0)) (nth (Z.to_nat g) M 0) in
  (D, add32 B (rotl32 F' (nth i md5_shift 0)), B, C).

Definition md5_block (st : md5_state) (block : list byte) : md5_state :=
  let M := map le_word (chunks 4 block) in
  let '(A, B, C, D) := fold_left (md5_round M) (seq 0 64) st in
  let '(a0, b0, c0, d0) := st in
  (add32 a0 A, add32 b0 B, add32 c0 C, add32 d0 D).

Definition md5 (msg : list byte) : list byte :=
  let '(a, b, c, d) :=
    fold_left md5_block (chunks 64 (pad le_bytes msg)) md5_init in
  le_bytes 4 a ++ le_bytes 4 b ++ le_bytes 4 c ++ le_bytes 4 d.

(** ** SHA-256 (FIPS 180-4) *)

Definition sha256_K : list Z :=
  [1116352408; 1899447441; 3049323471; 3921009573; 961987163; 1508970993;
   2453635748; 2870763221; 3624381080; 310598401; 607225278; 1426881987;
   1925078388; 2162078206; 2614888103; 3248222580; 3835390401; 4022224774;
   264347078; 604807628; 770255983; 1249150122; 1555081692; 1996064986;
   2554220882; 2821834349; 2952996808; 3210313671; 3336571891; 3584528711;
   113926993; 338241895; 666307205; 773529912; 1294757372; 1396182291;
   1695183700; 1986661051; 2177026350; 2456956037; 2730485921; 2820302411;
   3259730800; 3345764771; 3516065817; 3600352804; 4094571909; 275423344;
   430227734; 506948616; 659060556; 883997877; 958139571; 1322822218;
   1537002063; 1747873779; 1955562222; 2024104815; 2227730452; 2361852424;
   2428436474; 2756734187; 3204031479; 3329325298].

Definition sha256_init : list Z :=
  [1779033703; 3144134277; 1013904242; 2773480762;
   1359893119; 2600822924; 528734635; 1541459225].

Definition xor3 (a b c : Z) : Z := Z.lxor a (Z.lxor b c).
Definition big_sigma0 x := xor3 (rotr32 x 2) (rotr32 x 13) (rotr32 x 22).
Definition big_sigma1 x := xor3 (rotr32 x 6) (rotr32 x 11) (rotr32 x 25).
Definition small_sigma0 x := xor3 (rotr32 x 7) (rotr32 x 18) (Z.shiftr x 3).
Definition small_sigma1 x := xor3 (rotr32 x 17) (rotr32 x 19) (Z.shiftr x 10).

(** The message schedule, newest word first while it is built. *)
Definition schedule_step (rw : list Z) (_ : nat) : list Z :=
  add32 (add32 (small_sigma1 (nth 1 rw 0)) (nth 6 rw 0))
        (add32 (small_sigma0 (nth 14 rw 0)) (nth 15 rw 0)) :: rw.

Definition schedule (M : list Z) : list Z :=
  rev (fold_left schedule_step (seq 16 48) (rev M)).

Definition sha256_round (st : list Z) (kw : Z * Z) : list Z :=
  match st with
  | [a; b; c; d; e; f; g; h] =>
      let ch := Z.lxor (Z.land e f) (Z.land (not32 e) g) in
      let maj := xor3 (Z.land a b) (Z.land a c) (Z.land b c) in
      let t1 :=
        add32 (add32 (add32 h (big_sigma1 e)) (add32 ch (fst kw))) (snd kw) in
      let t2 := add32 (big_sigma0 a) maj in
      [add32 t1 t2; a; b; c; add32 d t1; e; f; g]
  | _ => st
  end.

Definition sha256_block (st : list Z) (block : list byte) : list Z :=
  let W := schedule (map be_word (chunks 4 block)) in
  let st' := fold_left sha256_round (combine sha256_K W) st in
  map (fun p => add32 (fst p) (snd p)) (combine st st').

Definition sha256 (msg : list byte) : list byte :=
  let st := fold_left sha256_block (chunks 64 (pad be_bytes msg)) sha256_init in
  concat (map (be_bytes 4) st).

(** ** hexdigest *)

Definition hex_digit (n : Z) : ascii :=
  match String.get (Z.to_nat n) "0123456789abcdef" with
  | Some c => c
  | None => "0"%char
  end.

Definition hex_of_byte (b : byte) : list ascii :=
  let z := Z_of_byte b in [hex_digit (z / 16); hex_digit (z mod 16)].

Definition hex (bs : list byte) : string :=
  string_of_list_ascii (concat (map hex_of_byte bs)).

Definition bytes_of_string (s : string) : list byte :=
  map byte_of_ascii (list_ascii_of_string s).

(** ** The hashlib objects and the two uid computations *)

Inductive algorithm := MD5 | SHA256.

(** A hashlib object: [update] feeds bytes, [hexdigest] hashes all bytes
    fed so far. *)
Record hasher := { algo : algorithm; fed : list byte }.

Definition hashlib_new (a : algorithm) : hasher := {| algo := a; fed := [] |}.

Definition update (h : hasher) (chunk : list byte) : hasher :=
  {| algo := algo h; fed := fed h ++ chunk |}.

Definition digest (h : hasher) : list byte :=
  match algo h with
  | MD5 => md5 (fed h)
  | SHA256 => sha256 (fed h)
  end.

Definition hexdigest (h : hasher) : string := hex (digest h).

(** [for chunk in iter(lambda: f.read(4096), b""): h.update(chunk)] *)
Definition read_into (h : hasher) (content : list byte) : hasher :=
  fold_left update (chunks 4096 content) h.

(** ai_watchdog.py, [calculate_md5], on the bytes of the opened file. *)
Definition calculate_md5 (content : list byte) : string :=
  hexdigest (read_into (hashlib_new MD5) content).

(** ai_post_consume.py, [main], lines 157-188: the uid of the source file
    ([None] when there is no path or the file does not exist) and the
    name under which the sidecar is looked up in the buffer directory. *)
Definition post_consume_uid (source : option (list byte)) : option string :=
  match source with
  | Some content => Some (hexdigest (read_into (hashlib_new SHA256) content))
  | None => None
  end.

Definition post_consume_sidecar_name (uid : option string)
    (original_filename : string) : string :=
  match uid with
  | Some u => u +:+ ".json"
  | None => original_filename +:+ ".json"
  end.

(** The name the watchdog gives the sidecar ([MD_BUFFER_DIR / f"{uid}.json"]). *)
Definition watchdog_sidecar_name (uid : string) : string := uid +:+ ".json".

End Hashing.

(* ===================================================================== *)
(** * Python values, exceptions and the state-and-exception monad        *)
(* ===================================================================== *)

Module Py.

Inductive exn :=
| NameError (name : string)
| FileNotFoundError (path : string)
| ValueError (msg : string)
| OSError (msg : string)
| AttributeError (name : string)
| KeyError (key : string).

Inductive result (A : Type) :=
| Ok (a : A)
| Raise (e : exn).
Arguments Ok {A} a.
Arguments Raise {A} e.

(** A computation over a world [S]: effects made before an exception is
    raised stay made. *)
Definition M (S A : Type) : Type := S -> result A * S.

Definition ret {S A} (a : A) : M S A := fun s => (Ok a, s).

Definition bind {S A B} (f : A -> M S B) (m : M S A) : M S B :=
  fun s =>
    match m s with
    | (Ok a, s') => f a s'
    | (Raise e, s') => (Raise e, s')
    end.

Definition raise {S A} (e : exn) : M S A := fun s => (Raise e, s).

(** [try: body except Exception as e: handler e] *)
Definition try_except {S A} (body : M S A) (handler : exn -> M S A) : M S A :=
  fun s =>
    match body s with
    | (Ok a, s') => (Ok a, s')
    | (Raise e, s') => handler e s'
    end.

Definition gets {S A} (f : S -> A) : M S A := fun s => (Ok (f s), s).
Definition modify {S} (f : S -> S) : M S unit := fun s => (Ok tt, f s).

Definition when {S} (b : bool) (m : M S unit) : M S unit :=
  if b then m else ret tt.

#[global] Instance M_ret {S} : MRet (M S) := @ret S.
#[global] Instance M_bind {S} : MBind (M S) := @bind S.

(** [for x in l: acc.append(f x)] *)
Fixpoint for_append {S A B} (f : A -> M S B) (l : list A) : M S (list B) :=
  match l with
  | [] => ret []
  | x :: xs =>
      y ← f x;
      ys ← for_append f xs;
      ret (y :: ys)
  end.

(** Values a local name can hold, as far as they are read back. *)
Inductive pyval :=
| PStr (s : string)
| PList (l : list string)
| PInt (z : Z)
| PNone
| PObj (repr : string).

(** [str(v)], what [json.dumps(..., default=str)] falls back to. *)
Definition pystr (v : pyval) : string :=
  match v with
  | PStr s => s
  | PList l => String.concat ", " l
  | PInt _ => "<int>"
  | PNone => "None"
  | PObj r => r
  end.

Definition str_truthy (s : string) : bool :=
  match s with
  | EmptyString => false
  | _ => true
  end.

Definition list_truthy {A} (l : list A) : bool :=
  match l with
  | [] => false
  | _ => true
  end.

End Py.

(* ===================================================================== *)
(** * scripts/ai_watchdog.py                                              *)
(* ===================================================================== *)

Module Watchdog.
Import Hashing Py.

(** ** The queue items and the world the watchdog acts on *)

(** [duplicate_info] of a queue item and of the sidecar. *)
Record DupInfo := {
  is_duplicate : bool;
  original_id : Z;
  similarity : Q
}.

(** A queue item. [staged_file] is the name of the file inside
    [STAGING_DIR], [work_dir] the name of the directory inside
    [/volume1/temp]. [duplicate_info] is [None] both for a missing key and
    for the empty dict ([item.get("duplicate_info", {})] gives [{}] for
    either), [retro_doc_id] is [None] for a missing key. *)
Record Job := {
  uid : string;
  original_filename : string;
  staged_file : string;
  work_dir : string;
  b64_images : list string;
  duplicate_info : option DupInfo;
  retro_doc_id : option Z
}.

(** The sidecar JSON written to [MD_BUFFER_DIR]. *)
Record Sidecar := {
  sc_metadata : list (string * string);
  sc_duplicate_info : option DupInfo;
  sc_ai_content : string;
  sc_scan_date : Q;
  sc_original_filename : string;
  sc_uid : string
}.

(** A document of the Paperless backend with the two paths its metadata
    endpoint reports. *)
Record PaperlessDoc := {
  doc_id : Z;
  doc_title : string;
  doc_checksum : string;
  media_filename : option string;
  archive_media_filename : option string
}.

Inductive level := INFO | WARNING | ERROR.

Inductive api_call :=
| PatchContent (doc : Z) (content : string)
| RemoveTag (doc : Z) (tag : string)
| AddTag (doc : Z) (tag : string).

Record World := {
  gpu_busy_flag : bool;                    (* GPU_BUSY_FLAG exists *)
  temp_dirs : gset string;                 (* directories in /volume1/temp *)
  watch : gmap string (list byte);         (* files of WATCH_DIR *)
  duplicates : gmap string (list byte);    (* files of WATCH_DIR/duplicates *)
  staging : gmap string (list byte);       (* files of STAGING_DIR *)
  consume : gmap string (list byte);       (* files of CONSUME_DIR *)
  md_buffer : gmap string Sidecar;         (* files of MD_BUFFER_DIR *)
  ocr_queue : list Job;                    (* queue.Queue: waiting items *)
  unfinished_tasks : nat;                  (* queue.Queue.unfinished_tasks *)
  clock : Q;                               (* time.time() *)
  logged : list (level * string);          (* lines of the logger *)
  paperless_up : bool;                     (* the API answers *)
  paperless_docs : list PaperlessDoc;      (* documents of the backend *)
  media_originals : gset string;           (* media/documents/originals *)
  media_archive : gset string;             (* media/documents/archive *)
  api_calls : list api_call                (* requests that change the backend *)
}.

Definition set_gpu_busy_flag (b : bool) (w : World) : World :=
  {| gpu_busy_flag := b; temp_dirs := temp_dirs w; watch := watch w;
     duplicates := duplicates w; staging := staging w; consume := consume w;
     md_buffer := md_buffer w; ocr_queue := ocr_queue w;
     unfinished_tasks := unfinished_tasks w; clock := clock w;
     logged := logged w; paperless_up := paperless_up w;
     paperless_docs := paperless_docs w;
     media_originals := media_originals w; media_archive := media_archive w;
     api_calls := api_calls w |}.

Definition set_temp_dirs (d : gset string) (w : World) : World :=
  {| gpu_busy_flag := gpu_busy_flag w; temp_dirs := d; watch := watch w;
     duplicates := duplicates w; staging := staging w; consume := consume w;
     md_buffer := md_buffer w; ocr_queue := ocr_queue w;
     unfinished_tasks := unfinished_tasks w; clock := clock w;
     logged := logged w; paperless_up := paperless_up w;
     paperless_docs := paperless_docs w;
     media_originals := media_originals w; media_archive := media_archive w;
     api_calls := api_calls w |}.

Definition set_watch (wa du : gmap string (list byte)) (w : World) : World :=
  {| gpu_busy_flag := gpu_busy_flag w; temp_dirs := temp_dirs w; watch := wa;
     duplicates := du; staging := staging w; consume := consume w;
     md_buffer := md_buffer w; ocr_queue := ocr_queue w;
     unfinished_tasks := unfinished_tasks w; clock := clock w;
     logged := logged w; paperless_up := paperless_up w;
     paperless_docs := paperless_docs w;
     media_originals := media_originals w; media_archive := media_archive w;
     api_calls := api_calls w |}.

Definition set_files (st co : gmap string (list byte)) (w : World) : World :=
  {| gpu_busy_flag := gpu_busy_flag w; temp_dirs := temp_dirs w;
     watch := watch w; duplicates := duplicates w; staging := st;
     consume := co; md_buffer := md_buffer w; ocr_queue := ocr_queue w;
     unfinished_tasks := unfinished_tasks w; clock := clock w;
     logged := logged w; paperless_up := paperless_up w;
     paperless_docs := paperless_docs w;
     media_originals := media_originals w; media_archive := media_archive w;
     api_calls := api_calls w |}.

Definition set_md_buffer (b : gmap string Sidecar) (w : World) : World :=
  {| gpu_busy_flag := gpu_busy_flag w; temp_dirs := temp_dirs w;
     watch := watch w; duplicates := duplicates w; staging := staging w;
     consume := consume w; md_buffer := b; ocr_queue := ocr_queue w;
     unfinished_tasks := unfinished_tasks w; clock := clock w;
     logged := logged w; paperless_up := paperless_up w;
     paperless_docs := paperless_docs w;
     media_originals := media_originals w; media_archive := media_archive w;
     api_calls := api_calls w |}.

Definition set_queue (q : list Job) (n : nat) (w : World) : World :=
  {| gpu_busy_flag := gpu_busy_flag w; temp_dirs := temp_dirs w;
     watch := watch w; duplicates := duplicates w; staging := staging w;
     consume := consume w; md_buffer := md_buffer w; ocr_queue := q;
     unfinished_tasks := n; clock := clock w; logged := logged w;
     paperless_up := paperless_up w; paperless_docs := paperless_docs w;
     media_originals := media_originals w; media_archive := media_archive w;
     api_calls := api_calls w |}.

Definition set_logged (l : list (level * string)) (w : World) : World :=
  {| gpu_busy_flag := gpu_busy_flag w; temp_dirs := temp_dirs w;
     watch := watch w; duplicates := duplicates w; staging := staging w;
     consume := consume w; md_buffer := md_buffer w;
     ocr_queue := ocr_queue w; unfinished_tasks := unfinished_tasks w;
     clock := clock w; logged := l; paperless_up := paperless_up w;
     paperless_docs := paperless_docs w;
     media_originals := media_originals w; media_archive := media_archive w;
     api_calls := api_calls w |}.

Definition add_log (l : level) (msg : string) (w : World) : World :=
  set_logged (logged w ++ [(l, msg)]) w.

Definition add_api_call (c : api_call) (w : World) : World :=
  {| gpu_busy_flag := gpu_busy_flag w; temp_dirs := temp_dirs w;
     watch := watch w; duplicates := duplicates w; staging := staging w;
     consume := consume w; md_buffer := md_buffer w;
     ocr_queue := ocr_queue w; unfinished_tasks := unfinished_tasks w;
     clock := clock w; logged := logged w; paperless_up := paperless_up w;
     paperless_docs := paperless_docs w;
     media_originals := media_originals w; media_archive := media_archive w;
     api_calls := api_calls w ++ [c] |}.

(** ** Primitive operations *)

Definition log (l : level) (msg : string) : M World unit :=
  modify (add_log l msg).

(** [GPU_BUSY_FLAG.touch()], [.exists()], [.unlink()] *)
Definition flag_touch : M World unit := modify (set_gpu_busy_flag true).
Definition flag_exists : M World bool := gets gpu_busy_flag.
Definition flag_unlink : M World unit :=
  fun w =>
    if gpu_busy_flag w then (Ok tt, set_gpu_busy_flag false w)
    else (Raise (FileNotFoundError "/volume1/temp/.gpu_busy"), w).

(** [d.mkdir(parents=True, exist_ok=True)], [d.exists()],
    [shutil.rmtree(d, ignore_errors=True)] for a directory of
    [/volume1/temp]. *)
Definition dir_mkdir (d : string) : M World unit :=
  modify (fun w => set_temp_dirs ({[d]} ∪ temp_dirs w) w).
Definition dir_exists (d : string) : M World bool :=
  gets (fun w => bool_decide (d ∈ temp_dirs w)).
Definition rmtree (d : string) : M World unit :=
  modify (fun w => set_temp_dirs (temp_dirs w ∖ {[d]}) w).

(** [staged_file.exists()], [staged_file.unlink()] *)
Definition staged_exists (f : string) : M World bool :=
  gets (fun w => match staging w !! f with Some _ => true | None => false end).
Definition staged_unlink (f : string) : M World unit :=
  fun w =>
    match staging w !! f with
    | Some _ => (Ok tt, set_files (delete f (staging w)) (consume w) w)
    | None => (Raise (FileNotFoundError f), w)
    end.

(** [shutil.move(str(staged_file), str(CONSUME_DIR / target))]: the file
    leaves the staging directory and appears in the intake directory
    (replacing a file of that name); a missing source raises. *)
Definition move_to_consume (f target : string) : M World unit :=
  fun w =>
    match staging w !! f with
    | Some content =>
        (Ok tt, set_files (delete f (staging w))
                          (<[target := content]> (consume w)) w)
    | None => (Raise (FileNotFoundError f), w)
    end.

(** [os.chmod(CONSUME_DIR / target, 0o666)]: permissions are not part of
    the world; a missing file raises. *)
Definition chmod_consume (target : string) : M World unit :=
  fun w =>
    match consume w !! target with
    | Some _ => (Ok tt, w)
    | None => (Raise (FileNotFoundError target), w)
    end.

(** The same for a file of [WATCH_DIR]: [exists], reading, and
    [shutil.move] to the staging, intake and duplicates directories. *)
Definition watch_exists (f : string) : M World bool :=
  gets (fun w => match watch w !! f with Some _ => true | None => false end).

Definition read_watch (f : string) : M World (list byte) :=
  fun w =>
    match watch w !! f with
    | Some content => (Ok content, w)
    | None => (Raise (FileNotFoundError f), w)
    end.

Definition move_watch_to_staging (f target : string) : M World unit :=
  fun w =>
    match watch w !! f with
    | Some content =>
        (Ok tt, set_files (<[target := content]> (staging w)) (consume w)
                  (set_watch (delete f (watch w)) (duplicates w) w))
    | None => (Raise (FileNotFoundError f), w)
    end.

Definition move_watch_to_consume (f target : string) : M World unit :=
  fun w =>
    match watch w !! f with
    | Some content =>
        (Ok tt, set_files (staging w) (<[target := content]> (consume w))
                  (set_watch (delete f (watch w)) (duplicates w) w))
    | None => (Raise (FileNotFoundError f), w)
    end.

Definition move_watch_to_duplicates (f target : string) : M World unit :=
  fun w =>
    match watch w !! f with
    | Some content =>
        (Ok tt, set_watch (delete f (watch w))
                          (<[target := content]> (duplicates w)) w)
    | None => (Raise (FileNotFoundError f), w)
    end.

Definition duplicates_exists (f : string) : M World bool :=
  gets (fun w =>
          match duplicates w !! f with Some _ => true | None => false end).

Definition write_sidecar (name : string) (sc : Sidecar) : M World unit :=
  modify (fun w => set_md_buffer (<[name := sc]> (md_buffer w)) w).

(** [queue.Queue]: [put], [qsize], [empty], [task_done]. [get] is part of
    [gpu_worker_iteration] below. *)
Definition queue_put (item : Job) : M World unit :=
  modify (fun w => set_queue (ocr_queue w ++ [item])
                             (S (unfinished_tasks w)) w).
Definition queue_qsize : M World nat := gets (fun w => length (ocr_queue w)).
Definition queue_empty : M World bool :=
  gets (fun w => negb (list_truthy (ocr_queue w))).
Definition task_done : M World unit :=
  fun w =>
    match unfinished_tasks w with
    | O => (Raise (ValueError "task_done() called too many times"), w)
    | S n => (Ok tt, set_queue (ocr_queue w) n w)
    end.

Definition time_time : M World Q := gets clock.

Definition api_call_do (c : api_call) : M World unit :=
  modify (add_api_call c).

(** ** Name lookup in [gpu_worker] *)

(** Names bound at module level of ai_watchdog.py. *)
Definition module_globals : list string :=
  ["os"; "sys"; "shutil"; "base64"; "logging"; "subprocess"; "time"; "io";
   "Path"; "Any"; "TYPE_CHECKING"; "json"; "threading"; "queue"; "ocr_queue";
   "WATCH_DIR"; "CONSUME_DIR"; "MD_BUFFER_DIR"; "STAGING_DIR";
   "GPU_BUSY_FLAG"; "OLLAMA_URL"; "DPI"; "RESIZE_MAX"; "logger"; "requests";
   "Image"; "ImageEnhance"; "ImageFilter"; "convert_from_path"; "hashlib";
   "yaml"; "calculate_md5"; "load_config"; "process_file_single";
   "gpu_worker"; "recover_staged_files"; "ai_retagger"; "main";
   "process_file_and_cleanup"].

(** The locals of [gpu_worker] once the page loop of an iteration is
    done: every name the function assigns anywhere ([i], [b64], [text] and
    the names of the two branches may be stale or unset; none of them is
    read through [load_name]). *)
Definition gpu_worker_locals (prompt : string) (item : Job)
    (page_texts : list string) : list (string * pyval) :=
  [("config", PObj "config"); ("llm_client", PObj "llm_client");
   ("prompt", PStr prompt); ("item", PObj "item");
   ("uid", PStr (uid item));
   ("original_filename", PStr (original_filename item));
   ("staged_file", PStr (staged_file item));
   ("work_dir", PStr (work_dir item));
   ("b64_images", PList (b64_images item));
   ("remaining", PObj "remaining");
   ("page_texts", PList page_texts);
   ("i", PObj "i"); ("b64", PObj "b64"); ("text", PObj "text");
   ("retro_doc_id",
      match retro_doc_id item with Some z => PInt z | None => PNone end);
   ("client", PObj "client"); ("api_err", PObj "api_err");
   ("sidecar_json", PObj "sidecar_json");
   ("sidecar_data", PObj "sidecar_data");
   ("target_consume", PObj "target_consume"); ("e", PObj "e")].

Fixpoint assoc (n : string) (l : list (string * pyval)) : option pyval :=
  match l with
  | [] => None
  | (k, v) :: rest => if String.eqb n k then Some v else assoc n rest
  end.

(** Reading a name: locals, then module globals, else [NameError]. *)
Definition load_name (locals : list (string * pyval)) (n : string)
  : M World pyval :=
  match assoc n locals with
  | Some v => ret v
  | None =>
      if existsb (String.eqb n) module_globals then ret (PObj n)
      else raise (NameError n)
  end.

(** Attributes [PaperlessClient.__init__] sets on the object. *)
Definition client_attributes : list string :=
  ["api_url"; "token"; "headers"; "public_url"].

Definition getattr_client (name : string) : M World unit :=
  if existsb (String.eqb name) client_attributes then ret tt
  else raise (AttributeError name).

Definition lift {A} (r : result A) : M World A := fun w => (r, w).

(** ** Importing [modules/paperless_client.py]

    The module imports [requests] and, from [typing], [Dict], [Any] and
    [Optional] (lines 1-2), and then runs the body of the class. Each
    [def] of the body evaluates the annotations of its parameters and of
    its result when it is executed (as Python does up to version 3.13;
    the module has no [from __future__ import annotations]). A name
    that is neither a builtin nor bound by the two imports raises
    [NameError] there, and the import fails with it. *)
Definition paperless_client_globals : list string :=
  ["requests"; "Dict"; "Any"; "Optional"].

Definition builtins : list string := ["int"; "str"; "bool"; "list"; "dict"].

(** The names in the annotations of the fifteen [def]s of the class, in
    the order in which the class body evaluates them. *)
Definition paperless_client_annotations : list string :=
  ["Dict"; "str"; "Any";                 (* __init__, line 5 *)
   "int"; "str";                         (* get_document_link, 12 *)
   "int"; "int"; "str";                  (* get_comparison_link, 16 *)
   "int"; "Dict"; "str"; "Any";          (* get_document_metadata, 21 *)
   "int"; "Path"; "bool";                (* download_document, 32 *)
   "str"; "Optional"; "int";             (* get_tag_id_by_name, 47 *)
   "int"; "str";                         (* add_tag, 61 *)
   "int"; "str";                         (* remove_tag, 86 *)
   "int"; "Optional"; "Dict"; "str"; "Any";   (* get_document, 101 *)
   "int"; "Dict"; "str"; "Any"; "bool";  (* update_document, 111 *)
   "int"; "str"; "bool";                 (* add_note, 121 *)
   "int"; "str";                         (* get_document_content, 138 *)
   "str"; "list"; "dict";                (* search_documents, 148 *)
   "str"; "Optional"; "Dict"; "str"; "Any";   (* get_document_by_checksum, 168 *)
   "int"; "Optional"; "Dict"; "str"; "Any"].  (* get_document_metadata, 190 *)

Definition bound_in_paperless_client (n : string) : bool :=
  existsb (String.eqb n) paperless_client_globals
  || existsb (String.eqb n) builtins.

(** [from modules.paperless_client import PaperlessClient] *)
Definition import_paperless_client : M World unit :=
  match find (fun n => negb (bound_in_paperless_client n))
             paperless_client_annotations with
  | Some n => raise (NameError n)
  | None => ret tt
  end.

(** ** [gpu_worker] *)

Section Worker.

(** [prompt] is the OCR prompt of the configuration; [llm_generate prompt
    images] is the text [LLMClient.generate] returns (the empty string
    when it has given up, see [LLM.generate]). *)
Variable prompt : string.
Variable llm_generate : string -> list string -> string.

(** One round of [for i, b64 in enumerate(b64_images)]. *)
Definition page_text (b64 : string) : string :=
  let text := llm_generate prompt [b64] in
  if str_truthy text then text else "[OCR FEHLER]".

Definition ocr_page (item : Job) (b64 : string) : M World string :=
  let text := page_text b64 in
  log INFO ("Seite von " +:+ original_filename item +:+ " analysiert.");;
  ret text.

(** [if retro_doc_id:] *)
Definition retro_target (item : Job) : option Z :=
  match retro_doc_id item with
  | Some z => if z =? 0 then None else Some z
  | None => None
  end.

(** The retroactive branch, lines 312-334; its own [try] swallows every
    exception. The import is its first statement; [client.session] is
    looked up before the arguments of [patch] are evaluated. *)
Definition gpu_worker_retro (item : Job) (locals : list (string * pyval))
    (doc : Z) : M World unit :=
  log INFO "Updating Paperless Doc directly...";;
  try_except
    (import_paperless_client;;
     getattr_client "session";;
     v ← load_name locals "full_ai_text";
     api_call_do (PatchContent doc (pystr v));;
     api_call_do (RemoveTag doc "AI-OCR-processing");;
     api_call_do (AddTag doc "AI-OCR-done");;
     ex ← staged_exists (staged_file item);
     when ex (staged_unlink (staged_file item));;
     log INFO "Retroactive OCR abgeschlossen.")
    (fun api_err => log ERROR "API-Update Fehler bei Retro-OCR").

(** The standard branch, lines 335-355. The dict display is evaluated
    key by key, so [full_ai_text] is read before [time.time()] and before
    anything is written. *)
Definition gpu_worker_standard (item : Job) (locals : list (string * pyval))
  : M World unit :=
  let sidecar_json := uid item +:+ ".json" in
  v ← load_name locals "full_ai_text";
  now ← time_time;
  write_sidecar sidecar_json
    {| sc_metadata := [];
       sc_duplicate_info := duplicate_info item;
       sc_ai_content := pystr v;
       sc_scan_date := now;
       sc_original_filename := original_filename item;
       sc_uid := uid item |};;
  move_to_consume (staged_file item) (original_filename item);;
  chmod_consume (original_filename item);;
  log INFO "GPU-Job beendet. Dokument bereit fuer Paperless".

(** The body of the [try] of one loop round, after [ocr_queue.get()],
    lines 286-368. *)
Definition gpu_worker_try (item : Job) : M World unit :=
  flag_touch;;
  remaining ← queue_qsize;
  log INFO ("GPU beginnt mit OCR fuer: " +:+ original_filename item);;
  page_texts ← for_append (ocr_page item) (b64_images item);
  let locals := gpu_worker_locals prompt item page_texts in
  match retro_target item with
  | Some doc => gpu_worker_retro item locals doc
  | None => gpu_worker_standard item locals
  end;;
  ex ← dir_exists (work_dir item);
  when ex (rmtree (work_dir item));;
  task_done;;
  e ← queue_empty;
  when e (f ← flag_exists;
          when f (flag_unlink;;
                  log INFO "GPU ist nun wieder frei fuer Text-Aufgaben.")).

(** The [except Exception as e:] of the loop round, lines 370-390. The
    item was unpacked before anything could raise, so [work_dir] and
    [staged_file] are in [locals()]. *)
Definition gpu_worker_except (item : Job) (e : exn) : M World unit :=
  f ← flag_exists;
  when f flag_unlink;;
  log ERROR "Fehler im GPU-Worker";;
  ex ← dir_exists (work_dir item);
  when ex (rmtree (work_dir item));;
  try_except
    (st ← staged_exists (staged_file item);
     when st (move_to_consume (staged_file item) (original_filename item);;
              chmod_consume (original_filename item);;
              log WARNING "GPU-Crash. Dokument ruebergeschoben"))
    (fun _ => ret tt);;
  try_except task_done (fun _ => ret tt).

(** One round of [while True:]. [ocr_queue.get()] blocks on an empty
    queue: there is no round then ([None]). *)
Definition gpu_worker_iteration (w : World) : option (result unit * World) :=
  match ocr_queue w with
  | [] => None
  | item :: rest =>
      Some (try_except (gpu_worker_try item) (gpu_worker_except item)
              (set_queue rest (unfinished_tasks w) w))
  end.

(** The worker draining the queue: rounds until [get] blocks or the
    thread dies of an exception its handler raised. *)
Fixpoint gpu_worker (rounds : nat) (w : World) : World :=
  match rounds with
  | O => w
  | S n =>
      match gpu_worker_iteration w with
      | Some (Ok _, w') => gpu_worker n w'
      | Some (Raise _, w') => w'
      | None => w
      end
  end.

End Worker.

(** ** Page rendering: pdf2image and [DocumentOptimizer.optimize_image] *)

Section Pages.

(** [render_pdf] is pdf2image on the bytes of a PDF (the page images, or
    the exception poppler raises); [pil_pipeline] is the body of the [try]
    of [optimize_image]: open, grayscale, resize, sharpen, contrast, PNG,
    base64. Both are library code. *)
Variable Image : Type.
Variable render_pdf : list byte -> result (list Image).
Variable pil_pipeline : Image -> result string.

(** modules/document_optimizer.py, [optimize_image] with [inplace=False]. *)
Definition optimize_image (img : Image) : M World string :=
  try_except (lift (pil_pipeline img))
    (fun e => log ERROR "Error optimizing image";; ret "").

(** [convert_from_path(..., last_page=10)] followed by [image_paths.sort()]
    (the file names carry the page number, so sorting keeps page order). *)
Definition convert_from_path (content : list byte) : M World (list Image) :=
  pages ← lift (render_pdf content);
  ret (take 10 pages).

(** ai_watchdog.py, lines 196-200 (and 466-469, 540-543):
    [for p in image_paths: b64 = optimizer.optimize_image(p);
     optimized_images_b64.append(b64)]. *)
Definition optimize_pages (image_paths : list Image) : M World (list string) :=
  for_append optimize_image image_paths.

(** ai_post_consume.py, [perform_vision_retry], lines 84-87: the same
    loop with [if b64:] before the append. *)
Fixpoint retry_optimize_pages (image_paths : list Image)
  : M World (list string) :=
  match image_paths with
  | [] => ret []
  | p :: ps =>
      b64 ← optimize_image p;
      rest ← retry_optimize_pages ps;
      ret (if str_truthy b64 then b64 :: rest else rest)
  end.

(** ** [recover_staged_files] *)

(** modules/paperless_client.py, [get_document_by_checksum]: the search
    results are filtered for an exact checksum; a request error gives
    [None]. *)
Definition get_document_by_checksum (checksum : string)
  : M World (option PaperlessDoc) :=
  gets (fun w =>
          if paperless_up w
          then find (fun d => String.eqb (doc_checksum d) checksum)
                    (paperless_docs w)
          else None).

(** modules/paperless_client.py, [get_document_metadata] (the second
    definition in the class is the one in force). *)
Definition get_document_metadata (id : Z) : M World (option PaperlessDoc) :=
  gets (fun w =>
          if paperless_up w
          then find (fun d => Z.eqb (doc_id d) id) (paperless_docs w)
          else None).

Definition path_truthy (p : option string) : option string :=
  match p with
  | Some s => if str_truthy s then Some s else None
  | None => None
  end.

(** The zombie check of [process_file_single], lines 103-118: is the file
    behind a checksum match physically there? *)
Definition file_exists_check (duplicate : PaperlessDoc) : M World bool :=
  metadata ← get_document_metadata (doc_id duplicate);
  match metadata with
  | Some md =>
      gets (fun w =>
              match path_truthy (media_filename md) with
              | Some orig => bool_decide (orig ∈ media_originals w)
              | None => false
              end
              ||
              match path_truthy (archive_media_filename md) with
              | Some arch => bool_decide (arch ∈ media_archive w)
              | None => false
              end)
  | None => ret true
  end.

(** [Path.stem]: the name without its last suffix. *)
Fixpoint rfind_dot (s : string) (pos : nat) (last : option nat) : option nat :=
  match s with
  | EmptyString => last
  | String c rest =>
      rfind_dot rest (S pos) (if Ascii.eqb c "." then Some pos else last)
  end.

Definition stem (name : string) : string :=
  match rfind_dot name 0 None with
  | Some i =>
      if ((0 <? i)%nat && (i <? String.length name - 1)%nat)%bool
      then String.substring 0 i name
      else name
  | None => name
  end.

Definition is_pdf (name : string) : bool :=
  let n := String.length name in
  String.eqb (String.substring (n - 4) 4 name) ".pdf".

(** [for checksum_candidate in set([uid, actual_md5])] with its [break].
    The set has one or two members; which one Python visits first is
    not fixed, here the file-name uid comes first. *)
Fixpoint ghost_check (staged : string) (candidates : list string)
  : M World unit :=
  match candidates with
  | [] => ret tt
  | c :: rest =>
      duplicate ← get_document_by_checksum c;
      match duplicate with
      | Some d =>
          log INFO ("Ghost File erkannt: " +:+ staged);;
          staged_unlink staged
      | None => ghost_check staged rest
      end
  end.

Definition checksum_candidates (uid actual_md5 : string) : list string :=
  if String.eqb uid actual_md5 then [uid] else [uid; actual_md5].

Definition calculate_md5_staged (staged : string) : M World string :=
  fun w =>
    match staging w !! staged with
    | Some content => (Ok (calculate_md5 content), w)
    | None => (Raise (FileNotFoundError staged), w)
    end.

Definition read_staged (staged : string) : M World (list byte) :=
  fun w =>
    match staging w !! staged with
    | Some content => (Ok content, w)
    | None => (Raise (FileNotFoundError staged), w)
    end.

(** [Path.suffix] and [int(time.time())] in decimal. *)
Definition suffix (name : string) : string :=
  String.substring (String.length (stem name)) (String.length name) name.

Definition timestamp : M World string :=
  gets (fun w => NilZero.string_of_int (Z.to_int (Qfloor (clock w)))).

(** ** [process_file_single], from the rendering on *)

(** The fail-safe of lines 225-266. [have_config] says that
    [load_config()] gave a configuration a client can be built from; the
    import of line 239 sits under [if config:], inside the inner [try]
    whose handler is [pass]. *)
Definition fail_safe (have_config : bool) (input_file : string)
  : M World bool :=
  try_except
    (ex ← watch_exists input_file;
     when ex
       (file_md5 ← fun w =>
                     match watch w !! input_file with
                     | Some content => (Ok (calculate_md5 content), w)
                     | None => (Raise (FileNotFoundError input_file), w)
                     end;
        is_known_dup ←
          try_except
            (if have_config then
               import_paperless_client;;
               dup ← get_document_by_checksum file_md5;
               match dup with
               | Some d =>
                   log INFO "(Fail-Safe) Bekanntes Duplikat";;
                   ret true
               | None => ret false
               end
             else ret false)
            (fun _ => ret false);
        if (is_known_dup : bool) then
          taken ← duplicates_exists input_file;
          now ← timestamp;
          let target :=
            if (taken : bool)
            then stem input_file +:+ "_" +:+ now +:+ suffix input_file
            else input_file in
          move_watch_to_duplicates input_file target;;
          log INFO "(Fail-Safe) Duplikat nach duplicates verschoben"
        else
          log WARNING "Ueberspringe KI-Analyse (Fail-Safe).";;
          move_watch_to_consume input_file input_file;;
          chmod_consume input_file;;
          log INFO "(Fail-Safe) Original nach consume verschoben");;
     ret true)
    (fun move_e =>
       log ERROR "Kritischer Fehler beim Verschieben (Fail-Safe)";;
       ret false).

(** Lines 188-266: rendering, the page loop, staging and the queue item,
    with the fail-safe as handler. [work_dir], [img_dir] and
    [duplicate_info] are assigned only in the [except] branch of the
    binary-duplicate check (lines 138-177); [setup] holds [work_dir] and
    [duplicate_info] when that branch ran, and is [None] when it did
    not: reading [img_dir] then raises (UnboundLocalError, a NameError). *)
Definition process_file_render (have_config : bool)
    (input_file uid : string) (setup : option (string * option DupInfo))
  : M World bool :=
  try_except
    (match setup with
     | None => raise (NameError "img_dir")
     | Some (work_dir, duplicate_info) =>
         content ← read_watch input_file;
         image_paths ← convert_from_path content;
         optimized_images_b64 ← optimize_pages image_paths;
         let staged_file := uid +:+ ".pdf" in
         move_watch_to_staging input_file staged_file;;
         log INFO "CPU-Extraktion beendet.";;
         queue_put {| uid := uid;
                      original_filename := input_file;
                      staged_file := staged_file;
                      work_dir := work_dir;
                      b64_images := optimized_images_b64;
                      duplicate_info := duplicate_info;
                      retro_doc_id := None |};;
         ret true
     end)
    (fun e =>
       log ERROR ("Fehler bei CPU-Analyse von " +:+ input_file);;
       fail_safe have_config input_file).

(** The body of [for staged_file in staged_pdfs:], lines 429-489.
    [have_client] is [client is not None]. *)
Definition recover_one (have_client : bool) (staged : string) : M World unit :=
  try_except
    (let uid := stem staged in
     actual_md5 ← calculate_md5_staged staged;
     when have_client (ghost_check staged (checksum_candidates uid actual_md5));;
     still ← staged_exists staged;
     if have_client && negb still then ret tt
     else
       log INFO ("Recovering: " +:+ staged);;
       let original_filename :=
         "recovered_" +:+ String.substring 0 8 uid +:+ ".pdf" in
       let work_dir := "recovery_" +:+ String.substring 0 8 uid in
       dir_mkdir work_dir;;
       content ← read_staged staged;
       image_paths ← convert_from_path content;
       optimized_images_b64 ← optimize_pages image_paths;
       queue_put {| uid := uid;
                    original_filename := original_filename;
                    staged_file := staged;
                    work_dir := work_dir;
                    b64_images := optimized_images_b64;
                    duplicate_info := None;
                    retro_doc_id := None |};;
       log INFO ("Recovery erfolgreich: " +:+ staged))
    (fun e =>
       log ERROR ("Fehler bei Recovery von " +:+ staged);;
       try_except
         (move_to_consume staged staged;; chmod_consume staged)
         (fun _ => ret tt)).

Fixpoint for_each {A} (f : A -> M World unit) (l : list A) : M World unit :=
  match l with
  | [] => ret tt
  | x :: xs => f x;; for_each f xs
  end.

Definition is_old_work_dir (d : string) : bool := String.prefix "watch_work_" d.

(** Lines 416-427: the imports and the client, in a [try] whose bare
    [except] logs and makes the function return. [have_client] says that
    [load_config()] gave a configuration, from which the client is then
    built. *)
Definition load_recovery_modules (have_client : bool) : M World (option bool) :=
  try_except
    (import_paperless_client;;
     ret (Some have_client))
    (fun e =>
       log ERROR "Konnte Module fuer Recovery nicht laden!";;
       ret None).

(** [recover_staged_files] *)
Definition recover_staged_files (have_client : bool) : M World unit :=
  log INFO "Bereinige alte Temp-Arbeitsordner...";;
  modify (fun w =>
            set_temp_dirs
              (filter (fun d => is_old_work_dir d = false) (temp_dirs w)) w);;
  staged_pdfs ← gets (fun w => filter (fun n => is_pdf n = true)
                                      (map fst (map_to_list (staging w))));
  if list_truthy staged_pdfs then
    log INFO "Stelle abgebrochene Dokumente aus dem Staging-Ordner wieder her";;
    client ← load_recovery_modules have_client;
    match client with
    | Some have_client => for_each (recover_one have_client) staged_pdfs
    | None => ret tt
    end
  else ret tt.

End Pages.

End Watchdog.

(* ===================================================================== *)
(** * scripts/modules/llm_client.py                                       *)
(* ===================================================================== *)

Module LLM.
Import Py.

Record LLMClient := {
  host : string;                 (* GPU host *)
  cpu_host : string;             (* CPU host *)
  vision_model : string;
  summary_model : string;
  timeout : Z;
  cpu_container_name : string
}.

(** The JSON payload of a request; [None] is a key that is not set. *)
Record Payload := {
  p_model : string;
  p_prompt : string;
  p_system : option string;
  p_context : option (list Z);
  p_images : option (list string);
  p_format : option string
}.

(** What [requests.post] and the decoding of its answer do: the call
    raises, or a response arrives with a status and a body that is JSON
    (with or without a ["response"] key) or is not. *)
Inductive json_body :=
| BadJson
| Json (response : option string).

Inductive outcome :=
| ConnectionError
| Http (status : Z) (body : json_body).

Inductive event :=
| EnsureStarted (container : string)
| Post (attempt : nat) (target_host : string) (payload : Payload)
| Sleep (seconds : Z).

Definition delays : list Z := [5; 10; 15].
Definition max_attempts : nat := length delays + 1.

(** [if x:] for an optional argument. *)
Definition opt_list_truthy {A} (o : option (list A)) : bool :=
  match o with
  | Some l => list_truthy l
  | None => false
  end.

Definition opt_str_truthy (o : option string) : bool :=
  match o with
  | Some s => str_truthy s
  | None => false
  end.

Definition keep_if {A} (truthy : option A -> bool) (o : option A) : option A :=
  if truthy o then o else None.

Section Generate.

(** [strip] is [str.strip]. [gpu_busy i] is
    [os.path.exists("/volume1/temp/.gpu_busy")] when attempt [i] looks at
    it; [backend i host payload] is what the request of attempt [i]
    meets. *)
Variable strip : string -> string.
Variable gpu_busy : nat -> bool.
Variable backend : nat -> string -> Payload -> outcome.

Variable self : LLMClient.

(** Lines 37-54: the model and the host of one attempt, and the container
    start it asks for. *)
Definition route (images : option (list string)) (busy : bool)
  : string * string * list event :=
  if opt_list_truthy images then (vision_model self, host self, [])
  else if negb busy then (vision_model self, host self, [])
  else
    let target_host := cpu_host self in
    (summary_model self, target_host,
     if String.eqb target_host (cpu_host self)
     then [EnsureStarted (cpu_container_name self)] else []).

Definition make_payload (target_model prompt system : string)
    (context : option (list Z)) (images : option (list string))
    (format : option string) : Payload :=
  {| p_model := target_model;
     p_prompt := prompt;
     p_system := if str_truthy system then Some system else None;
     p_context := keep_if opt_list_truthy context;
     p_images := keep_if opt_list_truthy images;
     p_format := keep_if opt_str_truthy format |}.

(** [for attempt in range(max_attempts):] over the attempts still to
    make. The result is the returned string and the trace of what the
    call did. The [model] argument of [generate] is never read. *)
Fixpoint generate_attempts (prompt system : string)
    (context : option (list Z)) (images : option (list string))
    (format : option string) (todo : list nat) : string * list event :=
  match todo with
  | [] => (""%string, [])
  | attempt :: rest =>
      let '(target_model, target_host, started) :=
        route images (gpu_busy attempt) in
      let payload :=
        make_payload target_model prompt system context images format in
      let sent := started ++ [Post attempt target_host payload] in
      let again :=
        if (attempt <? length delays)%nat then
          let wait_time := nth attempt delays 0 in
          let '(r, t) :=
            generate_attempts prompt system context images format rest in
          (r, sent ++ Sleep wait_time :: t)
        else (""%string, sent) in
      match backend attempt target_host payload with
      | ConnectionError => again
      | Http status body =>
          if status =? 200 then
            match body with
            | Json response => (strip (default ""%string response), sent)
            | BadJson => again
            end
          else if status =? 500 then again
          else (""%string, sent)
      end
  end.

Definition generate (prompt system : string) (context : option (list Z))
    (images : option (list string)) (format : option string)
    (model : option string) : string * list event :=
  generate_attempts prompt system context images format (seq 0 max_attempts).

End Generate.

(** Observations on a trace: the waits, in order, and the attempts that
    sent a request. *)
Definition is_transient (o : outcome) : bool :=
  match o with
  | ConnectionError => true
  | Http status _ => status =? 500
  end.

Definition slept (t : list event) : list Z :=
  flat_map (fun e => match e with Sleep s => [s] | _ => [] end) t.

Definition posted (t : list event) : list nat :=
  flat_map (fun e => match e with Post a _ _ => [a] | _ => [] end) t.

(** [str.strip] on ASCII text: blanks and control characters 9-13 and
    28-31 go from both ends. White space outside ASCII, which
    [str.strip] removes as well, is not covered; the facts about
    [generate] hold for every [strip]. *)
Definition is_space (c : ascii) : bool :=
  let n := nat_of_ascii c in
  ((9 <=? n) && (n <=? 13) || (28 <=? n) && (n <=? 32))%nat.

Fixpoint lstrip (s : string) : string :=
  match s with
  | String c rest => if is_space c then lstrip rest else s
  | EmptyString => s
  end.

Definition ascii_strip (s : string) : string :=
  let l := list_ascii_of_string (lstrip s) in
  string_of_list_ascii (rev (list_ascii_of_string
    (lstrip (string_of_list_ascii (rev l))))).

End LLM.

(* ===================================================================== *)
(** * scripts/modules/chroma_client.py and duplicate_detector.py          *)
(* ===================================================================== *)

Module Duplicates.
Import Py.
Local Open Scope Q_scope.

(** Document texts are Python strings: sequences of code points, [len]
    counts code points. *)
Definition text : Type := list N.
Definition len (t : text) : nat := length t.

(** Floats are modelled by the rationals they stand for. The quotients
    the detector compares are ratios of set sizes and text lengths; for
    operands below 2^50 the rounded quotient is below the rounded
    threshold exactly when the exact quotient is below the exact one, and
    [0.85 - 0.10] and [0.90 - 0.10] are the doubles [0.75] and [0.8].
    The similarity [1.0 - distance] of a candidate is taken exactly; the
    double the code computes is that number rounded, which keeps the
    order of the candidates and can differ from it by one unit in the
    last place at a cut-off. *)
Definition Qltb (x y : Q) : bool := negb (Qle_bool y x).

(** One row of the answer of [collection.query]. *)
Record Row := {
  row_id : Z;                    (* int(doc_id_str) *)
  row_distance : Q;
  row_metadata : list (string * string);
  row_document : text
}.

(** One entry of the list [find_similar] returns. *)
Record Candidate := {
  cand_id : Z;
  cand_similarity : Q;
  cand_metadata : list (string * string);
  cand_content_preview : text
}.

(** The connected client: the embedding service and the collection. *)
Record ChromaClient := {
  generate_embedding : text -> list Q;
  collection_query : list Q -> nat -> result (list Row);
  collection_count : result nat
}.

(** [_get_embedding] *)
Definition _get_embedding (self : ChromaClient) (t : text) : list Q :=
  if list_truthy t then generate_embedding self (take (Z.to_nat 8000) t) else [].

(** [if exclude_id and doc_id == exclude_id: continue] *)
Definition excluded (exclude_id : option Z) (doc_id : Z) : bool :=
  match exclude_id with
  | Some x => negb (x =? 0)%Z && (doc_id =? x)%Z
  | None => false
  end.

Definition candidate_of_row (r : Row) : Candidate :=
  {| cand_id := row_id r;
     cand_similarity := 1 - row_distance r;
     cand_metadata := row_metadata r;
     cand_content_preview := take (Z.to_nat 4000) (row_document r) |}.

Definition keep_row (threshold : Q) (exclude_id : option Z) (r : Row) : bool :=
  negb (excluded exclude_id (row_id r))
  && Qle_bool threshold (1 - row_distance r).

(** [ChromaClient.find_similar], lines 87-128. *)
Definition find_similar (self : ChromaClient) (content : text)
    (threshold : Q) (exclude_id : option Z) (n_results : nat)
  : list Candidate :=
  let embedding := _get_embedding self content in
  if list_truthy embedding then
    match collection_query self embedding n_results with
    | Ok rows => map candidate_of_row (filter (fun r => keep_row threshold exclude_id r = true) rows)
    | Raise e => []
    end
  else [].

(** [ChromaClient.count] *)
Definition count (self : ChromaClient) : nat :=
  match collection_count self with
  | Ok n => n
  | Raise _ => O
  end.

(** What a run of the detector does to the outside. *)
Inductive event :=
| Checking (candidate_id : Z)
| AddNote (doc_id original_id : Z) (similarity : Q)
| AddTag (doc_id : Z) (tag : string).

Record Config := {
  enabled : bool;
  threshold : Q
}.

Section Detector.

(** The regular-expression extractions of the detector: [_extract_dates],
    [_extract_features], and the set of lower-cased words longer than two
    characters that [_check_word_similarity] builds for each text. *)
Variable _extract_dates : text -> gset string.
Variable _extract_features : text -> gset string.
Variable word_set : text -> gset string.

(** [self.paperless.get_document]: a document with its content, [None]
    (not found, request error), or an exception of another kind. *)
Variable get_document : Z -> result (option text).

(** [ChromaClient()]: the connected client, or the exception raised. *)
Variable new_chroma_client : result ChromaClient.

Variable config : Config.

Definition ratio (a b : nat) : Q := Z.of_nat a # Pos.of_nat b.

Definition set_truthy (s : gset string) : bool := negb (bool_decide (s = ∅)).

(** [calculate_jaccard] *)
Definition calculate_jaccard (set_a set_b : gset string) : Q :=
  if negb (set_truthy set_a) && negb (set_truthy set_b) then 0
  else
    let intersection := size (set_a ∩ set_b) in
    let union := size (set_a ∪ set_b) in
    if (0 <? union)%nat then ratio intersection union else 0.

(** [_check_word_similarity] *)
Definition _check_word_similarity (text1 text2 : text) : Q :=
  let words1 := word_set text1 in
  let words2 := word_set text2 in
  if negb (set_truthy words1) || negb (set_truthy words2) then 0
  else
    let intersection := words1 ∩ words2 in
    let union := words1 ∪ words2 in
    if set_truthy union then ratio (size intersection) (size union) else 0.

(** Lines 76-78 and 95-97. *)
Definition date_threshold (similarity : Q) : Q :=
  if Qltb (49 # 50) similarity then 1 # 2 else 4 # 5.

Definition feat_threshold (similarity : Q) : Q :=
  if Qltb (49 # 50) similarity then 1 # 2 else 4 # 5.

(** Lines 120-124. *)
Definition base_req (current_content : text) (similarity : Q) : Q :=
  let base := if (len current_content <? Z.to_nat 1500)%nat then 9 # 10 else 17 # 20 in
  if Qltb (19 # 20) similarity then base - (1 # 10) else base.

(** Lines 73-91: does the date check leave [is_confirmed_duplicate] set? *)
Definition date_check (current_content candidate_content : text)
    (similarity : Q) : bool :=
  let dates_current := _extract_dates current_content in
  let dates_candidate := _extract_dates candidate_content in
  if set_truthy dates_current && set_truthy dates_candidate then
    negb (Qltb (calculate_jaccard dates_current dates_candidate)
               (date_threshold similarity))
  else true.

(** Lines 94-105, entered with [is_confirmed_duplicate] still set. *)
Definition feature_check (current_content candidate_content : text)
    (similarity : Q) : bool :=
  let feats_current := _extract_features current_content in
  let feats_candidate := _extract_features candidate_content in
  if set_truthy feats_current && set_truthy feats_candidate then
    negb (Qltb (calculate_jaccard feats_current feats_candidate)
               (feat_threshold similarity))
  else true.

(** Lines 108-128, entered with [is_confirmed_duplicate] still set. *)
Definition word_level_check (current_content candidate_content : text)
    (similarity : Q) : bool :=
  let len_ratio :=
    if (0 <? len candidate_content)%nat
    then ratio (len current_content) (len candidate_content) else 0 in
  let is_confirmed_duplicate :=
    negb (Qltb len_ratio (4 # 5) || Qltb (5 # 4) len_ratio) in
  let word_sim := _check_word_similarity current_content candidate_content in
  if Qltb word_sim (base_req current_content similarity) then false
  else is_confirmed_duplicate.

(** The safety check of one candidate with content, lines 62-128: the
    final value of [is_confirmed_duplicate]. *)
Definition safety_check (current_content candidate_content : text)
    (similarity : Q) : bool :=
  let is_confirmed_duplicate :=
    date_check current_content candidate_content similarity in
  let is_confirmed_duplicate :=
    if is_confirmed_duplicate
    then feature_check current_content candidate_content similarity
    else false in
  if is_confirmed_duplicate
  then word_level_check current_content candidate_content similarity
  else false.

(** What the loop does with one candidate. *)
Inductive verdict := Skipped | Rejected | Confirmed.

(** Lines 54-136 for one candidate. *)
Definition check_candidate (current_content : text) (best : Candidate)
  : verdict :=
  match get_document (cand_id best) with
  | Raise e => Skipped
  | Ok None => Skipped
  | Ok (Some candidate_content) =>
      if list_truthy candidate_content then
        if safety_check current_content candidate_content
             (cand_similarity best)
        then Confirmed else Rejected
      else Skipped
  end.

Definition emit (e : event) : M (list event) unit :=
  modify (fun t => t ++ [e]).

(** [handle_duplicate]: a note on the new document and the tag
    "Duplikat"; each request sits in its own [try]. *)
Definition handle_duplicate (doc_id original_id : Z) (similarity : Q)
  : M (list event) unit :=
  emit (AddNote doc_id original_id similarity);;
  emit (AddTag doc_id "Duplikat").

(** [for best in similar:], lines 45-143; the confirmed candidate is
    returned for the record (the Python function returns [None]). *)
Fixpoint confirm_loop (document_id : Z) (current_content : text)
    (similar : list Candidate) : M (list event) (option Candidate) :=
  match similar with
  | [] => ret None
  | best :: rest =>
      emit (Checking (cand_id best));;
      match check_candidate current_content best with
      | Confirmed =>
          handle_duplicate document_id (cand_id best) (cand_similarity best);;
          ret (Some best)
      | Rejected | Skipped => confirm_loop document_id current_content rest
      end
  end.

(** [DuplicateDetector.process]; [content] is
    [document_data.get('content', '')]. *)
Definition process (document_id : Z) (content : text)
  : M (list event) (option Candidate) :=
  if negb (enabled config) then ret None
  else
    let current_content := content in
    if negb (list_truthy current_content) || (len current_content <? 50)%nat
    then ret None
    else
      match new_chroma_client with
      | Raise e => ret None
      | Ok chroma =>
          let similar :=
            find_similar chroma current_content (threshold config)
                         (Some document_id) 25 in
          if list_truthy similar
          then confirm_loop document_id current_content similar
          else let n := count chroma in ret None
      end.

End Detector.

End Duplicates.


(* ===================================================================== *)
(** * Concrete worlds, clients and documents                              *)
(* ===================================================================== *)

Module Examples.
Import Hashing Py.

(** ** A staged scan and the queue item made for it *)

Definition scan_bytes : list byte := bytes_of_string "abc".
Definition scan_uid : string := "900150983cd24fb0d6963f7d28e17f72".
Definition ocr_prompt : string := "Erkenne den Text in diesem Bild exakt.".

Definition scan_job : Watchdog.Job :=
  {| Watchdog.uid := scan_uid;
     Watchdog.original_filename := "scan.pdf";
     Watchdog.staged_file := scan_uid +:+ ".pdf";
     Watchdog.work_dir := "watch_work_1700000000_scan.pdf";
     Watchdog.b64_images := ["aGVsbG8="; "d2VsdA=="];
     Watchdog.duplicate_info := None;
     Watchdog.retro_doc_id := None |}.

(** The worker is about to dequeue [scan_job]. *)
Definition busy_world : Watchdog.World :=
  {| Watchdog.gpu_busy_flag := false;
     Watchdog.temp_dirs := {["watch_work_1700000000_scan.pdf"]};
     Watchdog.watch := ∅;
     Watchdog.duplicates := ∅;
     Watchdog.staging := {[scan_uid +:+ ".pdf" := scan_bytes]};
     Watchdog.consume := ∅;
     Watchdog.md_buffer := ∅;
     Watchdog.ocr_queue := [scan_job];
     Watchdog.unfinished_tasks := 1;
     Watchdog.clock := 1700000000 # 1;
     Watchdog.logged := [];
     Watchdog.paperless_up := true;
     Watchdog.paperless_docs := [];
     Watchdog.media_originals := ∅;
     Watchdog.media_archive := ∅;
     Watchdog.api_calls := [] |}.

(** The scan has just arrived in the watch directory. *)
Definition arrival_world : Watchdog.World :=
  {| Watchdog.gpu_busy_flag := false;
     Watchdog.temp_dirs := {["watch_work_1700000000_scan.pdf"]};
     Watchdog.watch := {["scan.pdf" := scan_bytes]};
     Watchdog.duplicates := ∅;
     Watchdog.staging := ∅;
     Watchdog.consume := ∅;
     Watchdog.md_buffer := ∅;
     Watchdog.ocr_queue := [];
     Watchdog.unfinished_tasks := 0;
     Watchdog.clock := 1700000000 # 1;
     Watchdog.logged := [];
     Watchdog.paperless_up := true;
     Watchdog.paperless_docs := [];
     Watchdog.media_originals := ∅;
     Watchdog.media_archive := ∅;
     Watchdog.api_calls := [] |}.

(** An inference backend that transcribes every page. *)
Definition transcribe (prompt : string) (images : list string) : string :=
  "Seitentext".

(** ** A restart with a zombie entry in the backend *)

(** The backend knows the checksum of the staged scan, but neither file
    of that document is on disk. *)
Definition zombie_doc : Watchdog.PaperlessDoc :=
  {| Watchdog.doc_id := 7;
     Watchdog.doc_title := "Rechnung";
     Watchdog.doc_checksum := scan_uid;
     Watchdog.media_filename := Some "2024/rechnung.pdf";
     Watchdog.archive_media_filename := Some "2024/rechnung.pdf" |}.

Definition restart_world : Watchdog.World :=
  {| Watchdog.gpu_busy_flag := false;
     Watchdog.temp_dirs := ∅;
     Watchdog.watch := ∅;
     Watchdog.duplicates := ∅;
     Watchdog.staging := {[scan_uid +:+ ".pdf" := scan_bytes]};
     Watchdog.consume := ∅;
     Watchdog.md_buffer := ∅;
     Watchdog.ocr_queue := [];
     Watchdog.unfinished_tasks := 0;
     Watchdog.clock := 1700000000 # 1;
     Watchdog.logged := [];
     Watchdog.paperless_up := true;
     Watchdog.paperless_docs := [zombie_doc];
     Watchdog.media_originals := ∅;
     Watchdog.media_archive := ∅;
     Watchdog.api_calls := [] |}.

(** Pages are numbered; page 2 cannot be opened by PIL. *)
Definition render_two (content : list byte) : result (list nat) := Ok [1; 2]%nat.

Definition pil_page (page : nat) : result string :=
  if (page =? 2)%nat then Raise (OSError "cannot identify image file")
  else Ok "aGVsbG8="%string.

(** ** An inference client with two hosts *)

Definition client : LLM.LLMClient :=
  {| LLM.host := "http://gpu:11434";
     LLM.cpu_host := "http://cpu:11434";
     LLM.vision_model := "qwen2.5vl:7b";
     LLM.summary_model := "llama3.2:3b";
     LLM.timeout := 300;
     LLM.cpu_container_name := "paperless_ollama_cpu" |}.

Definition backend_down (attempt : nat) (h : string) (p : LLM.Payload)
  : LLM.outcome := LLM.ConnectionError.

(** Two transient failures, then an answer. *)
Definition backend_recovers (attempt : nat) (h : string) (p : LLM.Payload)
  : LLM.outcome :=
  match attempt with
  | 0%nat => LLM.ConnectionError
  | 1%nat => LLM.Http 500 LLM.BadJson
  | _ => LLM.Http 200 (LLM.Json (Some "  Hallo Welt  "%string))
  end.

(** The flag file is there for the first three attempts only. *)
Definition flag_until_drained (attempt : nat) : bool := (attempt <? 3)%nat.

(** ** A duplicate run with four candidates *)

Definition text_a : Duplicates.text := repeat 65%N 60.
Definition text_b : Duplicates.text := repeat 66%N 60.

Definition dates_of (t : Duplicates.text) : gset string :=
  match t with
  | 65%N :: _ => {["1.2.2024"]}
  | 66%N :: _ => {["3.4.2023"]}
  | _ => ∅
  end.

Definition features_of (t : Duplicates.text) : gset string := ∅.

Definition words_of (t : Duplicates.text) : gset string :=
  match t with
  | 65%N :: _ => {["rechnung"; "strom"]}
  | _ => {["mahnung"]}
  end.

Definition documents (id : Z) : result (option Duplicates.text) :=
  if id =? 1 then Ok None
  else if id =? 2 then Ok (Some text_b)
  else Ok (Some text_a).

Definition row (id : Z) (distance : Q) : Duplicates.Row :=
  {| Duplicates.row_id := id;
     Duplicates.row_distance := distance;
     Duplicates.row_metadata := [];
     Duplicates.row_document := [] |}.

Definition rows : list Duplicates.Row :=
  [row 1 (1 # 100); row 2 (2 # 100); row 3 (3 # 100); row 4 (4 # 100)].

Definition chroma : Duplicates.ChromaClient :=
  {| Duplicates.generate_embedding := fun _ => [1 # 2];
     Duplicates.collection_query := fun _ _ => Ok rows;
     Duplicates.collection_count := Ok 4%nat |}.

Definition chroma_query_fails : Duplicates.ChromaClient :=
  {| Duplicates.generate_embedding := fun _ => [1 # 2];
     Duplicates.collection_query := fun _ _ => Raise (OSError "timed out");
     Duplicates.collection_count := Raise (OSError "timed out") |}.

Definition detector_config : Duplicates.Config :=
  {| Duplicates.enabled := true; Duplicates.threshold := 17 # 20 |}.

Definition candidate (id : Z) (distance : Q) : Duplicates.Candidate :=
  Duplicates.candidate_of_row (row id distance).

End Examples.

(* ===================================================================== *)
(** * scripts/modules/duplicate_detector.py: [_extract_dates]             *)
(* ===================================================================== *)

Module Dates.
Import Py.

(** The groups a match of one of the three patterns captures are runs of
    digits or month names. [str.isdigit] and [int] are modelled on runs
    of ASCII digits and on month names; decimal digits of other scripts,
    which [\d], [str.isdigit] and [int] accept as well, are not
    covered. *)
Definition is_digit (c : ascii) : bool :=
  let n := nat_of_ascii c in ((48 <=? n) && (n <=? 57))%nat.

Fixpoint all_digits (s : string) : bool :=
  match s with
  | EmptyString => true
  | String c rest => is_digit c && all_digits rest
  end.

Definition isdigit (s : string) : bool := str_truthy s && all_digits s.

Fixpoint digits_value (acc : Z) (s : string) : Z :=
  match s with
  | EmptyString => acc
  | String c rest =>
      digits_value (10 * acc + (Z.of_nat (nat_of_ascii c) - 48)) rest
  end.

(** [int(s)]: the value of a run of digits, [ValueError] for a month
    name. *)
Definition int (s : string) : result Z :=
  if isdigit s then Ok (digits_value 0 s) else Raise (ValueError s).

(** [str(n)] and [f"{n}"] for an integer. *)
Definition str (n : Z) : string := NilZero.string_of_int (Z.to_int n).

Definition map_months : gmap string string :=
  list_to_map
    [("Januar", "01"); ("Februar", "02"); ("März", "03"); ("April", "04");
     ("Mai", "05"); ("Juni", "06"); ("Juli", "07"); ("August", "08");
     ("September", "09"); ("Oktober", "10"); ("November", "11");
     ("Dezember", "12")]%string.

(** The alternatives of the month group of the second pattern. *)
Definition month_abbreviations : list string :=
  ["Jan"; "Feb"; "Mär"; "Apr"; "Mai"; "Jun"; "Jul"; "Aug"; "Sep"; "Okt";
   "Nov"; "Dez"]%string.

(** [year if year > 100 else (year+2000 if year < 50 else year+1900)] *)
Definition full_year (year : Z) : Z :=
  if 100 <? year then year
  else if year <? 50 then year + 2000 else year + 1900.

(** Lines 166-179: what one match [m], the tuple of its groups, adds to
    [found_dates]; an exception leaves the set as it is. *)
Definition add_match (found_dates : gset string) (m : list string)
  : gset string :=
  match m with
  | [day; month; year_str] =>
      if isdigit day then
        match int year_str with
        | Raise _ => found_dates
        | Ok year =>
            match int day, int month with
            | Ok d, Ok mo =>
                {[ str d +:+ "." +:+ str mo +:+ "." +:+ str (full_year year) ]}
                ∪ found_dates
            | _, _ => found_dates
            end
        end
      else found_dates
  | [month_name; year_str] =>
      if negb (isdigit month_name) then
        match int year_str with
        | Raise _ => found_dates
        | Ok year =>
            let month_num := default "00"%string (map_months !! month_name) in
            if negb (String.eqb month_num "00")
            then {[ "01." +:+ month_num +:+ "." +:+ str year ]} ∪ found_dates
            else found_dates
        end
      else found_dates
  | _ => found_dates
  end.

Section Extract.

(** [findall i text] is [re.findall(date_patterns[i], text)]: a list of
    tuples of three groups for patterns 0 and 1, of two for pattern 2. *)
Variable findall : nat -> Duplicates.text -> list (list string).

(** [_extract_dates] *)
Definition _extract_dates (t : Duplicates.text) : gset string :=
  fold_left
    (fun found_dates pattern =>
       fold_left add_match (findall pattern t) found_dates)
    [0; 1; 2]%nat ∅.

End Extract.

End Dates.

(* ===================================================================== *)
(** * scripts/modules/metadata_extractor.py: [extract_text_from_images]   *)
(* ===================================================================== *)

Module Extractor.
Import Py LLM.

Definition newline : string := String (ascii_of_nat 10) EmptyString.

(** [str(n)] for a natural number. *)
Definition str_of_nat (n : nat) : string :=
  NilZero.string_of_uint (Nat.to_uint n).

Section Images.

(** [gpu_busy n] and [backend n] are the flag and the backend as the
    call of [generate] for page [n] (counted from 0) meets them.
    [prompt] is the configured [ocr_base] prompt or its default. *)
Variable strip : string -> string.
Variable gpu_busy : nat -> nat -> bool.
Variable backend : nat -> nat -> string -> Payload -> outcome.
Variable ollama : LLMClient.
Variable prompt : string.

Definition page_error (i : nat) : string :=
  "[OCR Fehler Seite " +:+ str_of_nat (i + 1) +:+ "]".

(** [for i, b64 in enumerate(images_b64):], lines 189-195, from index
    [i] on: the pieces of [full_text] and what the calls did. *)
Fixpoint pages (i : nat) (images_b64 : list string)
  : list string * list (list event) :=
  match images_b64 with
  | [] => ([], [])
  | b64 :: rest =>
      let '(text, t) :=
        generate strip (gpu_busy i) (backend i) ollama prompt ""
                 None (Some [b64]) None None in
      let piece := if str_truthy text then text else page_error i in
      let '(full_text, calls) := pages (S i) rest in
      (piece :: full_text, t :: calls)
  end.

(** The joined text, and the trace of each call of [generate]. *)
Definition extract_text_from_images (images_b64 : list string)
  : string * list (list event) :=
  let '(full_text, calls) := pages 0 images_b64 in
  (String.concat (newline +:+ newline) full_text, calls).

End Images.

End Extractor.

(* ===================================================================== *)
(** * scripts/ai_watchdog.py: [process_file_single] as a whole            *)
(* ===================================================================== *)

Module Intake.
Import Hashing Py Watchdog.

(** What [load_config()] gives: nothing (no file, [{}]), a dict from
    which [PaperlessClient(config)] cannot be built (it raises KeyError
    on [config['paperless']], [['url']] or [['token']]), or a usable
    configuration. *)
Inductive config_state := NoConfig | BadConfig | GoodConfig.

Definition client_available (cfg : config_state) : bool :=
  match cfg with
  | GoodConfig => true
  | _ => false
  end.

Section ProcessFile.

(** pdf2image and PIL as in [Watchdog]; [extract_text] is pdfminer on the
    bytes of the file, [strip] is [str.strip]. *)
Variable Image : Type.
Variable render_pdf : list byte -> result (list Image).
Variable pil_pipeline : Image -> result string.
Variable extract_text : list byte -> result string.
Variable strip : string -> string.

Definition calculate_md5_watch (input_file : string) : M World string :=
  fun w =>
    match watch w !! input_file with
    | Some content => (Ok (calculate_md5 content), w)
    | None => (Raise (FileNotFoundError input_file), w)
    end.

(** Lines 97-137, with a client: the lookup by checksum, the zombie
    check, and the move to the duplicates folder. [Some b] means the
    function returns [b] here. These lines come after the import of
    line 90. *)
Definition binary_duplicate_check (input_file uid : string)
  : M World (option bool) :=
  duplicate ← get_document_by_checksum uid;
  match duplicate with
  | Some d =>
      file_exists ← file_exists_check d;
      if (file_exists : bool) then
        log WARNING "BINAERES DUPLIKAT erkannt.";;
        taken ← duplicates_exists input_file;
        now ← timestamp;
        let target :=
          if (taken : bool)
          then stem input_file +:+ "_" +:+ now +:+ suffix input_file
          else input_file in
        move_watch_to_duplicates input_file target;;
        log INFO "Verschiebe in Duplikat-Ordner";;
        ret (Some true)
      else
        log WARNING "Zombie-Duplikat in DB, Datei physisch nicht gefunden.";;
        ret None
  | None => ret None
  end.

(** Lines 141-171 as they run when the [try] above raised before line
    96: [llm_client] is not bound yet, so asking it for an embedding
    raises, the inner [except] logs, and [duplicate_info] stays the empty
    dict. *)
Definition pre_vision_check (input_file : string)
  : M World (option DupInfo) :=
  try_except
    (content ← read_watch input_file;
     raw_text ← lift (extract_text content);
     if str_truthy raw_text && str_truthy (strip raw_text) then
       log ERROR "Embedding-Fehler im Vor-Duplicate-Check";;
       ret None
     else ret None)
    (fun e =>
       log ERROR "Fehler beim schnellen Vor-Duplicate-Check";;
       ret None).

(** Lines 138-177: the [except] branch of the binary-duplicate check. It
    is the only place that binds [duplicate_info], [work_dir] and
    [img_dir]. *)
Definition except_branch (input_file : string)
  : M World (string * option DupInfo) :=
  log ERROR "Error checking binary duplicates";;
  duplicate_info ← pre_vision_check input_file;
  now ← timestamp;
  let work_dir := "watch_work_" +:+ now +:+ "_" +:+ input_file in
  dir_mkdir work_dir;;
  ret (work_dir, duplicate_info).

(** [process_file_single] (the import of [DocumentOptimizer] succeeds).
    The [try] of the binary-duplicate check, lines 88-137, starts with
    the import of [modules.paperless_client]; whatever raises in it
    sends the function through the [except] branch, which binds
    [work_dir] and [duplicate_info]. *)
Definition process_file_single (cfg : config_state) (input_file : string)
  : M World bool :=
  log INFO ("Starte Verarbeitung fuer: " +:+ input_file);;
  hashed ← try_except
             (uid ← calculate_md5_watch input_file; ret (Some uid))
             (fun e => log ERROR "Konnte MD5 nicht berechnen";; ret None);
  match hashed with
  | None => ret false
  | Some uid =>
      checked ←
        try_except
          (import_paperless_client;;
           match cfg with
           | NoConfig => ret (None, None)
           | BadConfig => raise (KeyError "paperless")
           | GoodConfig =>
               returned ← binary_duplicate_check input_file uid;
               ret (returned, None)
           end)
          (fun e =>
             setup ← except_branch input_file;
             ret (None, Some setup));
      match checked with
      | (Some b, _) => ret b
      | (None, setup) =>
          process_file_render Image render_pdf pil_pipeline
            (client_available cfg) input_file uid setup
      end
  end.

End ProcessFile.

End Intake.

(* ===================================================================== *)
(** * scripts/modules/llm_client.py: [LLMClient.__init__]                 *)
(* ===================================================================== *)

Module LLMConfig.
Import LLM.

(** The [ollama] section of the configuration: its string-valued keys,
    its [profiles] and its [timeout]. A section that is missing is the
    empty one. *)
Record OllamaCfg := {
  keys : gmap string string;
  profiles : gmap string (gmap string string);
  cfg_timeout : option Z
}.

(** [d.get(k, dflt)] *)
Definition get (d : gmap string string) (k dflt : string) : string :=
  default dflt (d !! k).

(** Lines 9-25. *)
Definition __init__ (ollama_cfg : OllamaCfg) : LLMClient :=
  let host := get (keys ollama_cfg) "url" "http://localhost:11434" in
  let cpu_host := get (keys ollama_cfg) "cpu_url" host in
  let prof_name := get (keys ollama_cfg) "hardware_profile" "rtx-workstation" in
  let prof := default ∅ (profiles ollama_cfg !! prof_name) in
  let model := get prof "model" (get (keys ollama_cfg) "model" "qwen2.5vl:7b") in
  let vision_model :=
    get prof "vision_model" (get (keys ollama_cfg) "vision_model" model) in
  let summary_model :=
    get prof "summary_model" (get (keys ollama_cfg) "summary_model" model) in
  {| host := host;
     cpu_host := cpu_host;
     vision_model := vision_model;
     summary_model := summary_model;
     timeout := default 300 (cfg_timeout ollama_cfg);
     cpu_container_name :=
       get (keys ollama_cfg) "cpu_container_name" "paperless_ollama_cpu" |}.

End LLMConfig.

(* ===================================================================== *)
(** * scripts/ai_post_consume.py: the sidecar and the content of [main]   *)
(* ===================================================================== *)

(** The functions [main] and [perform_vision_retry] as they are
    written. The script imports [modules.paperless_client] at its top
    (line 18), before either function is defined; see
    [Watchdog.import_paperless_client] for what that import does. *)

Module PostConsume.
Import Hashing Py.

(** What [main] reads from the dict a sidecar holds, with the defaults
    of its [.get] calls; [{}] is [empty_data]. *)
Record SidecarData := {
  ai_content : Duplicates.text;
  duplicate_info : option Watchdog.DupInfo;
  is_retry : bool
}.

Definition empty_data : SidecarData :=
  {| ai_content := []; duplicate_info := None; is_retry := false |}.

(** A file of the buffer directory: JSON that [json.load] accepts, or
    bytes it raises on. *)
Inductive buffer_file :=
| ValidJson (data : SidecarData)
| Garbage.

Inductive event :=
| VisionRetry
| UpdateContent (doc_id : Z) (content : Duplicates.text).

Record State := {
  buffer : gmap string buffer_file;      (* /volume1/temp/ai_buffer *)
  trace : list event
}.

Definition emit (e : event) : M State unit :=
  modify (fun s => {| buffer := buffer s; trace := trace s ++ [e] |}).

Definition path_exists (name : string) : M State bool :=
  gets (fun s => match buffer s !! name with Some _ => true | None => false end).

(** [json.load(open(path))] *)
Definition json_load (name : string) : M State SidecarData :=
  fun s =>
    match buffer s !! name with
    | Some (ValidJson d) => (Ok d, s)
    | Some Garbage => (Raise (ValueError "JSONDecodeError"), s)
    | None => (Raise (FileNotFoundError name), s)
    end.

(** [os.remove(path)] on a file the script may delete. *)
Definition os_remove (name : string) : M State unit :=
  fun s =>
    match buffer s !! name with
    | Some _ => (Ok tt, {| buffer := delete name (buffer s); trace := trace s |})
    | None => (Raise (FileNotFoundError name), s)
    end.

Section Main.

(** [retry_data] is what [perform_vision_retry] returns for this
    document ([{}] when it fails). *)
Variable retry_data : SidecarData.

(** Lines 157-210: the uid of the source file, the name of the sidecar,
    and the sidecar data [main] goes on with. [source] is the content of
    the file at [DOCUMENT_SOURCE_PATH] (or at [file_path]) if there is
    one. *)
Definition load_sidecar (source : option (list byte))
    (original_filename : string) : M State SidecarData :=
  let uid := post_consume_uid source in
  let sidecar_path := post_consume_sidecar_name uid original_filename in
  found ← path_exists sidecar_path;
  if (found : bool) then
    try_except
      (data ← json_load sidecar_path;
       try_except (os_remove sidecar_path) (fun delete_error => ret tt);;
       ret data)
      (fun e => ret empty_data)
  else
    emit VisionRetry;;
    ret retry_data.


End Main.


Section Retry.

(** The LLM client as in [Extractor]. *)
Variable strip : string -> string.
Variable gpu_busy : nat -> nat -> bool.
Variable backend : nat -> nat -> string -> LLM.Payload -> LLM.outcome.
Variable ollama : LLM.LLMClient.
Variable prompt : string.



End Retry.

End PostConsume.

(* ===================================================================== *)
(** * scripts/ai_watchdog.py: one round of [ai_retagger]                  *)
(* ===================================================================== *)

Module Retagger.
Import Py Watchdog.

Section Poll.

(** The import of line 503 comes first. [new_client] is
    [PaperlessClient(config)]: the object, or the exception its
    constructor raises on a configuration without the keys it reads; the
    [DocumentOptimizer] built after it only stores its two arguments.
    [poll] is the rest of the [try] body once [client.session] has been
    looked up: the request of line 511 and lines 513-565. *)
Variable new_client : result unit.
Variable poll : M World unit.

(** One round of the [while True:] of [ai_retagger], lines 497-569, for a
    [load_config()] that is truthy or not; the result is the time the
    round sleeps at its end. *)
Definition ai_retagger_round (config : bool) : M World Z :=
  try_except
    (if negb config then ret 60
     else
       import_paperless_client;;
       lift new_client;;
       getattr_client "session";;
       poll;;
       ret 300)
    (fun e =>
       log ERROR "Fehler im ai_retagger";;
       ret 60).

End Poll.

End Retagger.

(* ===================================================================== *)
(** * More concrete worlds, backends and configurations                   *)
(* ===================================================================== *)

Module MoreExamples.
Import Hashing Py.

(** ** A retroactive job at the head of the queue *)

Definition retro_job : Watchdog.Job :=
  {| Watchdog.uid := Examples.scan_uid;
     Watchdog.original_filename := "Rechnung.pdf";
     Watchdog.staged_file := Examples.scan_uid +:+ ".pdf";
     Watchdog.work_dir := "retro_90015098";
     Watchdog.b64_images := ["aGVsbG8="];
     Watchdog.duplicate_info := None;
     Watchdog.retro_doc_id := Some 42 |}.

Definition retro_world : Watchdog.World :=
  {| Watchdog.gpu_busy_flag := false;
     Watchdog.temp_dirs := {["retro_90015098"]};
     Watchdog.watch := ∅;
     Watchdog.duplicates := ∅;
     Watchdog.staging := {[Examples.scan_uid +:+ ".pdf" := Examples.scan_bytes]};
     Watchdog.consume := ∅;
     Watchdog.md_buffer := ∅;
     Watchdog.ocr_queue := [retro_job];
     Watchdog.unfinished_tasks := 1;
     Watchdog.clock := 1700000000 # 1;
     Watchdog.logged := [];
     Watchdog.paperless_up := true;
     Watchdog.paperless_docs := [];
     Watchdog.media_originals := ∅;
     Watchdog.media_archive := ∅;
     Watchdog.api_calls := [] |}.

(** ** A scan the backend already knows *)



(** ** Backends and configurations of the LLM client *)

Definition backend_not_found (attempt : nat) (h : string) (p : LLM.Payload)
  : LLM.outcome := LLM.Http 404 LLM.BadJson.

Definition backend_garbled (attempt : nat) (h : string) (p : LLM.Payload)
  : LLM.outcome := LLM.Http 200 LLM.BadJson.

Definition single_host_cfg : LLMConfig.OllamaCfg :=
  {| LLMConfig.keys := {["url" := "http://gpu:11434"; "model" := "qwen2.5vl:7b"]}%string;
     LLMConfig.profiles := ∅;
     LLMConfig.cfg_timeout := None |}.

(** The backend is down for every page. *)
Definition ocr_backend_down (page attempt : nat) (h : string)
    (p : LLM.Payload) : LLM.outcome := LLM.ConnectionError.


(** ** The buffer directory of the post-consume script *)







(** ** Matches of the three date patterns in "01.02.24, 12. Mai 2023" *)

Definition findall (pattern : nat) (t : Duplicates.text) : list (list string) :=
  match pattern with
  | 0%nat => [["01"; "02"; "24"]]
  | 1%nat => [["12"; "Mai"; "2023"]]
  | _ => [["Mai"; "2023"]]
  end%string.

End MoreExamples.
(* ===================================================================== *)
(** * Facts about the two uid computations                                *)
(* ===================================================================== *)

Module HashingFacts.
Import Hashing.

Lemma chunks_fuel_concat {A} (n : nat) :
  (0 < n)%nat ->
  forall (fuel : nat) (l : list A),
    (length l <= fuel)%nat -> concat (chunks_fuel fuel n l) = l.
Proof.
  intros Hn. induction fuel as [|f IH]; intros l Hl.
  - destruct l; simpl in *; [reflexivity | lia].
  - destruct l as [|x xs]; [reflexivity|].
    cbn [chunks_fuel concat].
    rewrite IH.
    + apply take_drop.
    + rewrite length_drop. simpl in *. lia.
Qed.

Lemma chunks_concat {A} (n : nat) (l : list A) :
  (0 < n)%nat -> concat (chunks n l) = l.
Proof. intros Hn. apply chunks_fuel_concat; [assumption | lia]. Qed.

Lemma fold_update_fed (cs : list (list byte)) (h : hasher) :
  fed (fold_left update cs h) = fed h ++ concat cs
  /\ algo (fold_left update cs h) = algo h.
Proof.
  revert h. induction cs as [|c cs IH]; intros h; simpl.
  - rewrite app_nil_r. auto.
  - destruct (IH (update h c)) as [-> ->]. simpl.
    rewrite <- app_assoc. auto.
Qed.

(** Feeding a file in reads of 4096 bytes hashes the bytes of the file. *)
Lemma read_into_new (a : algorithm) (content : list byte) :
  fed (read_into (hashlib_new a) content) = content
  /\ algo (read_into (hashlib_new a) content) = a.
Proof.
  unfold read_into.
  destruct (fold_update_fed (chunks 4096 content) (hashlib_new a)) as [-> ->].
  simpl. rewrite chunks_concat by lia. auto.
Qed.

Lemma calculate_md5_is_md5 (content : list byte) :
  calculate_md5 content = hex (md5 content).
Proof.
  unfold calculate_md5, hexdigest, digest.
  destruct (read_into_new MD5 content) as [-> ->]. reflexivity.
Qed.

Lemma post_consume_uid_is_sha256 (content : list byte) :
  post_consume_uid (Some content) = Some (hex (sha256 content)).
Proof.
  unfold post_consume_uid, hexdigest, digest.
  destruct (read_into_new SHA256 content) as [-> ->]. reflexivity.
Qed.

Lemma le_bytes_length (n : nat) (x : Z) : length (le_bytes n x) = n.
Proof. revert x. induction n; intros; simpl; auto. Qed.

Lemma md5_length (msg : list byte) : length (md5 msg) = 16%nat.
Proof.
  unfold md5.
  destruct (fold_left md5_block _ md5_init) as [[[a b] c] d].
  rewrite !length_app, !le_bytes_length. reflexivity.
Qed.

Lemma sha256_round_length (st : list Z) (kw : Z * Z) :
  length st = 8%nat -> length (sha256_round st kw) = 8%nat.
Proof.
  intros H.
  do 9 (destruct st as [|? st]; try discriminate H). reflexivity.
Qed.

Lemma fold_length_8 {B} (f : list Z -> B -> list Z) (l : list B) :
  (forall st b, length st = 8%nat -> length (f st b) = 8%nat) ->
  forall st, length st = 8%nat -> length (fold_left f l st) = 8%nat.
Proof.
  intros Hf. induction l as [|b l IH]; intros st Hst; simpl; auto.
Qed.

Lemma sha256_block_length (st : list Z) (block : list byte) :
  length st = 8%nat -> length (sha256_block st block) = 8%nat.
Proof.
  intros H. unfold sha256_block.
  rewrite length_map, length_combine.
  rewrite (fold_length_8 sha256_round); auto using sha256_round_length.
  lia.
Qed.

Lemma concat_be_bytes_length (st : list Z) :
  length (concat (map (be_bytes 4) st)) = (4 * length st)%nat.
Proof.
  induction st as [|x st IH]; [reflexivity|].
  cbn [map concat]. rewrite length_app, IH.
  unfold be_bytes. rewrite length_rev, le_bytes_length. simpl. lia.
Qed.

Lemma sha256_length (msg : list byte) : length (sha256 msg) = 32%nat.
Proof.
  unfold sha256. rewrite concat_be_bytes_length.
  rewrite (fold_length_8 sha256_block); auto using sha256_block_length.
Qed.

Lemma string_of_list_ascii_length (l : list ascii) :
  String.length (string_of_list_ascii l) = length l.
Proof. induction l; simpl; auto. Qed.

Lemma hex_length (bs : list byte) :
  String.length (hex bs) = (2 * length bs)%nat.
Proof.
  unfold hex. rewrite string_of_list_ascii_length.
  induction bs as [|b bs IH]; [reflexivity|].
  cbn [map concat]. rewrite length_app, IH. simpl. lia.
Qed.

(** The digests of the empty file and of "abc", as hashlib gives them. *)
Example md5_empty : calculate_md5 [] = "d41d8cd98f00b204e9800998ecf8427e"%string.
Proof. vm_compute. reflexivity. Qed.

Example sha256_empty :
  post_consume_uid (Some []) =
  Some "e3b0c44298fc1c149afbf4c8996fb92427ae41e4649b934ca495991b7852b855"%string.
Proof. vm_compute. reflexivity. Qed.

Example md5_abc :
  calculate_md5 (bytes_of_string "abc") = "900150983cd24fb0d6963f7d28e17f72"%string.
Proof. vm_compute. reflexivity. Qed.

Example sha256_abc :
  post_consume_uid (Some (bytes_of_string "abc")) =
  Some "ba7816bf8f01cfea414140de5dae2223b00361a396177a9cb410ff61f20015ad"%string.
Proof. vm_compute. reflexivity. Qed.

Lemma append_length (a b : string) :
  String.length (a +:+ b) = (String.length a + String.length b)%nat.
Proof. induction a; simpl; auto. Qed.

(** C2. The uid under which the watchdog stages a file and names its
    sidecar is the MD5 hex digest of the file's bytes (32 characters);
    the uid the post-consume stage computes from the same bytes is their
    SHA-256 hex digest (64 characters). For every file the two uids
    differ, and so do the sidecar name written and the sidecar name
    looked up. *)
Theorem producer_and_reader_uids_differ (content : list byte)
    (original_filename : string) :
  String.length (calculate_md5 content) = 32%nat
  /\ (exists u, post_consume_uid (Some content) = Some u
                /\ String.length u = 64%nat
                /\ u <> calculate_md5 content)
  /\ watchdog_sidecar_name (calculate_md5 content)
     <> post_consume_sidecar_name (post_consume_uid (Some content))
                                  original_filename.
Proof.
  assert (H32 : String.length (calculate_md5 content) = 32%nat).
  { rewrite calculate_md5_is_md5, hex_length, md5_length. reflexivity. }
  assert (H64 : String.length (hex (sha256 content)) = 64%nat).
  { rewrite hex_length, sha256_length. reflexivity. }
  split; [exact H32|]. split.
  - exists (hex (sha256 content)).
    split; [apply post_consume_uid_is_sha256|]. split; [exact H64|].
    intros E. rewrite E in H64. lia.
  - rewrite post_consume_uid_is_sha256.
    unfold watchdog_sidecar_name, post_consume_sidecar_name. intros E.
    apply (f_equal String.length) in E.
    rewrite !append_length, H32, H64 in E. simpl in E. lia.
Qed.

End HashingFacts.

(* ===================================================================== *)
(** * Running the monad                                                   *)
(* ===================================================================== *)

Module PyFacts.
Import Py.

Lemma bind_run {S A B} (m : M S A) (f : A -> M S B) (s : S) :
  (m ≫= f) s =
  match m s with
  | (Ok a, s') => f a s'
  | (Raise e, s') => (Raise e, s')
  end.
Proof. reflexivity. Qed.

Lemma try_except_run {S A} (body : M S A) (handler : exn -> M S A) (s : S) :
  try_except body handler s =
  match body s with
  | (Ok a, s') => (Ok a, s')
  | (Raise e, s') => handler e s'
  end.
Proof. reflexivity. Qed.

End PyFacts.

(* ===================================================================== *)
(** * Facts about the watchdog                                            *)
(* ===================================================================== *)

Module WatchdogFacts.
Import Hashing Py Watchdog PyFacts.

Lemma logged_twice (l1 l2 : list (level * string)) (w : World) :
  set_logged l2 (set_logged l1 w) = set_logged l2 w.
Proof. reflexivity. Qed.

Lemma logged_same (w : World) : set_logged (logged w) w = w.
Proof. destruct w; reflexivity. Qed.

(** Unfolds the primitive operations of the world and the monad, and
    nothing of the maps and sets they act on. *)
Ltac wcbv :=
  cbv beta iota zeta delta
      [gets modify when ret raise lift bind try_except mbind mret M_bind M_ret
       gpu_busy_flag temp_dirs watch duplicates staging consume md_buffer
       ocr_queue set_watch
       unfinished_tasks clock logged paperless_up paperless_docs
       media_originals media_archive api_calls
       set_gpu_busy_flag set_temp_dirs set_files set_md_buffer set_queue
       set_logged add_log add_api_call
       log flag_touch flag_exists flag_unlink dir_mkdir dir_exists rmtree
       staged_exists staged_unlink move_to_consume chmod_consume
       write_sidecar queue_put queue_qsize queue_empty task_done time_time
       watch_exists read_watch move_watch_to_staging move_watch_to_consume
       move_watch_to_duplicates duplicates_exists timestamp
       api_call_do get_document_by_checksum get_document_metadata
       calculate_md5_staged read_staged] in *.

(** The import of [modules.paperless_client] fails at the annotation of
    [download_document]: [Path] is bound nowhere in that module. *)
Lemma import_paperless_client_raises :
  import_paperless_client = raise (NameError "Path").
Proof. reflexivity. Qed.

Section WorkerFacts.

Variable prompt : string.
Variable llm_generate : string -> list string -> string.

Lemma ocr_page_run (item : Job) (b64 : string) (w : World) :
  ocr_page prompt llm_generate item b64 w =
  (Ok (page_text prompt llm_generate b64),
   add_log INFO ("Seite von " +:+ original_filename item +:+ " analysiert.") w).
Proof. reflexivity. Qed.

(** The page loop only logs: it returns one text per page image. *)
Lemma for_append_ocr_page (item : Job) (imgs : list string) (w : World) :
  exists extra,
    for_append (ocr_page prompt llm_generate item) imgs w
    = (Ok (map (page_text prompt llm_generate) imgs),
       set_logged (logged w ++ extra) w).
Proof.
  revert w. induction imgs as [|b imgs IH]; intros w.
  - exists []. rewrite app_nil_r, logged_same. reflexivity.
  - cbn [for_append map]. rewrite bind_run, ocr_page_run, bind_run.
    destruct (IH (add_log INFO ("Seite von " +:+ original_filename item
                                 +:+ " analysiert.") w)) as (extra & ->).
    eexists (_ :: extra).
    unfold add_log. rewrite logged_twice. cbn [logged set_logged].
    rewrite <- app_assoc. reflexivity.
Qed.

(** [full_ai_text] is bound nowhere: not by [gpu_worker], not at module
    level. *)
Lemma load_full_ai_text (item : Job) (texts : list string) (w : World) :
  load_name (gpu_worker_locals prompt item texts) "full_ai_text" w
  = (Raise (NameError "full_ai_text"), w).
Proof. reflexivity. Qed.

(** The state in which a loop round reaches the branch on
    [retro_doc_id]: the flag is set and lines were logged. *)
Lemma gpu_worker_try_prefix (item : Job) (k : list string -> M World unit)
    (w : World) :
  exists extra,
    (flag_touch;;
     remaining ← queue_qsize;
     log INFO ("GPU beginnt mit OCR fuer: " +:+ original_filename item);;
     page_texts ← for_append (ocr_page prompt llm_generate item)
                             (b64_images item);
     k page_texts) w
    = k (map (page_text prompt llm_generate) (b64_images item))
        (set_logged (logged w ++ extra) (set_gpu_busy_flag true w)).
Proof.
  rewrite bind_run. cbn [flag_touch modify].
  rewrite bind_run. unfold queue_qsize at 1. cbn [gets].
  rewrite bind_run. unfold log at 1. cbn [modify].
  rewrite bind_run.
  destruct (for_append_ocr_page item (b64_images item)
              (add_log INFO ("GPU beginnt mit OCR fuer: "
                             +:+ original_filename item)
                       (set_gpu_busy_flag true w))) as (extra & ->).
  eexists (_ :: extra). unfold add_log. rewrite logged_twice.
  cbn [logged set_logged set_gpu_busy_flag]. rewrite <- app_assoc.
  reflexivity.
Qed.

(** A standard job always raises [NameError] before anything is written. *)
Lemma standard_raises (item : Job) (w : World) :
  retro_target item = None ->
  exists extra,
    gpu_worker_try prompt llm_generate item w =
    (Raise (NameError "full_ai_text"),
     set_logged (logged w ++ extra) (set_gpu_busy_flag true w)).
Proof.
  intros Hr. unfold gpu_worker_try.
  destruct (gpu_worker_try_prefix item
    (fun page_texts =>
       let locals := gpu_worker_locals prompt item page_texts in
       match retro_target item with
       | Some doc => gpu_worker_retro item locals doc
       | None => gpu_worker_standard item locals
       end;;
       ex ← dir_exists (work_dir item);
       when ex (rmtree (work_dir item));;
       task_done;;
       e ← queue_empty;
       when e (f ← flag_exists;
               when f (flag_unlink;;
                       log INFO "GPU ist nun wieder frei fuer Text-Aufgaben.")))
    w) as (extra & E).
  exists extra. etransitivity; [exact E|]. clear E.
  cbv zeta. rewrite Hr, bind_run. unfold gpu_worker_standard.
  rewrite bind_run, load_full_ai_text. reflexivity.
Qed.

(** A retroactive job never leaves the [try] by an exception while the
    queue counts it as unfinished. *)
Lemma retro_returns (item : Job) (doc : Z) (w : World) :
  retro_target item = Some doc ->
  (0 < unfinished_tasks w)%nat ->
  exists w', gpu_worker_try prompt llm_generate item w = (Ok tt, w').
Proof.
  intros Hr Hn.
  destruct w as [flag dirs wa du stg con buf q n clk lg up docs mo ma calls].
  cbn [unfinished_tasks] in Hn. destruct n as [|n]; [lia|].
  match goal with |- context [gpu_worker_try _ _ _ ?w0] =>
    destruct (gpu_worker_try_prefix item
      (fun page_texts =>
         let locals := gpu_worker_locals prompt item page_texts in
         match retro_target item with
         | Some doc => gpu_worker_retro item locals doc
         | None => gpu_worker_standard item locals
         end;;
         ex ← dir_exists (work_dir item);
         when ex (rmtree (work_dir item));;
         task_done;;
         e ← queue_empty;
         when e (f ← flag_exists;
                 when f (flag_unlink;;
                         log INFO "GPU ist nun wieder frei fuer Text-Aufgaben.")))
      w0) as (extra & E)
  end.
  destruct (bool_decide (work_dir item ∈ dirs)) eqn:Hd.
  all: destruct q as [|j q].
  all: eexists; (etransitivity; [exact E|]); cbv zeta; rewrite Hr.
  all: unfold gpu_worker_retro; rewrite import_paperless_client_raises.
  all: wcbv; rewrite Hd; cbn [list_truthy negb]; reflexivity.
Qed.

(** What the [except] branch of a loop round leaves behind, from any
    state an exception can leave. *)
Lemma gpu_worker_except_run (item : Job) (e : exn) (w1 : World) :
  exists w',
    gpu_worker_except item e w1 = (Ok tt, w')
    /\ gpu_busy_flag w' = false
    /\ (work_dir item ∉ temp_dirs w')
    /\ staging w' !! staged_file item = None
    /\ (forall c, staging w1 !! staged_file item = Some c ->
                  consume w' !! original_filename item = Some c)
    /\ (staging w1 !! staged_file item = None -> consume w' = consume w1)
    /\ unfinished_tasks w' = pred (unfinished_tasks w1)
    /\ md_buffer w' = md_buffer w1
    /\ ocr_queue w' = ocr_queue w1.
Proof.
  destruct w1 as [flag dirs wa du stg con buf q n clk lg up docs mo ma calls].
  unfold gpu_worker_except. wcbv.
  destruct flag; wcbv.
  all: destruct (bool_decide (work_dir item ∈ dirs)) eqn:Hd; wcbv.
  all: destruct (stg !! staged_file item) as [c|] eqn:Hs; wcbv.
  all: rewrite ?Hs, ?lookup_insert_eq; wcbv.
  all: destruct n as [|n]; wcbv.
  all: eexists; split; [reflexivity|]; wcbv.
  all: rewrite ?lookup_delete_eq, ?lookup_insert_eq.
  all: apply bool_decide_eq_true in Hd || apply bool_decide_eq_false in Hd.
  all: repeat split; try done.
  all: apply not_elem_of_difference; right; apply elem_of_singleton; reflexivity.
Qed.

(** C1. A job without a retroactive target never gets its sidecar: the
    loop round reads the unbound name [full_ai_text] while it builds the
    sidecar data, so nothing is written to the buffer directory; the
    [except] branch then hands the staged file to the intake directory
    as it is. *)
Theorem standard_job_writes_no_sidecar (w : World) (item : Job)
    (rest : list Job) :
  ocr_queue w = item :: rest ->
  retro_target item = None ->
  exists w',
    gpu_worker_iteration prompt llm_generate w = Some (Ok tt, w')
    /\ md_buffer w' = md_buffer w
    /\ md_buffer w' !! (uid item +:+ ".json") = md_buffer w !! (uid item +:+ ".json")
    /\ (forall c, staging w !! staged_file item = Some c ->
                  consume w' !! original_filename item = Some c
                  /\ staging w' !! staged_file item = None).
Proof.
  intros Hq Hr. unfold gpu_worker_iteration. rewrite Hq.
  rewrite try_except_run.
  destruct (standard_raises item (set_queue rest (unfinished_tasks w) w) Hr)
    as (extra & ->).
  destruct (gpu_worker_except_run item (NameError "full_ai_text")
              (set_logged (logged (set_queue rest (unfinished_tasks w) w) ++ extra)
                 (set_gpu_busy_flag true
                    (set_queue rest (unfinished_tasks w) w))))
    as (w' & -> & _ & _ & Hst & Hco & _ & _ & Hbuf & _).
  exists w'. split; [reflexivity|].
  cbn [md_buffer staging set_logged set_gpu_busy_flag set_queue] in *.
  rewrite Hbuf. repeat split; auto.
Qed.

(** C4. Whatever exception ends the [try] of a loop round, and in
    whatever state, the [except] branch ends normally and leaves the
    GPU-busy flag removed, the job's working directory removed, the
    staged file out of the staging directory and, if it was still there,
    in the intake directory under the job's file name, and one
    [task_done] counted. For a round as a whole: when the body raises for
    a dequeued job that the queue still counts as unfinished, the round
    ends normally with all of this done and [task_done] counted exactly
    once for the job. *)
Theorem gpu_worker_exception_cleanup :
  (forall (item : Job) (e : exn) (w1 : World),
     exists w',
       gpu_worker_except item e w1 = (Ok tt, w')
       /\ gpu_busy_flag w' = false
       /\ (work_dir item ∉ temp_dirs w')
       /\ staging w' !! staged_file item = None
       /\ (forall c, staging w1 !! staged_file item = Some c ->
                     consume w' !! original_filename item = Some c)
       /\ unfinished_tasks w' = pred (unfinished_tasks w1))
  /\ (forall (w : World) (item : Job) (rest : list Job) (e : exn)
             (w1 : World),
        ocr_queue w = item :: rest ->
        (length (ocr_queue w) <= unfinished_tasks w)%nat ->
        gpu_worker_try prompt llm_generate item
          (set_queue rest (unfinished_tasks w) w) = (Raise e, w1) ->
        exists w',
          gpu_worker_iteration prompt llm_generate w = Some (Ok tt, w')
          /\ gpu_busy_flag w' = false
          /\ (work_dir item ∉ temp_dirs w')
          /\ staging w' !! staged_file item = None
          /\ (forall c, staging w1 !! staged_file item = Some c ->
                        consume w' !! original_filename item = Some c)
          /\ S (unfinished_tasks w') = unfinished_tasks w).
Proof.
  split.
  - intros item e w1.
    destruct (gpu_worker_except_run item e w1)
      as (w' & E & Hflag & Hdir & Hst & Hco & _ & Hdone & _ & _).
    exists w'. repeat split; auto.
  - intros w item rest e w1 Hq Hinv Hraise.
    assert (Hpos : (0 < unfinished_tasks w)%nat).
    { rewrite Hq in Hinv. simpl in Hinv. lia. }
    assert (Hn : unfinished_tasks w1 = unfinished_tasks w).
    { destruct (retro_target item) as [doc|] eqn:Hr.
      - destruct (retro_returns item doc
                    (set_queue rest (unfinished_tasks w) w) Hr) as (w2 & E).
        + exact Hpos.
        + rewrite E in Hraise. discriminate.
      - destruct (standard_raises item
                    (set_queue rest (unfinished_tasks w) w) Hr)
          as (extra & E).
        rewrite E in Hraise. injection Hraise as _ <-. reflexivity. }
    unfold gpu_worker_iteration. rewrite Hq, try_except_run, Hraise.
    destruct (gpu_worker_except_run item e w1)
      as (w' & -> & Hflag & Hdir & Hst & Hco & _ & Hdone & _ & _).
    exists w'. split; [reflexivity|].
    repeat split; auto. rewrite Hdone, Hn. lia.
Qed.

End WorkerFacts.

Lemma standard_job_writes_no_sidecar_witness :
  ocr_queue Examples.busy_world = [Examples.scan_job]
  /\ retro_target Examples.scan_job = None
  /\ exists w',
       gpu_worker_iteration Examples.ocr_prompt Examples.transcribe
         Examples.busy_world = Some (Ok tt, w')
       /\ md_buffer w' = md_buffer Examples.busy_world
       /\ md_buffer w' !! (uid Examples.scan_job +:+ ".json")
          = md_buffer Examples.busy_world !! (uid Examples.scan_job +:+ ".json")
       /\ (forall c,
             staging Examples.busy_world !! staged_file Examples.scan_job
               = Some c ->
             consume w' !! original_filename Examples.scan_job = Some c
             /\ staging w' !! staged_file Examples.scan_job = None).
Proof.
  split; [reflexivity|]. split; [reflexivity|].
  apply (standard_job_writes_no_sidecar Examples.ocr_prompt
           Examples.transcribe Examples.busy_world Examples.scan_job []);
    reflexivity.
Defined.

(** The same round, run: no sidecar, the scan in the intake directory,
    the staging directory empty, the flag gone, nothing left to do. *)
Example standard_job_round :
  exists w',
    gpu_worker_iteration Examples.ocr_prompt Examples.transcribe
      Examples.busy_world = Some (Ok tt, w')
    /\ md_buffer w' = ∅
    /\ consume w' = {["scan.pdf"%string := Examples.scan_bytes]}
    /\ staging w' = ∅
    /\ temp_dirs w' = ∅
    /\ gpu_busy_flag w' = false
    /\ unfinished_tasks w' = 0%nat
    /\ ocr_queue w' = [].
Proof.
  eexists. split; [vm_compute; reflexivity|].
  repeat split; vm_compute; reflexivity.
Qed.

Lemma gpu_worker_exception_cleanup_witness :
  ocr_queue Examples.busy_world = [Examples.scan_job]
  /\ (length (ocr_queue Examples.busy_world)
       <= unfinished_tasks Examples.busy_world)%nat
  /\ exists w1,
       gpu_worker_try Examples.ocr_prompt Examples.transcribe
         Examples.scan_job
         (set_queue [] (unfinished_tasks Examples.busy_world)
                    Examples.busy_world)
       = (Raise (NameError "full_ai_text"), w1)
       /\ exists w',
            gpu_worker_iteration Examples.ocr_prompt Examples.transcribe
              Examples.busy_world = Some (Ok tt, w')
            /\ gpu_busy_flag w' = false
            /\ (work_dir Examples.scan_job ∉ temp_dirs w')
            /\ staging w' !! staged_file Examples.scan_job = None
            /\ (forall c,
                  staging w1 !! staged_file Examples.scan_job = Some c ->
                  consume w' !! original_filename Examples.scan_job = Some c)
            /\ S (unfinished_tasks w') = unfinished_tasks Examples.busy_world.
Proof.
  split; [reflexivity|]. split; [simpl; lia|].
  eexists. split; [vm_compute; reflexivity|].
  destruct (gpu_worker_exception_cleanup Examples.ocr_prompt
              Examples.transcribe) as [_ Hround].
  apply (Hround Examples.busy_world Examples.scan_job []
                (NameError "full_ai_text")).
  - reflexivity.
  - simpl. lia.
  - vm_compute. reflexivity.
Defined.

Section PagesFacts.

Variable Image : Type.
Variable render_pdf : list byte -> result (list Image).
Variable pil_pipeline : Image -> result string.

Lemma optimize_image_run (img : Image) (w : World) :
  optimize_image Image pil_pipeline img w =
  match pil_pipeline img with
  | Ok b64 => (Ok b64, w)
  | Raise e => (Ok ""%string, add_log ERROR "Error optimizing image" w)
  end.
Proof.
  unfold optimize_image. rewrite try_except_run. unfold lift.
  destruct (pil_pipeline img); reflexivity.
Qed.

(** The page loop of the watchdog: one string per page, the empty string
    for a page whose normalization raised, and an error line logged for
    each such page. *)
Lemma optimize_pages_run (pages : list Image) (w : World) :
  exists extra,
    optimize_pages Image pil_pipeline pages w =
    (Ok (map (fun img => match pil_pipeline img with
                         | Ok b64 => b64
                         | Raise _ => ""%string
                         end) pages),
     set_logged (logged w ++ extra) w)
    /\ (forall img e, In img pages -> pil_pipeline img = Raise e ->
                      In (ERROR, "Error optimizing image"%string) extra).
Proof.
  unfold optimize_pages. revert w.
  induction pages as [|p ps IH]; intros w.
  - exists []. rewrite app_nil_r, logged_same. split; [reflexivity|].
    intros ? ? [].
  - cbn [for_append map]. rewrite bind_run, optimize_image_run.
    destruct (pil_pipeline p) as [b64|e0] eqn:Hp.
    + destruct (IH w) as (extra & E & Hlog).
      rewrite bind_run, E. exists extra. split; [reflexivity|].
      intros img e [<-|Hin] He; [congruence | eauto].
    + destruct (IH (add_log ERROR "Error optimizing image" w))
        as (extra & E & Hlog).
      rewrite bind_run, E. eexists (_ :: extra). split.
      * unfold add_log. rewrite logged_twice. cbn [logged set_logged].
        rewrite <- app_assoc. reflexivity.
      * intros img e [<-|Hin] He; [left; reflexivity | right; eauto].
Qed.

(** The loop of [perform_vision_retry] on the same pages: the same
    strings with the empty ones left out. *)
Lemma retry_optimize_pages_run (pages : list Image) (w : World) :
  exists w',
    retry_optimize_pages Image pil_pipeline pages w =
    (Ok (List.filter str_truthy
           (map (fun img => match pil_pipeline img with
                            | Ok b64 => b64
                            | Raise _ => ""%string
                            end) pages)), w').
Proof.
  revert w. induction pages as [|p ps IH]; intros w.
  - exists w. reflexivity.
  - cbn [retry_optimize_pages map List.filter].
    rewrite bind_run, optimize_image_run.
    destruct (pil_pipeline p) as [b64|e0].
    + destruct (IH w) as (w' & E). rewrite bind_run, E.
      exists w'. reflexivity.
    + destruct (IH (add_log ERROR "Error optimizing image" w)) as (w' & E).
      rewrite bind_run, E. exists w'. reflexivity.
Qed.

(** The loop never drops a page: one entry per page, the empty string
    at the index of every page whose normalization raised. *)
Lemma optimize_pages_keeps_failed (pages : list Image) (w : World) :
  exists out w',
    optimize_pages Image pil_pipeline pages w = (Ok out, w')
    /\ length out = length pages
    /\ (forall i img e,
          pages !! i = Some img -> pil_pipeline img = Raise e ->
          out !! i = Some ""%string
          /\ In (ERROR, "Error optimizing image"%string) (logged w')).
Proof.
  destruct (optimize_pages_run pages w) as (extra & E & Hlog).
  eexists _, _. split; [exact E|]. split.
  - apply length_map.
  - intros i img e Hi He. split.
    + rewrite list_lookup_fmap, Hi. cbn. rewrite He. reflexivity.
    + cbn [logged set_logged]. apply in_or_app. right.
      apply (Hlog img e); [|exact He].
      apply list_elem_of_In. eapply list_elem_of_lookup_2. exact Hi.
Qed.

(** C9. For a file that is rendered into pages, [process_file_single]
    logs the failure of a page's normalization, goes on with the other
    pages and enqueues the job; but the page is not dropped: the job's
    [b64_images] has one entry per rendered page, and the entry of a
    failed page is the empty string. *)
Theorem failed_page_is_kept_as_empty_string (have_config : bool)
    (input_file uid work_dir : string) (info : option DupInfo)
    (content : list byte) (pages : list Image) (w : World) :
  watch w !! input_file = Some content ->
  render_pdf content = Ok pages ->
  exists w' job,
    process_file_render Image render_pdf pil_pipeline have_config
      input_file uid (Some (work_dir, info)) w = (Ok true, w')
    /\ ocr_queue w' = ocr_queue w ++ [job]
    /\ length (b64_images job) = length (take 10 pages)
    /\ (forall i img e,
          take 10 pages !! i = Some img -> pil_pipeline img = Raise e ->
          b64_images job !! i = Some ""%string
          /\ In (ERROR, "Error optimizing image"%string) (logged w')).
Proof.
  intros Hw Hrender. unfold process_file_render.
  rewrite try_except_run, bind_run.
  unfold read_watch at 1. rewrite Hw.
  rewrite bind_run. unfold convert_from_path at 1.
  rewrite bind_run. unfold lift at 1. rewrite Hrender.
  cbn [mret M_ret ret]. rewrite bind_run.
  destruct (optimize_pages_run (take 10 pages) w) as (extra & -> & Hlog).
  rewrite bind_run. unfold move_watch_to_staging at 1.
  cbn [watch set_logged]. rewrite Hw.
  rewrite bind_run. unfold log at 1. cbn [modify].
  rewrite bind_run. unfold queue_put at 1. cbn [modify].
  cbn [mret M_ret ret].
  eexists _, _. split; [reflexivity|].
  cbn [ocr_queue logged set_queue set_logged add_log set_files set_watch].
  split; [reflexivity|].
  cbn [b64_images]. split; [apply length_map|].
  intros i img e Hi He. split.
  - rewrite list_lookup_fmap, Hi. cbn. rewrite He. reflexivity.
  - apply in_or_app. left. apply in_or_app. right.
    apply (Hlog img e); [|exact He].
    apply list_elem_of_In. eapply list_elem_of_lookup_2. exact Hi.
Qed.

(** Were the binary-duplicate check to end without an exception, the
    names of the working directory would be unbound and no job enqueued:
    the fail-safe hands the file to the intake directory. *)
Lemma process_file_without_setup (input_file uid : string)
    (content : list byte) (w : World) :
  watch w !! input_file = Some content ->
  exists w',
    process_file_render Image render_pdf pil_pipeline false
      input_file uid None w = (Ok true, w')
    /\ ocr_queue w' = ocr_queue w
    /\ consume w' !! input_file = Some content
    /\ watch w' !! input_file = None.
Proof.
  intros Hw.
  destruct w as [flag dirs wa du stg con buf q n clk lg up docs mo ma calls].
  cbn [watch] in Hw.
  unfold process_file_render, fail_safe. wcbv.
  repeat (progress (rewrite ?Hw, ?lookup_insert_eq; wcbv)).
  eexists. split; [reflexivity|]. wcbv.
  rewrite lookup_insert_eq, lookup_delete_eq. auto.
Qed.

(** A checksum match found among the candidates deletes the staged
    file. *)
Lemma ghost_check_deletes (staged : string) (content : list byte)
    (candidates : list string) (c : string) (d : PaperlessDoc) (w : World) :
  staging w !! staged = Some content ->
  paperless_up w = true ->
  In c candidates ->
  find (fun d => String.eqb (doc_checksum d) c) (paperless_docs w) = Some d ->
  exists extra,
    ghost_check staged candidates w =
    (Ok tt, set_logged (logged w ++ extra)
              (set_files (delete staged (staging w)) (consume w) w)).
Proof.
  intros Hs Hup Hin Hfind.
  destruct w as [flag dirs wa du stg con buf q n clk lg up docs mo ma calls].
  cbn [staging paperless_up paperless_docs] in *. subst up.
  induction candidates as [|c0 cs IH]; [destruct Hin|].
  cbn [ghost_check]. wcbv.
  destruct (find (fun d0 => String.eqb (doc_checksum d0) c0) docs)
    as [d0|] eqn:H0.
  - wcbv. rewrite Hs. eexists [_]. reflexivity.
  - destruct Hin as [->|Hin]; [congruence|]. apply IH. exact Hin.
Qed.

(** Without a match nothing happens to the staged file. *)
Lemma ghost_check_no_match (staged : string) (candidates : list string)
    (w : World) :
  (paperless_up w = false \/
   forall c, In c candidates ->
     find (fun d => String.eqb (doc_checksum d) c) (paperless_docs w) = None) ->
  ghost_check staged candidates w = (Ok tt, w).
Proof.
  intros H.
  induction candidates as [|c0 cs IH]; [reflexivity|].
  cbn [ghost_check]. rewrite bind_run.
  unfold get_document_by_checksum at 1. cbn [gets].
  destruct H as [Hup|Hnone].
  - rewrite Hup. apply IH. left. exact Hup.
  - rewrite (Hnone c0) by (left; reflexivity).
    destruct (paperless_up w); apply IH; right; intros c Hc;
      apply Hnone; right; exact Hc.
Qed.

(** The body of the loop over the staged files, which is reached only
    when the imports of lines 416-423 succeed. There a staged file whose
    MD5 matches the checksum of a backend document is deleted and not
    enqueued, whatever the state of that document's files: the loop
    never asks for the metadata of the match, it does not run the zombie
    check that [process_file_single] has. *)
Lemma loop_deletes_on_any_checksum_match (staged : string)
    (content : list byte) (d : PaperlessDoc) (w : World) :
  staging w !! staged = Some content ->
  paperless_up w = true ->
  find (fun d => String.eqb (doc_checksum d) (calculate_md5 content))
       (paperless_docs w) = Some d ->
  exists w',
    recover_one Image render_pdf pil_pipeline true staged w = (Ok tt, w')
    /\ staging w' !! staged = None
    /\ ocr_queue w' = ocr_queue w
    /\ consume w' = consume w.
Proof.
  intros Hs Hup Hfind. unfold recover_one.
  rewrite try_except_run, bind_run.
  unfold calculate_md5_staged at 1. rewrite Hs.
  rewrite bind_run. cbn [when].
  destruct (ghost_check_deletes staged content
              (checksum_candidates (stem staged) (calculate_md5 content))
              (calculate_md5 content) d w Hs Hup) as (extra & ->).
  { unfold checksum_candidates.
    destruct (String.eqb (stem staged) (calculate_md5 content)) eqn:E.
    - apply String.eqb_eq in E. rewrite E. left. reflexivity.
    - right. left. reflexivity. }
  { exact Hfind. }
  rewrite bind_run. unfold staged_exists at 1. cbn [gets].
  cbn [staging set_logged set_files]. rewrite lookup_delete_eq.
  cbn [andb negb]. eexists. split; [reflexivity|].
  cbn [staging ocr_queue consume set_logged set_files].
  rewrite lookup_delete_eq. auto.
Qed.

(** The loop body without a checksum match: the staged file is rendered
    again and enqueued as a fresh job. *)
Lemma loop_requeues_without_match (staged : string)
    (content : list byte) (pages : list Image) (w : World) :
  staging w !! staged = Some content ->
  (paperless_up w = false \/
   forall c, In c (checksum_candidates (stem staged) (calculate_md5 content)) ->
     find (fun d => String.eqb (doc_checksum d) c) (paperless_docs w) = None) ->
  render_pdf content = Ok pages ->
  exists w' job,
    recover_one Image render_pdf pil_pipeline true staged w = (Ok tt, w')
    /\ ocr_queue w' = ocr_queue w ++ [job]
    /\ uid job = stem staged
    /\ staged_file job = staged
    /\ retro_doc_id job = None
    /\ length (b64_images job) = length (take 10 pages)
    /\ staging w' !! staged = Some content.
Proof.
  intros Hs Hnone Hrender. unfold recover_one.
  rewrite try_except_run, bind_run.
  unfold calculate_md5_staged at 1. rewrite Hs.
  rewrite bind_run. cbn [when].
  rewrite ghost_check_no_match by exact Hnone.
  rewrite bind_run. unfold staged_exists at 1. cbn [gets]. rewrite Hs.
  cbn [andb negb].
  rewrite bind_run. unfold log at 1. cbn [modify].
  rewrite bind_run. unfold dir_mkdir at 1. cbn [modify].
  rewrite bind_run. unfold read_staged at 1.
  cbn [staging set_temp_dirs add_log set_logged]. rewrite Hs.
  rewrite bind_run. unfold convert_from_path at 1.
  rewrite bind_run. unfold lift at 1. rewrite Hrender.
  cbn [mret M_ret ret].
  rewrite bind_run.
  match goal with |- context [optimize_pages _ _ ?ps ?w0] =>
    destruct (optimize_pages_run ps w0) as (extra & -> & _)
  end.
  rewrite bind_run. unfold queue_put at 1. cbn [modify].
  unfold log. cbn [modify].
  eexists _, _. split; [reflexivity|].
  cbn [ocr_queue staging set_queue set_logged add_log set_temp_dirs].
  split; [reflexivity|].
  cbn [uid staged_file retro_doc_id b64_images].
  rewrite length_map. repeat split; auto.
Qed.

(** [recover_staged_files] as it runs: the purge, and with a PDF in the
    staging directory the announcement, the failed import and the error
    entry. The loop is not entered. *)
Lemma recover_staged_files_run (have_client : bool) (w : World) :
  exists extra,
    recover_staged_files Image render_pdf pil_pipeline have_client w
    = (Ok tt,
       set_logged (logged w ++ extra)
         (set_temp_dirs
            (filter (fun d => is_old_work_dir d = false) (temp_dirs w)) w))
    /\ forall staged content,
         staging w !! staged = Some content -> is_pdf staged = true ->
         In (ERROR, "Konnte Module fuer Recovery nicht laden!"%string) extra.
Proof.
  destruct w as [flag dirs wa du stg con buf q n clk lg up docs mo ma calls].
  unfold recover_staged_files, load_recovery_modules.
  rewrite import_paperless_client_raises. wcbv.
  destruct (filter (fun n0 => is_pdf n0 = true) (map fst (map_to_list stg)))
    as [|p l] eqn:El; cbn [list_truthy].
  - eexists [_]. split; [reflexivity|].
    intros staged content Hs Hp. exfalso.
    assert (Hin : staged ∈ filter (fun n0 => is_pdf n0 = true)
                            (map fst (map_to_list stg))).
    { apply list_elem_of_filter. split; [exact Hp|].
      apply list_elem_of_fmap. exists (staged, content).
      split; [reflexivity|]. apply elem_of_map_to_list. exact Hs. }
    rewrite El in Hin. inversion Hin.
  - eexists [_; _; _]. split; [rewrite <- !app_assoc; reflexivity|].
    intros _ _ _ _. cbn [In]. auto.
Qed.

(** C3. As shipped, recovery never gets to the staged files. After the
    purge of the old working directories, and with a PDF in the staging
    directory, [recover_staged_files] fails to import
    [modules.paperless_client] ([NameError] at the annotation [Path] of
    its line 32), logs that the modules could not be loaded, and
    returns. No staged file is deleted, none is rendered or enqueued,
    none is moved to the intake directory, whatever the backend knows
    about it: a ghost is not cleaned up, and a file without a match or
    with a zombie match is not re-enqueued. *)
Theorem recovery_stops_at_the_imports (have_client : bool) (w : World) :
  exists w',
    recover_staged_files Image render_pdf pil_pipeline have_client w
    = (Ok tt, w')
    /\ staging w' = staging w
    /\ ocr_queue w' = ocr_queue w
    /\ unfinished_tasks w' = unfinished_tasks w
    /\ consume w' = consume w
    /\ forall staged content,
         staging w !! staged = Some content -> is_pdf staged = true ->
         staging w' !! staged = Some content
         /\ In (ERROR, "Konnte Module fuer Recovery nicht laden!"%string)
               (logged w').
Proof.
  destruct (recover_staged_files_run have_client w) as (extra & E & Hlog).
  eexists. split; [exact E|].
  cbn [staging ocr_queue unfinished_tasks consume set_logged set_temp_dirs].
  split; [reflexivity|]. split; [reflexivity|]. split; [reflexivity|].
  split; [reflexivity|].
  intros staged content Hs Hp. split; [exact Hs|].
  cbn [logged set_logged set_temp_dirs]. apply in_or_app. right.
  exact (Hlog staged content Hs Hp).
Qed.

End PagesFacts.

(** Page 2 of two fails: both entries are there, the second one empty;
    the loop of the post-consume retry leaves it out. *)
Lemma failed_page_is_kept_as_empty_string_witness :
  watch Examples.arrival_world !! "scan.pdf"%string = Some Examples.scan_bytes
  /\ Examples.render_two Examples.scan_bytes = Ok [1; 2]%nat
  /\ Examples.pil_page 2 = Raise (OSError "cannot identify image file")
  /\ exists w' job,
       process_file_render nat Examples.render_two Examples.pil_page true
         "scan.pdf" Examples.scan_uid
         (Some ("watch_work_1700000000_scan.pdf"%string, None))
         Examples.arrival_world = (Ok true, w')
       /\ ocr_queue w' = ocr_queue Examples.arrival_world ++ [job]
       /\ length (b64_images job) = length (take 10 [1; 2]%nat)
       /\ (forall i img e,
             take 10 [1; 2]%nat !! i = Some img ->
             Examples.pil_page img = Raise e ->
             b64_images job !! i = Some ""%string
             /\ In (ERROR, "Error optimizing image"%string) (logged w')).
Proof.
  split; [vm_compute; reflexivity|].
  split; [reflexivity|]. split; [reflexivity|].
  apply (failed_page_is_kept_as_empty_string nat Examples.render_two
           Examples.pil_page true "scan.pdf" Examples.scan_uid
           "watch_work_1700000000_scan.pdf" None Examples.scan_bytes
           [1; 2]%nat Examples.arrival_world).
  - vm_compute. reflexivity.
  - reflexivity.
Defined.

(** The job that is enqueued for that scan carries the empty page. *)
Example failed_page_job :
  exists w',
    process_file_render nat Examples.render_two Examples.pil_page true
      "scan.pdf" Examples.scan_uid
      (Some ("watch_work_1700000000_scan.pdf"%string, None))
      Examples.arrival_world = (Ok true, w')
    /\ map b64_images (ocr_queue w') = [["aGVsbG8="; ""]%string]
    /\ watch w' = ∅
    /\ staging w' = {[Examples.scan_uid +:+ ".pdf" := Examples.scan_bytes]}.
Proof.
  eexists. split; [vm_compute; reflexivity|].
  repeat split; vm_compute; reflexivity.
Qed.

Example failed_page_round :
  fst (optimize_pages nat Examples.pil_page [1; 2]%nat Examples.restart_world)
    = Ok ["aGVsbG8="; ""]%string
  /\ fst (retry_optimize_pages nat Examples.pil_page [1; 2]%nat
            Examples.restart_world)
    = Ok ["aGVsbG8="]%string.
Proof. split; vm_compute; reflexivity. Qed.

(** The restart with the zombie entry: the backend knows the checksum of
    the staged scan and has neither of its files; the scan is still in
    the staging directory after recovery and no job has been made for
    it. *)
Lemma recovery_stops_at_the_imports_witness :
  find (fun d => String.eqb (doc_checksum d)
                            (calculate_md5 Examples.scan_bytes))
       (paperless_docs Examples.restart_world) = Some Examples.zombie_doc
  /\ file_exists_check Examples.zombie_doc Examples.restart_world
     = (Ok false, Examples.restart_world)
  /\ exists w',
       recover_staged_files nat Examples.render_two Examples.pil_page true
         Examples.restart_world = (Ok tt, w')
       /\ staging w' !! (Examples.scan_uid +:+ ".pdf")
          = Some Examples.scan_bytes
       /\ ocr_queue w' = []
       /\ In (ERROR, "Konnte Module fuer Recovery nicht laden!"%string)
             (logged w').
Proof.
  split; [vm_compute; reflexivity|].
  split; [vm_compute; reflexivity|].
  destruct (recovery_stops_at_the_imports nat Examples.render_two
              Examples.pil_page true Examples.restart_world)
    as (w' & E & _ & Hq & _ & _ & Hstaged).
  destruct (Hstaged (Examples.scan_uid +:+ ".pdf") Examples.scan_bytes)
    as (Hs & Hlog).
  - vm_compute. reflexivity.
  - vm_compute. reflexivity.
  - exists w'. split; [exact E|]. split; [exact Hs|].
    split; [exact Hq | exact Hlog].
Defined.

(** The whole recovery on that restart: the scan stays where it is and
    the queue stays empty. *)
Example zombie_restart :
  exists w',
    recover_staged_files nat Examples.render_two Examples.pil_page true
      Examples.restart_world = (Ok tt, w')
    /\ staging w' = staging Examples.restart_world
    /\ consume w' = ∅ /\ ocr_queue w' = []
    /\ logged w'
       = [(INFO, "Bereinige alte Temp-Arbeitsordner...");
          (INFO, "Stelle abgebrochene Dokumente aus dem Staging-Ordner wieder her");
          (ERROR, "Konnte Module fuer Recovery nicht laden!")]%string.
Proof.
  eexists. split; [vm_compute; reflexivity|].
  repeat split; vm_compute; reflexivity.
Qed.

End WatchdogFacts.

(* ===================================================================== *)
(** * Facts about [LLMClient.generate]                                    *)
(* ===================================================================== *)

Module LLMFacts.
Import Py LLM.

Section GenerateFacts.

Variable strip : string -> string.
Variable gpu_busy : nat -> bool.
Variable backend : nat -> string -> Payload -> outcome.
Variable self : LLMClient.

Variables (prompt system : string) (context : option (list Z))
          (images : option (list string)) (format : option string).

Abbreviation attempts := (generate_attempts strip gpu_busy backend self
                            prompt system context images format).

(** The three rows of the routing table. *)
Lemma route_vision (busy : bool) :
  opt_list_truthy images = true ->
  route self images busy = (vision_model self, host self, []).
Proof. intros H. unfold route. rewrite H. reflexivity. Qed.

Lemma route_text_free :
  opt_list_truthy images = false ->
  route self images false = (vision_model self, host self, []).
Proof. intros H. unfold route. rewrite H. reflexivity. Qed.

Lemma route_text_busy :
  opt_list_truthy images = false ->
  route self images true =
  (summary_model self, cpu_host self, [EnsureStarted (cpu_container_name self)]).
Proof. intros H. unfold route. rewrite H, String.eqb_refl. reflexivity. Qed.

(** The events of one attempt before the answer is looked at. *)
Lemma route_started (busy : bool) (a : nat) (h : string) (p : Payload) :
  ~ In (Post a h p) (snd (route self images busy)).
Proof.
  unfold route. destruct (opt_list_truthy images); [intros []|].
  destruct busy; cbn [negb snd]; [|intros []].
  rewrite String.eqb_refl. intros [H|[]]. discriminate.
Qed.

Lemma route_slept (busy : bool) : slept (snd (route self images busy)) = [].
Proof.
  unfold route. destruct (opt_list_truthy images); [reflexivity|].
  destruct busy; cbn [negb snd]; [|reflexivity].
  rewrite String.eqb_refl. reflexivity.
Qed.

Lemma route_posted (busy : bool) : posted (snd (route self images busy)) = [].
Proof.
  unfold route. destruct (opt_list_truthy images); [reflexivity|].
  destruct busy; cbn [negb snd]; [|reflexivity].
  rewrite String.eqb_refl. reflexivity.
Qed.

(** Every request in the trace was sent where [route] said, with the
    model [route] chose, by an attempt of the list. *)
Lemma attempts_posts (todo : list nat) (a : nat) (h : string) (p : Payload) :
  In (Post a h p) (snd (attempts todo)) ->
  In a todo
  /\ h = snd (fst (route self images (gpu_busy a)))
  /\ p_model p = fst (fst (route self images (gpu_busy a))).
Proof.
  induction todo as [|a0 rest IH]; [intros []|].
  cbn [generate_attempts].
  pose proof (route_started (gpu_busy a0) a h p) as Hst.
  destruct (route self images (gpu_busy a0)) as [[m0 h0] st] eqn:Hr.
  cbn [snd] in Hst.
  assert (Hsent : In (Post a h p)
                     (st ++ [Post a0 h0
                               (make_payload m0 prompt system context images
                                             format)]) ->
                  In a (a0 :: rest)
                  /\ h = snd (fst (route self images (gpu_busy a)))
                  /\ p_model p = fst (fst (route self images (gpu_busy a)))).
  { intros H. apply in_app_or in H. destruct H as [H|[H|[]]]; [tauto|].
    injection H as <- <- <-. rewrite Hr. cbn. auto. }
  assert (Hagain : In (Post a h p)
      (snd (if (a0 <? length delays)%nat
            then let '(r, t) := attempts rest in
                 (r, (st ++ [Post a0 h0
                               (make_payload m0 prompt system context images
                                             format)])
                     ++ Sleep (nth a0 delays 0) :: t)
            else (""%string,
                  st ++ [Post a0 h0
                           (make_payload m0 prompt system context images
                                         format)]))) ->
                  In a (a0 :: rest)
                  /\ h = snd (fst (route self images (gpu_busy a)))
                  /\ p_model p = fst (fst (route self images (gpu_busy a)))).
  { destruct (a0 <? length delays)%nat; [|exact Hsent].
    destruct (attempts rest) as [r t]. cbn [snd] in *.
    intros H. apply in_app_or in H. destruct H as [H|[H|H]].
    - auto.
    - discriminate.
    - destruct (IH H) as (? & ? & ?). split; [right|]; auto. }
  destruct (backend a0 h0 _) as [|status body]; [exact Hagain|].
  destruct (status =? 200).
  - destruct body; [exact Hagain | exact Hsent].
  - destruct (status =? 500); [exact Hagain | exact Hsent].
Qed.

(** The first attempt always sends its request. *)
Lemma attempts_first_post (a0 : nat) (rest : list nat) :
  exists h p, In (Post a0 h p) (snd (attempts (a0 :: rest))).
Proof.
  cbn [generate_attempts].
  destruct (route self images (gpu_busy a0)) as [[m0 h0] st].
  exists h0, (make_payload m0 prompt system context images format).
  assert (Hsent : forall l, In (Post a0 h0 (make_payload m0 prompt system context images format))
                    ((st ++ [Post a0 h0 (make_payload m0 prompt system context images format)]) ++ l)).
  { intros l. apply in_or_app. left. apply in_or_app. right. left. reflexivity. }
  assert (Hsent0 := Hsent []). rewrite app_nil_r in Hsent0.
  assert (Hagain : In (Post a0 h0 (make_payload m0 prompt system context images format))
      (snd (if (a0 <? length delays)%nat
            then let '(r, t) := attempts rest in
                 (r, (st ++ [Post a0 h0
                               (make_payload m0 prompt system context images
                                             format)])
                     ++ Sleep (nth a0 delays 0) :: t)
            else (""%string,
                  st ++ [Post a0 h0
                           (make_payload m0 prompt system context images
                                         format)])))).
  { destruct (a0 <? length delays)%nat; [|exact Hsent0].
    destruct (attempts rest) as [r t]. apply Hsent. }
  destruct (backend a0 h0 _) as [|status body]; [exact Hagain|].
  destruct (status =? 200).
  - destruct body; [exact Hagain | exact Hsent0].
  - destruct (status =? 500); [exact Hagain | exact Hsent0].
Qed.

(** C5. Every call of [generate] sends a request, and every request it
    sends goes: with images, to the primary host with the vision model
    whatever the GPU-busy flag; without images and with no flag file when
    the attempt looks, to the primary host with the vision model; without
    images and with the flag file there, to the CPU host with the summary
    model. *)
Theorem generate_routing (model : option string) :
  let trace :=
    snd (generate strip gpu_busy backend self prompt system context images
                  format model) in
  (exists h p, In (Post 0 h p) trace)
  /\ forall attempt h p,
       In (Post attempt h p) trace ->
       (opt_list_truthy images = true ->
          h = host self /\ p_model p = vision_model self)
       /\ (opt_list_truthy images = false -> gpu_busy attempt = false ->
             h = host self /\ p_model p = vision_model self)
       /\ (opt_list_truthy images = false -> gpu_busy attempt = true ->
             h = cpu_host self /\ p_model p = summary_model self).
Proof.
  cbv zeta. unfold generate. split.
  - apply (attempts_first_post 0).
  - intros attempt h p Hin.
    destruct (attempts_posts _ _ _ _ Hin) as (_ & -> & ->).
    split; [|split].
    + intros Hi. rewrite route_vision by exact Hi. split; reflexivity.
    + intros Hi Hb. rewrite Hb, route_text_free by exact Hi.
      split; reflexivity.
    + intros Hi Hb. rewrite Hb, route_text_busy by exact Hi.
      split; reflexivity.
Qed.

Abbreviation sent a :=
  (snd (route self images (gpu_busy a))
   ++ [Post a (snd (fst (route self images (gpu_busy a))))
         (make_payload (fst (fst (route self images (gpu_busy a))))
                       prompt system context images format)]).

Lemma slept_app (t1 t2 : list event) : slept (t1 ++ t2) = slept t1 ++ slept t2.
Proof. apply flat_map_app. Qed.

Lemma posted_app (t1 t2 : list event) :
  posted (t1 ++ t2) = posted t1 ++ posted t2.
Proof. apply flat_map_app. Qed.

(** An attempt that meets a connection error or an HTTP 500: wait and go
    on while a delay is left for it, else give up with the empty string. *)
Lemma attempt_transient (a : nat) (rest : list nat) :
  (forall h p, is_transient (backend a h p) = true) ->
  attempts (a :: rest) =
  if (a <? length delays)%nat
  then (fst (attempts rest),
        sent a ++ Sleep (nth a delays 0) :: snd (attempts rest))
  else (""%string, sent a).
Proof.
  intros H. cbn [generate_attempts].
  destruct (route self images (gpu_busy a)) as [[m h] st]. cbn [fst snd].
  specialize (H h (make_payload m prompt system context images format)).
  destruct (attempts rest) as [r t]. cbn [fst snd].
  destruct (backend a h _) as [|status body]; [reflexivity|].
  cbn [is_transient] in H. apply Z.eqb_eq in H. subst status.
  reflexivity.
Qed.

(** An attempt that is answered 200 with a response text returns it
    stripped. *)
Lemma attempt_success (a : nat) (rest : list nat) (t : string) :
  (forall h p, backend a h p = Http 200 (Json (Some t))) ->
  attempts (a :: rest) = (strip t, sent a).
Proof.
  intros H. cbn [generate_attempts].
  destruct (route self images (gpu_busy a)) as [[m h] st]. cbn [fst snd].
  rewrite H. reflexivity.
Qed.

(** C6. [generate] never raises (it is a total function to strings). If
    the first [k] attempts meet a transient failure (a connection
    exception or HTTP 500) then: for [k = 4] the call made four attempts,
    waited 5, 10 and 15 seconds between them and returned the empty
    string; for [k < 4], if attempt [k] is answered 200 with a response
    text, the call waited the first [k] delays, made [k + 1] attempts and
    returned that text (stripped, as [generate] strips it). *)
Theorem generate_retries (model : option string) (k : nat) :
  (k <= 4)%nat ->
  (forall i h p, (i < k)%nat -> is_transient (backend i h p) = true) ->
  let r := generate strip gpu_busy backend self prompt system context images
                    format model in
  (k = 4%nat ->
     fst r = ""%string
     /\ slept (snd r) = [5; 10; 15]
     /\ posted (snd r) = [0; 1; 2; 3]%nat)
  /\ (forall t, (k < 4)%nat ->
        (forall h p, backend k h p = Http 200 (Json (Some t))) ->
        fst r = strip t
        /\ slept (snd r) = take k [5; 10; 15]
        /\ posted (snd r) = seq 0 (S k)).
Proof.
  intros Hk Htr. cbv zeta. unfold generate.
  change (seq 0 max_attempts) with [0; 1; 2; 3]%nat.
  split.
  - intros ->.
    rewrite !attempt_transient by (intros; apply Htr; lia).
    cbn [Nat.ltb Nat.leb length delays nth fst snd].
    repeat (rewrite ?slept_app, ?posted_app, ?route_slept, ?route_posted;
            cbn [slept posted flat_map app]).
    auto.
  - intros t Hlt Hok.
    destruct k as [|[|[|[|k]]]]; [| | | |lia].
    all: rewrite ?(attempt_transient 0), ?(attempt_transient 1),
           ?(attempt_transient 2) by (intros; apply Htr; lia).
    all: rewrite (attempt_success _ _ t) by exact Hok.
    all: cbn [Nat.ltb Nat.leb length delays nth fst snd].
    all: repeat (rewrite ?slept_app, ?posted_app, ?route_slept, ?route_posted;
                 cbn [slept posted flat_map app]).
    all: auto.
Qed.

End GenerateFacts.

(** The scenario of the specification: a text request while the flag is
    set goes to the CPU host for three attempts and back to the GPU host
    once the flag is cleared. *)
Example routed_back_after_drain :
  snd (generate ascii_strip Examples.flag_until_drained Examples.backend_down
         Examples.client "Fasse zusammen" "" None None None None)
  = [EnsureStarted "paperless_ollama_cpu";
     Post 0 "http://cpu:11434"
       (make_payload "llama3.2:3b" "Fasse zusammen" "" None None None);
     Sleep 5;
     EnsureStarted "paperless_ollama_cpu";
     Post 1 "http://cpu:11434"
       (make_payload "llama3.2:3b" "Fasse zusammen" "" None None None);
     Sleep 10;
     EnsureStarted "paperless_ollama_cpu";
     Post 2 "http://cpu:11434"
       (make_payload "llama3.2:3b" "Fasse zusammen" "" None None None);
     Sleep 15;
     Post 3 "http://gpu:11434"
       (make_payload "qwen2.5vl:7b" "Fasse zusammen" "" None None None)].
Proof. vm_compute. reflexivity. Qed.

(** A vision request while the flag is set, and a text request with the
    flag set for the first three attempts. *)
Lemma generate_routing_witness :
  (forall attempt h p,
     In (Post attempt h p)
        (snd (generate ascii_strip (fun _ => true) Examples.backend_down
                Examples.client "Erkenne den Text" "" None
                (Some ["aGVsbG8="%string]) None None)) ->
     h = "http://gpu:11434"%string /\ p_model p = "qwen2.5vl:7b"%string)
  /\ (forall h p,
        In (Post 0 h p)
           (snd (generate ascii_strip Examples.flag_until_drained
                   Examples.backend_down Examples.client "Fasse zusammen" ""
                   None None None None)) ->
        h = "http://cpu:11434"%string /\ p_model p = "llama3.2:3b"%string)
  /\ (forall h p,
        In (Post 3 h p)
           (snd (generate ascii_strip Examples.flag_until_drained
                   Examples.backend_down Examples.client "Fasse zusammen" ""
                   None None None None)) ->
        h = "http://gpu:11434"%string /\ p_model p = "qwen2.5vl:7b"%string).
Proof.
  split; [|split].
  - intros attempt h p Hin.
    destruct (generate_routing ascii_strip (fun _ => true)
                Examples.backend_down Examples.client "Erkenne den Text" ""
                None (Some ["aGVsbG8="%string]) None None) as [_ Hall].
    destruct (Hall attempt h p Hin) as (Hvision & _ & _).
    apply Hvision. reflexivity.
  - intros h p Hin.
    destruct (generate_routing ascii_strip Examples.flag_until_drained
                Examples.backend_down Examples.client "Fasse zusammen" ""
                None None None None) as [_ Hall].
    destruct (Hall 0%nat h p Hin) as (_ & _ & Hbusy).
    apply Hbusy; reflexivity.
  - intros h p Hin.
    destruct (generate_routing ascii_strip Examples.flag_until_drained
                Examples.backend_down Examples.client "Fasse zusammen" ""
                None None None None) as [_ Hall].
    destruct (Hall 3%nat h p Hin) as (_ & Hfree & _).
    apply Hfree; reflexivity.
Defined.

Lemma generate_retries_witness :
  (let r := generate ascii_strip Examples.flag_until_drained
              Examples.backend_down Examples.client "Erkenne den Text" ""
              None (Some ["aGVsbG8="%string]) None None in
   fst r = ""%string
   /\ slept (snd r) = [5; 10; 15]
   /\ posted (snd r) = [0; 1; 2; 3]%nat)
  /\ (let r := generate ascii_strip Examples.flag_until_drained
                 Examples.backend_recovers Examples.client "Erkenne den Text"
                 "" None (Some ["aGVsbG8="%string]) None None in
      fst r = "Hallo Welt"%string
      /\ slept (snd r) = [5; 10]
      /\ posted (snd r) = [0; 1; 2]%nat).
Proof.
  split.
  - assert (H4 : (4 <= 4)%nat) by lia.
    assert (Hdown : forall i h p, (i < 4)%nat ->
                      is_transient (Examples.backend_down i h p) = true)
      by reflexivity.
    destruct (generate_retries ascii_strip Examples.flag_until_drained
                Examples.backend_down Examples.client "Erkenne den Text" ""
                None (Some ["aGVsbG8="%string]) None None 4 H4 Hdown)
      as [Hall _].
    apply Hall. reflexivity.
  - assert (H2 : (2 <= 4)%nat) by lia.
    assert (Htwo : forall i h p, (i < 2)%nat ->
                     is_transient (Examples.backend_recovers i h p) = true).
    { intros [|[|i]] h p Hi; [reflexivity | reflexivity | lia]. }
    destruct (generate_retries ascii_strip Examples.flag_until_drained
                Examples.backend_recovers Examples.client "Erkenne den Text"
                "" None (Some ["aGVsbG8="%string]) None None 2 H2 Htwo)
      as [_ Hok].
    apply (Hok "  Hallo Welt  "%string); [lia | reflexivity].
Defined.


End LLMFacts.

(* ===================================================================== *)
(** * Facts about the duplicate detector                                  *)
(* ===================================================================== *)

Module DuplicatesFacts.
Import Py Duplicates PyFacts.
Local Open Scope Q_scope.

Lemma Qltb_lt (x y : Q) : Qltb x y = true <-> x < y.
Proof.
  unfold Qltb. rewrite negb_true_iff. split.
  - intros H. apply Qnot_le_lt. intros Hle.
    apply Qle_bool_iff in Hle. congruence.
  - intros H. destruct (Qle_bool y x) eqn:E; [|reflexivity].
    apply Qle_bool_iff in E. exfalso. exact (Qlt_not_le _ _ H E).
Qed.

Lemma Qltb_ge (x y : Q) : Qltb x y = false <-> y <= x.
Proof.
  unfold Qltb. rewrite negb_false_iff. apply Qle_bool_iff.
Qed.

(** Above 0.98 the threshold is 0.5, up to 0.98 it is 0.8. *)
Lemma date_threshold_high (s : Q) : (49 # 50) < s -> date_threshold s = 1 # 2.
Proof.
  intros H. unfold date_threshold. apply Qltb_lt in H. rewrite H. reflexivity.
Qed.

Lemma date_threshold_low (s : Q) : s <= (49 # 50) -> date_threshold s = 4 # 5.
Proof.
  intros H. unfold date_threshold. apply Qltb_ge in H. rewrite H. reflexivity.
Qed.

Lemma feat_threshold_high (s : Q) : (49 # 50) < s -> feat_threshold s = 1 # 2.
Proof. exact (date_threshold_high s). Qed.

Lemma feat_threshold_low (s : Q) : s <= (49 # 50) -> feat_threshold s = 4 # 5.
Proof. exact (date_threshold_low s). Qed.

Lemma date_threshold_antitone (s1 s2 : Q) :
  s1 <= s2 -> date_threshold s2 <= date_threshold s1.
Proof.
  intros H. unfold date_threshold.
  destruct (Qltb (49 # 50) s1) eqn:E1; destruct (Qltb (49 # 50) s2) eqn:E2.
  - apply Qle_refl.
  - apply Qltb_lt in E1. apply Qltb_ge in E2. exfalso.
    apply (Qlt_not_le _ _ E1). eapply Qle_trans; eassumption.
  - discriminate.
  - apply Qle_refl.
Qed.

Lemma feat_threshold_antitone (s1 s2 : Q) :
  s1 <= s2 -> feat_threshold s2 <= feat_threshold s1.
Proof. exact (date_threshold_antitone s1 s2). Qed.

Section DetectorFacts.

Variable _extract_dates : text -> gset string.
Variable _extract_features : text -> gset string.
Variable word_set : text -> gset string.
Variable get_document : Z -> result (option text).
Variable new_chroma_client : result ChromaClient.
Variable config : Config.

(** C8. The Jaccard thresholds of the date check and of the feature
    check are antitone in the embedding similarity: 0.8 up to a
    similarity of 0.98 and 0.5 above it. A date or feature check that a
    pair of texts passes at some similarity is passed at every higher
    similarity. *)
Theorem thresholds_antitone (s1 s2 : Q) :
  s1 <= s2 ->
  date_threshold s2 <= date_threshold s1
  /\ feat_threshold s2 <= feat_threshold s1
  /\ (s1 <= (49 # 50) -> date_threshold s1 = 4 # 5 /\ feat_threshold s1 = 4 # 5)
  /\ ((49 # 50) < s2 -> date_threshold s2 = 1 # 2 /\ feat_threshold s2 = 1 # 2)
  /\ (forall current candidate,
        date_check _extract_dates current candidate s1 = true ->
        date_check _extract_dates current candidate s2 = true)
  /\ (forall current candidate,
        feature_check _extract_features current candidate s1 = true ->
        feature_check _extract_features current candidate s2 = true).
Proof.
  intros H.
  split; [exact (date_threshold_antitone s1 s2 H)|].
  split; [exact (feat_threshold_antitone s1 s2 H)|].
  split; [intros Hl; split;
          [apply date_threshold_low | apply feat_threshold_low]; exact Hl|].
  split; [intros Hh; split;
          [apply date_threshold_high | apply feat_threshold_high]; exact Hh|].
  split.
  - intros current candidate. unfold date_check.
    destruct (_ && _); [|auto].
    rewrite !negb_true_iff, !Qltb_ge. intros Hj.
    eapply Qle_trans; [exact (date_threshold_antitone s1 s2 H) | exact Hj].
  - intros current candidate. unfold feature_check.
    destruct (_ && _); [|auto].
    rewrite !negb_true_iff, !Qltb_ge. intros Hj.
    eapply Qle_trans; [exact (feat_threshold_antitone s1 s2 H) | exact Hj].
Qed.

Abbreviation check := (check_candidate _extract_dates _extract_features
                         word_set get_document).
Abbreviation loop := (confirm_loop _extract_dates _extract_features
                        word_set get_document).
Abbreviation run := (process _extract_dates _extract_features word_set
                       get_document new_chroma_client config).

Lemma emit_run (e : event) (t : list event) : emit e t = (Ok tt, t ++ [e]).
Proof. reflexivity. Qed.

(** The loop over candidates none of which is confirmed examines them
    all, in order, and confirms nothing. *)
Lemma loop_none (document_id : Z) (current : text) (l : list Candidate)
    (t : list event) :
  Forall (fun c => check current c <> Confirmed) l ->
  loop document_id current l t =
  (Ok None, t ++ map (fun c => Checking (cand_id c)) l).
Proof.
  intros H. revert t. induction H as [|c l Hc _ IH]; intros t.
  - cbn. rewrite app_nil_r. reflexivity.
  - cbn [confirm_loop map]. rewrite bind_run, emit_run.
    destruct (check current c); [| |congruence].
    all: rewrite IH, <- app_assoc; reflexivity.
Qed.

Lemma handle_duplicate_run (doc_id original_id : Z) (similarity : Q)
    (t : list event) :
  handle_duplicate doc_id original_id similarity t =
  (Ok tt, t ++ [AddNote doc_id original_id similarity;
                AddTag doc_id "Duplikat"]).
Proof.
  unfold handle_duplicate. rewrite bind_run, !emit_run, <- app_assoc.
  reflexivity.
Qed.

(** The loop stops at the first candidate that is confirmed. *)
Lemma loop_first (document_id : Z) (current : text)
    (before : list Candidate) (c : Candidate) (after : list Candidate)
    (t : list event) :
  Forall (fun b => check current b <> Confirmed) before ->
  check current c = Confirmed ->
  loop document_id current (before ++ c :: after) t =
  (Ok (Some c),
   t ++ map (fun b => Checking (cand_id b)) (before ++ [c])
     ++ [AddNote document_id (cand_id c) (cand_similarity c);
         AddTag document_id "Duplikat"]).
Proof.
  intros H Hc. revert t. induction H as [|b l Hb _ IH]; intros t.
  - cbn [app confirm_loop map]. rewrite bind_run, emit_run, Hc.
    rewrite bind_run, handle_duplicate_run, <- !app_assoc. reflexivity.
  - cbn [app confirm_loop map]. rewrite bind_run, emit_run.
    destruct (check current b); [| |congruence].
    all: rewrite IH, <- !app_assoc; reflexivity.
Qed.

(** [find_similar] keeps the order of the rows of the query; rows in
    ascending distance give candidates in descending similarity. *)
Lemma find_similar_sorted (chroma : ChromaClient) (content : text)
    (thr : Q) (exclude_id : option Z) (n : nat) (rows : list Row) :
  collection_query chroma (_get_embedding chroma content) n = Ok rows ->
  StronglySorted (fun a b => row_distance a <= row_distance b) rows ->
  StronglySorted (fun a b => cand_similarity b <= cand_similarity a)
                 (find_similar chroma content thr exclude_id n).
Proof.
  intros Hq Hs. unfold find_similar.
  destruct (list_truthy (_get_embedding chroma content)); [|constructor].
  rewrite Hq. clear Hq.
  induction Hs as [|r rows Hs IH Hall]; [constructor|].
  rewrite filter_cons. destruct (decide (keep_row thr exclude_id r = true)).
  - cbn [map]. constructor; [exact IH|].
    apply Forall_forall. intros c Hc.
    apply list_elem_of_fmap in Hc. destruct Hc as (r' & -> & Hr').
    apply list_elem_of_filter in Hr'. destruct Hr' as [_ Hr'].
    rewrite Forall_forall in Hall. specialize (Hall r' Hr').
    cbn [cand_similarity candidate_of_row]. unfold Qminus.
    apply Qplus_le_compat; [apply Qle_refl|].
    apply Qopp_le_compat. exact Hall.
  - exact IH.
Qed.

Lemma run_reaches_loop (document_id : Z) (content : text)
    (chroma : ChromaClient) (t : list event) :
  enabled config = true ->
  (50 <= len content)%nat ->
  new_chroma_client = Ok chroma ->
  find_similar chroma content (threshold config) (Some document_id) 25 <> [] ->
  run document_id content t =
  loop document_id content
       (find_similar chroma content (threshold config) (Some document_id) 25)
       t.
Proof.
  intros He Hl Hc Hs. unfold process. rewrite He, Hc. cbn [negb].
  assert (list_truthy content = true) as ->.
  { destruct content; [cbn in Hl; lia | reflexivity]. }
  assert ((len content <? 50)%nat = false) as ->.
  { apply Nat.ltb_ge. exact Hl. }
  cbn [negb orb].
  destruct (find_similar chroma content (threshold config)
                         (Some document_id) 25); [congruence | reflexivity].
Qed.

(** C7. A run that has candidates examines them in the order in which
    [find_similar] returned them, which is descending similarity when the
    vector index answers in ascending distance. The run confirms the
    first candidate of that order whose check ends in [Confirmed]: it
    was fetched, has content and passed the date, feature, length and
    word checks that apply; then it adds the note and the tag and stops,
    so the candidates after it are not examined. With no such candidate
    every candidate is examined and nothing is confirmed. *)
Theorem first_passing_candidate_is_confirmed (document_id : Z)
    (content : text) (chroma : ChromaClient) (similar : list Candidate) :
  enabled config = true ->
  (50 <= len content)%nat ->
  new_chroma_client = Ok chroma ->
  find_similar chroma content (threshold config) (Some document_id) 25
    = similar ->
  similar <> [] ->
  (forall before c after,
      similar = before ++ c :: after ->
      Forall (fun b => check content b <> Confirmed) before ->
      check content c = Confirmed ->
      run document_id content [] =
      (Ok (Some c),
       map (fun b => Checking (cand_id b)) (before ++ [c])
         ++ [AddNote document_id (cand_id c) (cand_similarity c);
             AddTag document_id "Duplikat"]))
  /\ (Forall (fun b => check content b <> Confirmed) similar ->
      run document_id content [] =
      (Ok None, map (fun b => Checking (cand_id b)) similar))
  /\ (forall rows,
        collection_query chroma (_get_embedding chroma content) 25 = Ok rows ->
        StronglySorted (fun a b => row_distance a <= row_distance b) rows ->
        StronglySorted (fun a b => cand_similarity b <= cand_similarity a)
                       similar).
Proof.
  intros He Hl Hc Hsim Hne. subst similar.
  split; [|split].
  - intros before c after Hsplit Hbefore Hconf.
    rewrite (run_reaches_loop document_id content chroma [] He Hl Hc Hne).
    rewrite Hsplit. apply (loop_first document_id content before c after []).
    + exact Hbefore.
    + exact Hconf.
  - intros Hnone.
    rewrite (run_reaches_loop document_id content chroma [] He Hl Hc Hne).
    apply (loop_none document_id content _ [] Hnone).
  - intros rows Hq Hs. eapply find_similar_sorted; eassumption.
Qed.

(** C10. When the vector index cannot be reached ([ChromaClient()]
    raises), when the similarity query raises, or when the search gives
    no candidate, the run returns normally, confirms nothing and does
    nothing to any document: its trace is the trace it started with. *)
Theorem vector_index_failure_is_silent (document_id : Z) (content : text)
    (t : list event) :
  (forall e, new_chroma_client = Raise e ->
     run document_id content t = (Ok None, t))
  /\ (forall chroma,
        new_chroma_client = Ok chroma ->
        (forall e,
           collection_query chroma (_get_embedding chroma content) 25
             = Raise e ->
           run document_id content t = (Ok None, t))
        /\ (find_similar chroma content (threshold config)
                         (Some document_id) 25 = [] ->
            run document_id content t = (Ok None, t))).
Proof.
  assert (Hempty : forall chroma,
            new_chroma_client = Ok chroma ->
            find_similar chroma content (threshold config)
                         (Some document_id) 25 = [] ->
            run document_id content t = (Ok None, t)).
  { intros chroma Hc Hs. unfold process. rewrite Hc, Hs.
    destruct (negb (enabled config)); [reflexivity|].
    destruct (_ || _); reflexivity. }
  split.
  - intros e Hc. unfold process. rewrite Hc.
    destruct (negb (enabled config)); [reflexivity|].
    destruct (_ || _); reflexivity.
  - intros chroma Hc. split; [|apply Hempty; exact Hc].
    intros e Hq. apply (Hempty chroma Hc).
    unfold find_similar. rewrite Hq.
    destruct (list_truthy _); reflexivity.
Qed.

End DetectorFacts.

Lemma thresholds_antitone_witness :
  (9 # 10) <= (99 # 100)
  /\ date_threshold (99 # 100) <= date_threshold (9 # 10)
  /\ date_threshold (9 # 10) = 4 # 5
  /\ date_threshold (99 # 100) = 1 # 2.
Proof.
  assert (H : (9 # 10) <= (99 # 100)) by (unfold Qle; simpl; lia).
  destruct (thresholds_antitone Examples.dates_of Examples.features_of
              (9 # 10) (99 # 100) H) as (Hd & _ & Hlow & Hhigh & _).
  split; [exact H|]. split; [exact Hd|]. split.
  - apply Hlow. unfold Qle; simpl; lia.
  - apply Hhigh. unfold Qlt; simpl; lia.
Defined.

(** Candidate 1 is stale, candidate 2 fails the date check, candidate 3
    passes; candidate 4 would pass too and is never looked at. *)
Lemma first_passing_candidate_is_confirmed_witness :
  process Examples.dates_of Examples.features_of Examples.words_of
    Examples.documents (Ok Examples.chroma) Examples.detector_config
    100 Examples.text_a []
  = (Ok (Some (Examples.candidate 3 (3 # 100))),
     [Checking 1; Checking 2; Checking 3;
      AddNote 100 3 (1 - (3 # 100)); AddTag 100 "Duplikat"])
  /\ check_candidate Examples.dates_of Examples.features_of
       Examples.words_of Examples.documents Examples.text_a
       (Examples.candidate 4 (4 # 100)) = Confirmed.
Proof.
  split; [|vm_compute; reflexivity].
  destruct (first_passing_candidate_is_confirmed
              Examples.dates_of Examples.features_of Examples.words_of
              Examples.documents (Ok Examples.chroma)
              Examples.detector_config 100 Examples.text_a Examples.chroma
              [Examples.candidate 1 (1 # 100); Examples.candidate 2 (2 # 100);
               Examples.candidate 3 (3 # 100); Examples.candidate 4 (4 # 100)])
    as (Hfirst & _).
  - reflexivity.
  - vm_compute. lia.
  - reflexivity.
  - vm_compute. reflexivity.
  - discriminate.
  - apply (Hfirst [Examples.candidate 1 (1 # 100);
                   Examples.candidate 2 (2 # 100)]
                  (Examples.candidate 3 (3 # 100))
                  [Examples.candidate 4 (4 # 100)]).
    + reflexivity.
    + repeat constructor; vm_compute; discriminate.
    + vm_compute. reflexivity.
Defined.

(** A query that raises, with the client connected. *)
Lemma vector_index_failure_is_silent_witness :
  process Examples.dates_of Examples.features_of Examples.words_of
    Examples.documents (Ok Examples.chroma_query_fails)
    Examples.detector_config 100 Examples.text_a []
  = (Ok None, []).
Proof.
  destruct (vector_index_failure_is_silent
              Examples.dates_of Examples.features_of Examples.words_of
              Examples.documents (Ok Examples.chroma_query_fails)
              Examples.detector_config 100 Examples.text_a [])
    as [_ Hconnected].
  destruct (Hconnected Examples.chroma_query_fails) as [Hquery _];
    [reflexivity|].
  apply (Hquery (OSError "timed out")). reflexivity.
Defined.

(** The vector index is down: nothing is examined, nothing is written. *)
Example index_down_run :
  process Examples.dates_of Examples.features_of Examples.words_of
    Examples.documents (Raise (OSError "connection refused"))
    Examples.detector_config 100 Examples.text_a []
  = (Ok None, []).
Proof. reflexivity. Qed.

End DuplicatesFacts.

(* ===================================================================== *)
(** * More about the worker: retroactive jobs and whole queues            *)
(* ===================================================================== *)

Module WorkerRounds.
Import Hashing Py Watchdog PyFacts WatchdogFacts.

Section Rounds.

Variable prompt : string.
Variable llm_generate : string -> list string -> string.

(** The body of a round, run up to the branch on [retro_doc_id]. *)
Lemma gpu_worker_try_split (item : Job) (w : World) :
  exists extra,
    gpu_worker_try prompt llm_generate item w =
    (let locals :=
       gpu_worker_locals prompt item
         (map (page_text prompt llm_generate) (b64_images item)) in
     match retro_target item with
     | Some doc => gpu_worker_retro item locals doc
     | None => gpu_worker_standard item locals
     end;;
     ex ← dir_exists (work_dir item);
     when ex (rmtree (work_dir item));;
     task_done;;
     e ← queue_empty;
     when e (f ← flag_exists;
             when f (flag_unlink;;
                     log INFO "GPU ist nun wieder frei fuer Text-Aufgaben.")))
      (set_logged (logged w ++ extra) (set_gpu_busy_flag true w)).
Proof.
  destruct (gpu_worker_try_prefix prompt llm_generate item
    (fun page_texts =>
       let locals := gpu_worker_locals prompt item page_texts in
       match retro_target item with
       | Some doc => gpu_worker_retro item locals doc
       | None => gpu_worker_standard item locals
       end;;
       ex ← dir_exists (work_dir item);
       when ex (rmtree (work_dir item));;
       task_done;;
       e ← queue_empty;
       when e (f ← flag_exists;
               when f (flag_unlink;;
                       log INFO "GPU ist nun wieder frei fuer Text-Aufgaben.")))
    w) as (extra & E).
  exists extra. exact E.
Qed.

(** A round for a retroactive job, as far as the queue is concerned. *)
Lemma retro_round (w : World) (item : Job) (rest : list Job) (doc : Z) :
  ocr_queue w = item :: rest ->
  retro_target item = Some doc ->
  (length (ocr_queue w) <= unfinished_tasks w)%nat ->
  exists w',
    gpu_worker_iteration prompt llm_generate w = Some (Ok tt, w')
    /\ api_calls w' = api_calls w
    /\ md_buffer w' = md_buffer w
    /\ ocr_queue w' = rest
    /\ S (unfinished_tasks w') = unfinished_tasks w
    /\ gpu_busy_flag w' = list_truthy rest.
Proof.
  intros Hq Hr Hinv.
  destruct w as [flag dirs wa du stg con buf q n clk lg up docs mo ma calls].
  cbn [ocr_queue unfinished_tasks] in *. subst q.
  destruct n as [|n]; [simpl in Hinv; lia|].
  unfold gpu_worker_iteration. cbn [ocr_queue]. rewrite try_except_run.
  match goal with |- context [gpu_worker_try _ _ _ ?w0] =>
    destruct (gpu_worker_try_split item w0) as (extra & ->)
  end.
  cbv zeta. rewrite Hr.
  unfold gpu_worker_retro. rewrite import_paperless_client_raises.
  wcbv.
  destruct (bool_decide (work_dir item ∈ dirs)); wcbv.
  all: destruct rest as [|j rest]; cbn [list_truthy negb]; wcbv.
  all: eexists; split; [reflexivity|]; wcbv.
  all: repeat split; done.
Qed.

(** A round for a job without a retroactive target, in full: nothing
    reaches the buffer directory or the backend, the staged file (if
    there) moves to the intake directory under the job's file name, the
    working directory and the flag are removed, the watch directory is
    not touched. The flag goes even when more jobs are waiting. *)
Lemma standard_round (w : World) (item : Job) (rest : list Job) :
  ocr_queue w = item :: rest ->
  retro_target item = None ->
  (length (ocr_queue w) <= unfinished_tasks w)%nat ->
  exists w',
    gpu_worker_iteration prompt llm_generate w = Some (Ok tt, w')
    /\ api_calls w' = api_calls w
    /\ md_buffer w' = md_buffer w
    /\ staging w' = delete (staged_file item) (staging w)
    /\ consume w' =
       match staging w !! staged_file item with
       | Some c => <[original_filename item := c]> (consume w)
       | None => consume w
       end
    /\ ocr_queue w' = rest
    /\ S (unfinished_tasks w') = unfinished_tasks w
    /\ temp_dirs w' = temp_dirs w ∖ {[work_dir item]}
    /\ gpu_busy_flag w' = false
    /\ watch w' = watch w
    /\ duplicates w' = duplicates w.
Proof.
  intros Hq Hr Hinv.
  destruct w as [flag dirs wa du stg con buf q n clk lg up docs mo ma calls].
  cbn [ocr_queue unfinished_tasks] in *. subst q.
  destruct n as [|n]; [simpl in Hinv; lia|].
  unfold gpu_worker_iteration. cbn [ocr_queue]. rewrite try_except_run.
  match goal with |- context [gpu_worker_try _ _ _ ?w0] =>
    destruct (standard_raises prompt llm_generate item w0 Hr) as (extra & ->)
  end.
  unfold gpu_worker_except. wcbv.
  destruct (bool_decide (work_dir item ∈ dirs)) eqn:Hd; wcbv.
  all: destruct (stg !! staged_file item) as [c|] eqn:Hs; wcbv.
  all: rewrite ?Hs, ?lookup_insert_eq; wcbv.
  all: eexists; split; [reflexivity|]; wcbv.
  all: apply bool_decide_eq_true in Hd || apply bool_decide_eq_false in Hd.
  all: repeat split; try done.
  all: try (symmetry; apply delete_id; exact Hs).
  all: apply set_eq; intros x; rewrite elem_of_difference, elem_of_singleton;
    split; [intros Hx; split; [exact Hx | intros ->; contradiction] | tauto].
Qed.

(** What every round does, whatever the job. *)
Lemma any_round (w : World) (item : Job) (rest : list Job) :
  ocr_queue w = item :: rest ->
  (length (ocr_queue w) <= unfinished_tasks w)%nat ->
  exists w',
    gpu_worker_iteration prompt llm_generate w = Some (Ok tt, w')
    /\ api_calls w' = api_calls w
    /\ md_buffer w' = md_buffer w
    /\ ocr_queue w' = rest
    /\ S (unfinished_tasks w') = unfinished_tasks w
    /\ (rest = [] -> gpu_busy_flag w' = false).
Proof.
  intros Hq Hinv. destruct (retro_target item) as [doc|] eqn:Hr.
  - destruct (retro_round w item rest doc Hq Hr Hinv)
      as (w' & E & Ha & Hb & Hrest & Hn & Hf).
    exists w'. repeat split; auto. intros ->. exact Hf.
  - destruct (standard_round w item rest Hq Hr Hinv)
      as (w' & E & Ha & Hb & _ & _ & Hrest & Hn & _ & Hf & _).
    exists w'. repeat split; auto.
Qed.

(** X1. A round for a retroactive job updates nothing. The import of
    [modules.paperless_client] raises (and [client.session] does not
    exist), so the branch ends in its own [except] before any request:
    no content is patched and no tag is touched, no sidecar is written,
    and the staged download is neither deleted nor moved. The
    round itself ends normally: the job is counted done, its working
    directory is removed, and the flag stays exactly when more jobs
    wait. *)
Theorem retro_job_updates_nothing (w : World) (item : Job) (rest : list Job)
    (doc : Z) :
  ocr_queue w = item :: rest ->
  retro_target item = Some doc ->
  (length (ocr_queue w) <= unfinished_tasks w)%nat ->
  exists w',
    gpu_worker_iteration prompt llm_generate w = Some (Ok tt, w')
    /\ api_calls w' = api_calls w
    /\ md_buffer w' = md_buffer w
    /\ staging w' = staging w
    /\ consume w' = consume w
    /\ ocr_queue w' = rest
    /\ S (unfinished_tasks w') = unfinished_tasks w
    /\ (work_dir item ∉ temp_dirs w')
    /\ gpu_busy_flag w' = list_truthy rest
    /\ In (ERROR, "API-Update Fehler bei Retro-OCR"%string) (logged w').
Proof.
  intros Hq Hr Hinv.
  destruct w as [flag dirs wa du stg con buf q n clk lg up docs mo ma calls].
  cbn [ocr_queue unfinished_tasks] in *. subst q.
  destruct n as [|n]; [simpl in Hinv; lia|].
  unfold gpu_worker_iteration. cbn [ocr_queue]. rewrite try_except_run.
  match goal with |- context [gpu_worker_try _ _ _ ?w0] =>
    destruct (gpu_worker_try_split item w0) as (extra & ->)
  end.
  cbv zeta. rewrite Hr.
  unfold gpu_worker_retro. rewrite import_paperless_client_raises.
  wcbv.
  destruct (bool_decide (work_dir item ∈ dirs)) eqn:Hd; wcbv.
  all: destruct rest as [|j rest]; cbn [list_truthy negb]; wcbv.
  all: eexists; split; [reflexivity|]; wcbv.
  all: apply bool_decide_eq_true in Hd || apply bool_decide_eq_false in Hd.
  all: repeat split; try done.
  all: try (apply not_elem_of_difference; right; apply elem_of_singleton;
            reflexivity).
  all: rewrite ?in_app_iff; cbn [In]; auto 10.
Qed.

(** X2. The worker on a whole queue: after as many rounds as jobs wait, the
    queue is empty, every job has been counted done, the flag is gone,
    and neither the buffer directory nor the backend has been touched:
    no queue, of whatever jobs, makes the worker write a sidecar or
    update a document. *)
Theorem gpu_worker_drains (w : World) :
  (length (ocr_queue w) <= unfinished_tasks w)%nat ->
  let w' := gpu_worker prompt llm_generate (length (ocr_queue w)) w in
  ocr_queue w' = []
  /\ (unfinished_tasks w' + length (ocr_queue w) = unfinished_tasks w)%nat
  /\ md_buffer w' = md_buffer w
  /\ api_calls w' = api_calls w
  /\ (ocr_queue w <> [] -> gpu_busy_flag w' = false).
Proof.
  cbv zeta.
  remember (length (ocr_queue w)) as n eqn:Hlen.
  revert w Hlen. induction n as [|n IH]; intros w Hlen Hinv.
  - cbn [gpu_worker]. destruct (ocr_queue w) eqn:Hq; [|discriminate].
    repeat split; auto. intros H; congruence.
  - destruct (ocr_queue w) as [|item rest] eqn:Hq; [discriminate|].
    cbn [length] in Hlen. injection Hlen as Hlen.
    assert (Hinv' : (length (ocr_queue w) <= unfinished_tasks w)%nat).
    { rewrite Hq. cbn [length]. lia. }
    destruct (any_round w item rest Hq Hinv')
      as (w1 & E & Ha & Hb & Hrest & Hn & Hf).
    cbn [gpu_worker]. rewrite E.
    assert (Hlen1 : n = length (ocr_queue w1)) by (rewrite Hrest; exact Hlen).
    assert (Hinv1 : (n <= unfinished_tasks w1)%nat) by lia.
    destruct (IH w1 Hlen1 Hinv1) as (Hq' & Hn' & Hb' & Ha' & Hf').
    split; [exact Hq'|]. split; [lia|].
    split; [congruence|]. split; [congruence|].
    intros _. destruct rest as [|j rest'].
    + cbn [length] in Hlen. subst n. cbn [gpu_worker]. apply Hf. reflexivity.
    + apply Hf'. rewrite Hrest. discriminate.
Qed.

End Rounds.

(** The queue of one scan. *)
Lemma gpu_worker_drains_witness :
  let w' := gpu_worker Examples.ocr_prompt Examples.transcribe 1
              Examples.busy_world in
  ocr_queue w' = []
  /\ unfinished_tasks w' = 0%nat
  /\ md_buffer w' = ∅
  /\ api_calls w' = []
  /\ gpu_busy_flag w' = false.
Proof.
  destruct (gpu_worker_drains Examples.ocr_prompt Examples.transcribe
              Examples.busy_world) as (Hq & Hn & Hb & Ha & Hf).
  - cbn. lia.
  - cbv zeta. cbn [length ocr_queue Examples.busy_world unfinished_tasks
                   md_buffer api_calls] in *.
    split; [exact Hq|]. split; [lia|]. split; [exact Hb|].
    split; [exact Ha|]. apply Hf. discriminate.
Defined.

(** A download queued for document 42. *)
Lemma retro_job_updates_nothing_witness :
  exists w',
    gpu_worker_iteration Examples.ocr_prompt Examples.transcribe
      MoreExamples.retro_world = Some (Ok tt, w')
    /\ api_calls w' = []
    /\ staging w' = staging MoreExamples.retro_world
    /\ gpu_busy_flag w' = false.
Proof.
  destruct (retro_job_updates_nothing Examples.ocr_prompt Examples.transcribe
              MoreExamples.retro_world MoreExamples.retro_job [] 42)
    as (w' & E & Ha & _ & Hs & _ & _ & _ & _ & Hf & _).
  - reflexivity.
  - reflexivity.
  - cbn. lia.
  - exists w'. split; [exact E|]. split; [exact Ha|]. split; [exact Hs|].
    exact Hf.
Defined.

End WorkerRounds.

(* ===================================================================== *)
(** * More about recovery                                                 *)
(* ===================================================================== *)

Module RecoveryFacts.
Import Hashing Py Watchdog PyFacts WatchdogFacts.

Section Recovery.

Variable Image : Type.
Variable render_pdf : list byte -> result (list Image).
Variable pil_pipeline : Image -> result string.

(** X4. [recover_staged_files] always returns. Afterwards no directory
    [watch_work_*] is left in the temp directory, and every directory of
    another name that was there is still there: the working directories
    of earlier recoveries and of retroactive jobs ([recovery_*],
    [retro_*]) are never purged. *)
Theorem recovery_purges_only_watch_work (have_client : bool) (w : World) :
  exists w',
    recover_staged_files Image render_pdf pil_pipeline have_client w
      = (Ok tt, w')
    /\ (forall d, d ∈ temp_dirs w' -> is_old_work_dir d = false)
    /\ (forall d, d ∈ temp_dirs w -> is_old_work_dir d = false ->
                  d ∈ temp_dirs w').
Proof.
  destruct (recover_staged_files_run Image render_pdf pil_pipeline
              have_client w) as (extra & E & _).
  eexists. split; [exact E|].
  cbn [temp_dirs set_logged set_temp_dirs]. split.
  - intros d Hd. apply elem_of_filter in Hd. tauto.
  - intros d Hd Hold. apply elem_of_filter. auto.
Qed.

End Recovery.

End RecoveryFacts.

(* ===================================================================== *)
(** * Facts about [process_file_single]                                   *)
(* ===================================================================== *)

Module IntakeFacts.
Import Hashing Py Watchdog Intake PyFacts WatchdogFacts.


Section ProcessFileFacts.

Variable Image : Type.
Variable render_pdf : list byte -> result (list Image).
Variable pil_pipeline : Image -> result string.
Variable extract_text : list byte -> result string.
Variable strip : string -> string.

Abbreviation process cfg :=
  (process_file_single Image render_pdf pil_pipeline extract_text strip cfg).










(** A file that is not in the watch directory: [process_file_single]
    returns [False] and only logs. *)
Lemma process_missing_file (cfg : config_state) (input_file : string)
    (w : World) :
  watch w !! input_file = None ->
  exists extra,
    process cfg input_file w = (Ok false, set_logged (logged w ++ extra) w).
Proof.
  intros Hw. unfold process_file_single.
  rewrite bind_run. unfold log at 1. cbn [modify].
  rewrite bind_run, try_except_run, bind_run.
  unfold calculate_md5_watch at 1. cbn [watch add_log set_logged].
  rewrite Hw. rewrite bind_run. unfold log at 1. cbn [modify].
  cbn [mret M_ret ret].
  eexists [_; _]. unfold add_log. rewrite logged_twice.
  cbn [logged set_logged]. rewrite <- app_assoc. reflexivity.
Qed.

End ProcessFileFacts.




End IntakeFacts.

(* ===================================================================== *)
(** * From the watch directory through the queue                          *)
(* ===================================================================== *)

Module PipelineFacts.
Import Hashing Py Watchdog Intake PyFacts WatchdogFacts WorkerRounds
       IntakeFacts.

Section Pipeline.

Variable Image : Type.
Variable render_pdf : list byte -> result (list Image).
Variable pil_pipeline : Image -> result string.
Variable extract_text : list byte -> result string.
Variable strip : string -> string.
Variable prompt : string.
Variable llm_generate : string -> list string -> string.


End Pipeline.


End PipelineFacts.

(* ===================================================================== *)
(** * More facts about [LLMClient]: effort, final errors, defaults        *)
(* ===================================================================== *)

Module LLMEffort.
Import Py LLM LLMConfig LLMFacts.

Section EffortFacts.

Variable strip : string -> string.
Variable gpu_busy : nat -> bool.
Variable backend : nat -> string -> Payload -> outcome.
Variable self : LLMClient.

Variables (prompt system : string) (context : option (list Z))
          (images : option (list string)) (format : option string).

Abbreviation attempts := (generate_attempts strip gpu_busy backend self
                            prompt system context images format).

Abbreviation sent a :=
  (snd (route self images (gpu_busy a))
   ++ [Post a (snd (fst (route self images (gpu_busy a))))
         (make_payload (fst (fst (route self images (gpu_busy a))))
                       prompt system context images format)]).

(** One attempt either ends the call after its request, or waits its
    delay and hands over to the next attempt. *)
Lemma attempt_cases (a : nat) (rest : list nat) :
  (exists r, attempts (a :: rest) = (r, sent a))
  \/ ((a <? length delays)%nat = true
      /\ attempts (a :: rest) =
         (fst (attempts rest),
          sent a ++ Sleep (nth a delays 0) :: snd (attempts rest))).
Proof.
  cbn [generate_attempts].
  destruct (route self images (gpu_busy a)) as [[m h] st]. cbn [fst snd].
  destruct (attempts rest) as [r t]. cbn [fst snd].
  assert (Hagain :
    (exists r0,
       (if (a <? length delays)%nat
        then (r, (st ++ [Post a h (make_payload m prompt system context
                                     images format)])
                 ++ Sleep (nth a delays 0) :: t)
        else (""%string,
              st ++ [Post a h (make_payload m prompt system context images
                                 format)]))
       = (r0, st ++ [Post a h (make_payload m prompt system context images
                                 format)]))
    \/ ((a <? length delays)%nat = true
        /\ (if (a <? length delays)%nat
            then (r, (st ++ [Post a h (make_payload m prompt system context
                                         images format)])
                     ++ Sleep (nth a delays 0) :: t)
            else (""%string,
                  st ++ [Post a h (make_payload m prompt system context
                                     images format)]))
           = (r, (st ++ [Post a h (make_payload m prompt system context
                                     images format)])
                 ++ Sleep (nth a delays 0) :: t))).
  { destruct (a <? length delays)%nat; [right | left; eexists]; auto. }
  destruct (backend a h _) as [|status body]; [exact Hagain|].
  destruct (status =? 200).
  - destruct body; [exact Hagain | left; eexists; reflexivity].
  - destruct (status =? 500); [exact Hagain | left; eexists; reflexivity].
Qed.

Lemma sent_slept (a : nat) : slept (sent a) = [].
Proof. rewrite slept_app, route_slept. reflexivity. Qed.

Lemma sent_posted (a : nat) : posted (sent a) = [a].
Proof. rewrite posted_app, route_posted. reflexivity. Qed.

(** Every request carries the payload built from the arguments of the
    call and the model [route] chose for its attempt. *)
Lemma attempts_payload (todo : list nat) (a : nat) (h : string) (p : Payload) :
  In (Post a h p) (snd (attempts todo)) ->
  p = make_payload (fst (fst (route self images (gpu_busy a))))
                   prompt system context images format.
Proof.
  induction todo as [|a0 rest IH]; [intros []|].
  destruct (attempt_cases a0 rest) as [[r E] | [_ E]]; rewrite E; cbn [snd].
  - intros H. apply in_app_or in H. destruct H as [H | [H | []]].
    + exfalso. exact (route_started _ _ _ _ _ _ H).
    + injection H as <- <- <-. reflexivity.
  - intros H. apply in_app_or in H. destruct H as [H | [H | H]].
    + apply in_app_or in H. destruct H as [H | [H | []]].
      * exfalso. exact (route_started _ _ _ _ _ _ H).
      * injection H as <- <- <-. reflexivity.
    + discriminate.
    + exact (IH H).
Qed.

Lemma effort_shape :
  exists k, (k <= 3)%nat
    /\ posted (snd (attempts [0; 1; 2; 3]%nat)) = seq 0 (S k)
    /\ slept (snd (attempts [0; 1; 2; 3]%nat)) = take k delays.
Proof.
  destruct (attempt_cases 0 [1; 2; 3]%nat) as [[r0 E0] | [_ E0]];
    rewrite E0; cbn [snd].
  { exists 0%nat. rewrite sent_slept, sent_posted. auto with arith. }
  destruct (attempt_cases 1 [2; 3]%nat) as [[r1 E1] | [_ E1]];
    rewrite E1; cbn [snd].
  { exists 1%nat.
    repeat (rewrite ?slept_app, ?posted_app, ?sent_slept, ?sent_posted,
              ?route_slept, ?route_posted;
            cbn [slept posted flat_map app]).
    cbn. repeat split; auto with arith. }
  destruct (attempt_cases 2 [3]%nat) as [[r2 E2] | [_ E2]];
    rewrite E2; cbn [snd].
  { exists 2%nat.
    repeat (rewrite ?slept_app, ?posted_app, ?sent_slept, ?sent_posted,
              ?route_slept, ?route_posted;
            cbn [slept posted flat_map app]).
    cbn. repeat split; auto with arith. }
  destruct (attempt_cases 3 []%nat) as [[r3 E3] | [H3 _]];
    [rewrite E3; cbn [snd] | discriminate H3].
  exists 3%nat.
  repeat (rewrite ?slept_app, ?posted_app, ?sent_slept, ?sent_posted,
              ?route_slept, ?route_posted;
          cbn [slept posted flat_map app]).
  cbn. repeat split; auto with arith.
Qed.

(** X9. Whatever the backend answers and whatever the flag does, one call of
    [generate] sends between one and four requests, numbered in order,
    and waits exactly the first delays between them: at most 5 + 10 + 15
    seconds in all. *)
Theorem generate_effort_is_bounded (model : option string) :
  let trace :=
    snd (generate strip gpu_busy backend self prompt system context images
                  format model) in
  exists k, (k <= 3)%nat
    /\ posted trace = seq 0 (S k)
    /\ slept trace = take k [5; 10; 15]
    /\ (length (posted trace) <= 4)%nat
    /\ fold_right Z.add 0 (slept trace) <= 30.
Proof.
  cbv zeta. unfold generate.
  change (seq 0 max_attempts) with [0; 1; 2; 3]%nat.
  destruct effort_shape as (k & Hk & Hp & Hs).
  exists k. rewrite Hp, Hs. change delays with [5; 10; 15].
  split; [exact Hk|]. split; [reflexivity|]. split; [reflexivity|].
  split.
  - rewrite length_seq. lia.
  - destruct k as [|[|[|[|k]]]]; cbn; lia.
Qed.

(** An attempt that is answered with a status other than 200 and 500
    ends the call at once with the empty string. *)
Lemma attempt_final (a : nat) (rest : list nat) :
  (forall h p, exists status body,
      backend a h p = Http status body /\ status <> 200 /\ status <> 500) ->
  attempts (a :: rest) = (""%string, sent a).
Proof.
  intros H. cbn [generate_attempts].
  destruct (route self images (gpu_busy a)) as [[m h] st]. cbn [fst snd].
  destruct (H h (make_payload m prompt system context images format))
    as (status & body & -> & H2 & H5).
  apply Z.eqb_neq in H2, H5. rewrite H2, H5. reflexivity.
Qed.

(** An attempt whose 200 answer cannot be decoded is handled like a
    connection error. *)
Lemma attempt_undecodable (a : nat) (rest : list nat) :
  (forall h p, backend a h p = Http 200 BadJson) ->
  attempts (a :: rest) =
  if (a <? length delays)%nat
  then (fst (attempts rest),
        sent a ++ Sleep (nth a delays 0) :: snd (attempts rest))
  else (""%string, sent a).
Proof.
  intros H. cbn [generate_attempts].
  destruct (route self images (gpu_busy a)) as [[m h] st]. cbn [fst snd].
  rewrite H. destruct (attempts rest) as [r t]. reflexivity.
Qed.

(** X10. A status other than 200 and 500 is final: when the first [k]
    attempts met a transient failure and attempt [k] gets such a status,
    the call returns the empty string after [k + 1] requests and [k]
    waits; no further attempt is made. *)
Theorem other_status_is_final (model : option string) (k : nat) :
  (k < 4)%nat ->
  (forall i h p, (i < k)%nat -> is_transient (backend i h p) = true) ->
  (forall h p, exists status body,
      backend k h p = Http status body /\ status <> 200 /\ status <> 500) ->
  let r := generate strip gpu_busy backend self prompt system context images
                    format model in
  fst r = ""%string
  /\ posted (snd r) = seq 0 (S k)
  /\ slept (snd r) = take k [5; 10; 15].
Proof.
  intros Hk Htr Hfin. cbv zeta. unfold generate.
  change (seq 0 max_attempts) with [0; 1; 2; 3]%nat.
  destruct k as [|[|[|[|k]]]]; [| | | |lia].
  all: rewrite ?(attempt_transient _ _ _ _ _ _ _ _ _ 0),
         ?(attempt_transient _ _ _ _ _ _ _ _ _ 1),
         ?(attempt_transient _ _ _ _ _ _ _ _ _ 2)
    by (intros; apply Htr; lia).
  all: rewrite attempt_final by exact Hfin.
  all: cbn [Nat.ltb Nat.leb length delays nth fst snd].
  all: repeat (rewrite ?slept_app, ?posted_app, ?route_slept, ?route_posted;
               cbn [slept posted flat_map app]).
  all: auto.
Qed.

(** X11. A backend that answers every request with status 200 and a body that
    is not JSON is retried like one that is down: four requests, waits of
    5, 10 and 15 seconds, and the empty string. *)
Theorem undecodable_answer_is_retried (model : option string) :
  (forall i h p, backend i h p = Http 200 BadJson) ->
  let r := generate strip gpu_busy backend self prompt system context images
                    format model in
  fst r = ""%string
  /\ posted (snd r) = [0; 1; 2; 3]%nat
  /\ slept (snd r) = [5; 10; 15].
Proof.
  intros H. cbv zeta. unfold generate.
  change (seq 0 max_attempts) with [0; 1; 2; 3]%nat.
  rewrite !attempt_undecodable by (intros; apply H).
  cbn [Nat.ltb Nat.leb length delays nth fst snd].
  repeat (rewrite ?slept_app, ?posted_app, ?route_slept, ?route_posted;
          cbn [slept posted flat_map app]).
  auto.
Qed.

End EffortFacts.

Section ConfigFacts.

Variable strip : string -> string.
Variable gpu_busy : nat -> bool.
Variable backend : nat -> string -> Payload -> outcome.

(** X12. A configuration without [cpu_url] has one host: every request of
    [generate] goes to the primary host, whatever the flag says. If in
    addition neither the configuration nor the selected profile names a
    vision or a summary model, every request asks for the one model of
    the configuration. *)
Theorem without_cpu_url_one_host (ollama_cfg : OllamaCfg)
    (prompt system : string) (context : option (list Z))
    (images : option (list string)) (format model : option string)
    (attempt : nat) (h : string) (p : Payload) :
  keys ollama_cfg !! "cpu_url"%string = None ->
  In (Post attempt h p)
     (snd (generate strip gpu_busy backend (__init__ ollama_cfg) prompt
             system context images format model)) ->
  h = get (keys ollama_cfg) "url" "http://localhost:11434"
  /\ (let prof :=
        default ∅ (profiles ollama_cfg
                     !! get (keys ollama_cfg) "hardware_profile"
                            "rtx-workstation") in
      keys ollama_cfg !! "vision_model"%string = None ->
      keys ollama_cfg !! "summary_model"%string = None ->
      prof !! "vision_model"%string = None ->
      prof !! "summary_model"%string = None ->
      p_model p = get prof "model"
                    (get (keys ollama_cfg) "model" "qwen2.5vl:7b")).
Proof.
  intros Hcpu Hin. unfold generate in Hin.
  destruct (attempts_posts _ _ _ _ _ _ _ _ _ _ _ _ _ Hin) as (_ & -> & ->).
  unfold route.
  destruct (opt_list_truthy images); [|destruct (gpu_busy attempt)];
    cbn [negb fst snd __init__ host cpu_host vision_model summary_model].
  all: split; [unfold get at 1; try rewrite Hcpu; reflexivity|].
  all: cbv zeta; intros Hv Hs Hpv Hps.
  all: unfold get at 1; rewrite ?Hpv, ?Hps; cbn [default].
  all: unfold get at 1; rewrite ?Hv, ?Hs; reflexivity.
Qed.

End ConfigFacts.

(** The backend answers 404 to the first request. *)
Lemma other_status_is_final_witness :
  let r := generate ascii_strip Examples.flag_until_drained
             MoreExamples.backend_not_found Examples.client
             "Fasse zusammen" "" None None None None in
  fst r = ""%string /\ posted (snd r) = [0%nat] /\ slept (snd r) = [].
Proof.
  apply (other_status_is_final ascii_strip Examples.flag_until_drained
           MoreExamples.backend_not_found Examples.client "Fasse zusammen"
           "" None None None None 0).
  - lia.
  - intros i h p Hi. lia.
  - intros h p. exists 404, BadJson.
    split; [reflexivity|]. split; discriminate.
Defined.

Lemma undecodable_answer_is_retried_witness :
  let r := generate ascii_strip Examples.flag_until_drained
             MoreExamples.backend_garbled Examples.client
             "Fasse zusammen" "" None None None None in
  fst r = ""%string
  /\ posted (snd r) = [0; 1; 2; 3]%nat
  /\ slept (snd r) = [5; 10; 15].
Proof.
  apply (undecodable_answer_is_retried ascii_strip Examples.flag_until_drained
           MoreExamples.backend_garbled Examples.client "Fasse zusammen"
           "" None None None None).
  intros i h p. reflexivity.
Defined.

(** A text request with the flag set, against a configuration with one
    URL and one model. *)
Lemma without_cpu_url_one_host_witness :
  In (Post 0 "http://gpu:11434"
        (make_payload "qwen2.5vl:7b" "Fasse zusammen" "" None None None))
     (snd (generate ascii_strip (fun _ => true) Examples.backend_down
             (__init__ MoreExamples.single_host_cfg) "Fasse zusammen" ""
             None None None None))
  /\ get (keys MoreExamples.single_host_cfg) "url" "http://localhost:11434"
     = "http://gpu:11434"%string.
Proof.
  assert (Hin : In (Post 0 "http://gpu:11434"
                      (make_payload "qwen2.5vl:7b" "Fasse zusammen" "" None
                                    None None))
                   (snd (generate ascii_strip (fun _ => true)
                           Examples.backend_down
                           (__init__ MoreExamples.single_host_cfg)
                           "Fasse zusammen" "" None None None None))).
  { vm_compute. auto. }
  split; [exact Hin|].
  destruct (without_cpu_url_one_host ascii_strip (fun _ => true)
              Examples.backend_down MoreExamples.single_host_cfg
              "Fasse zusammen" "" None None None None 0
              "http://gpu:11434"
              (make_payload "qwen2.5vl:7b" "Fasse zusammen" "" None None None))
    as [Hh _].
  - reflexivity.
  - exact Hin.
  - symmetry. exact Hh.
Defined.

End LLMEffort.

(* ===================================================================== *)
(** * More facts about the duplicate detector                             *)
(* ===================================================================== *)

Module DetectorLaws.
Import Py Duplicates PyFacts DuplicatesFacts.
Local Open Scope Q_scope.

Lemma pos_of_nat_Z (u : nat) : (0 < u)%nat -> Z.pos (Pos.of_nat u) = Z.of_nat u.
Proof.
  intros Hu. rewrite <- positive_nat_Z, Nat2Pos.id by lia. reflexivity.
Qed.

Lemma ratio_nonneg (i u : nat) : 0 <= ratio i u.
Proof. unfold ratio, Qle. cbn. lia. Qed.

Lemma ratio_le_1 (i u : nat) : (i <= u)%nat -> (0 < u)%nat -> ratio i u <= 1.
Proof.
  intros Hi Hu. unfold ratio, Qle. cbn [Qnum Qden].
  rewrite (pos_of_nat_Z u Hu).
  lia.
Qed.

Lemma ratio_eq_1 (i u : nat) : (0 < u)%nat -> ratio i u == 1 <-> i = u.
Proof.
  intros Hu. unfold ratio, Qeq. cbn [Qnum Qden].
  rewrite (pos_of_nat_Z u Hu).
  lia.
Qed.

Lemma set_truthy_true (s : gset string) : set_truthy s = true <-> s <> ∅.
Proof.
  unfold set_truthy. rewrite negb_true_iff, bool_decide_eq_false. tauto.
Qed.

Lemma set_truthy_false (s : gset string) : set_truthy s = false <-> s = ∅.
Proof.
  unfold set_truthy. rewrite negb_false_iff, bool_decide_eq_true. tauto.
Qed.

Lemma size_pos (s : gset string) : s <> ∅ -> (0 < size s)%nat.
Proof.
  intros H. destruct (size s) eqn:E; [|lia].
  apply size_empty_inv in E. apply leibniz_equiv in E. contradiction.
Qed.

Lemma inter_le_union (a b : gset string) : (size (a ∩ b) <= size (a ∪ b))%nat.
Proof.
  apply subseteq_size. intros x Hx. apply elem_of_intersection in Hx.
  apply elem_of_union. tauto.
Qed.

Lemma jaccard_self (a : gset string) : a <> ∅ -> calculate_jaccard a a == 1.
Proof.
  intros H. unfold calculate_jaccard.
  apply set_truthy_true in H as Ht. rewrite Ht. cbn [negb andb].
  assert (a ∩ a = a) as -> by (apply leibniz_equiv, (idemp _)).
  assert (a ∪ a = a) as -> by (apply leibniz_equiv, (idemp _)).
  pose proof (size_pos a H) as Hs.
  apply Nat.ltb_lt in Hs as Hb. rewrite Hb.
  apply ratio_eq_1; [exact Hs | reflexivity].
Qed.

(** X13. The Jaccard index is a number between 0 and 1, it does not depend on
    the order of its arguments, and it is 1 exactly for two equal sets
    that are not empty: two empty sets score 0, not 1. *)
Theorem jaccard_index_laws (a b : gset string) :
  0 <= calculate_jaccard a b <= 1
  /\ calculate_jaccard a b = calculate_jaccard b a
  /\ (calculate_jaccard a b == 1 <-> a = b /\ a <> ∅).
Proof.
  split; [|split].
  - unfold calculate_jaccard.
    destruct (negb (set_truthy a) && negb (set_truthy b));
      [split; unfold Qle; cbn; lia|].
    destruct (0 <? size (a ∪ b))%nat eqn:E;
      [|split; unfold Qle; cbn; lia].
    apply Nat.ltb_lt in E. split.
    + apply ratio_nonneg.
    + apply ratio_le_1; [apply inter_le_union | exact E].
  - unfold calculate_jaccard.
    rewrite (andb_comm (negb (set_truthy a))).
    assert (a ∩ b = b ∩ a) as -> by (apply leibniz_equiv, (comm _)).
    assert (a ∪ b = b ∪ a) as -> by (apply leibniz_equiv, (comm _)).
    reflexivity.
  - split.
    + unfold calculate_jaccard.
      destruct (negb (set_truthy a) && negb (set_truthy b));
        [intros H; discriminate H|].
      destruct (0 <? size (a ∪ b))%nat eqn:E; [|intros H; discriminate H].
      apply Nat.ltb_lt in E. intros H. apply ratio_eq_1 in H; [|exact E].
      assert (Heq : a ∩ b ≡ a ∪ b).
      { apply set_subseteq_size_equiv; [|lia].
        intros x Hx. apply elem_of_intersection in Hx.
        apply elem_of_union. tauto. }
      assert (Hab : a = b).
      { apply leibniz_equiv. intros x. specialize (Heq x).
        rewrite elem_of_intersection, elem_of_union in Heq. tauto. }
      split; [exact Hab|]. subst b. intros ->.
      assert ((∅ ∪ ∅ : gset string) = ∅) as Hu
        by (apply leibniz_equiv, (idemp _)).
      rewrite Hu, size_empty in E. lia.
    + intros [<- Hne]. apply jaccard_self. exact Hne.
Qed.

Lemma date_threshold_le_1 (s : Q) : date_threshold s <= 1.
Proof. unfold date_threshold. destruct (Qltb _ _); unfold Qle; cbn; lia. Qed.

Lemma feat_threshold_le_1 (s : Q) : feat_threshold s <= 1.
Proof. exact (date_threshold_le_1 s). Qed.

Lemma base_req_range (c : text) (s : Q) : 0 < base_req c s /\ base_req c s <= 1.
Proof.
  unfold base_req.
  destruct (len c <? Z.to_nat 1500)%nat; destruct (Qltb _ _);
    split; unfold Qlt, Qle; cbn; lia.
Qed.

Lemma base_req_antitone (c : text) (s1 s2 : Q) :
  s1 <= s2 -> base_req c s2 <= base_req c s1.
Proof.
  intros H. unfold base_req.
  destruct (Qltb (19 # 20) s1) eqn:E1; destruct (Qltb (19 # 20) s2) eqn:E2.
  - apply Qle_refl.
  - apply Qltb_lt in E1. apply Qltb_ge in E2. exfalso.
    apply (Qlt_not_le _ _ E1). eapply Qle_trans; eassumption.
  - destruct (len c <? Z.to_nat 1500)%nat; unfold Qle; cbn; lia.
  - apply Qle_refl.
Qed.

Section Laws.

Variable _extract_dates : text -> gset string.
Variable _extract_features : text -> gset string.
Variable word_set : text -> gset string.
Variable get_document : Z -> result (option text).
Variable new_chroma_client : result ChromaClient.
Variable config : Config.

Abbreviation safety := (safety_check _extract_dates _extract_features word_set).
Abbreviation check := (check_candidate _extract_dates _extract_features
                         word_set get_document).
Abbreviation loop := (confirm_loop _extract_dates _extract_features
                        word_set get_document).
Abbreviation run := (process _extract_dates _extract_features word_set
                       get_document new_chroma_client config).

Lemma date_check_self (c : text) (s : Q) :
  date_check _extract_dates c c s = true.
Proof.
  unfold date_check.
  destruct (set_truthy (_extract_dates c)) eqn:E; [|reflexivity].
  cbn [andb]. apply negb_true_iff, Qltb_ge.
  apply set_truthy_true in E. rewrite (jaccard_self _ E).
  apply date_threshold_le_1.
Qed.

Lemma feature_check_self (c : text) (s : Q) :
  feature_check _extract_features c c s = true.
Proof.
  unfold feature_check.
  destruct (set_truthy (_extract_features c)) eqn:E; [|reflexivity].
  cbn [andb]. apply negb_true_iff, Qltb_ge.
  apply set_truthy_true in E. rewrite (jaccard_self _ E).
  apply feat_threshold_le_1.
Qed.

Lemma word_similarity_self (c : text) :
  word_set c <> ∅ -> _check_word_similarity word_set c c == 1.
Proof.
  intros H. unfold _check_word_similarity.
  apply set_truthy_true in H as Ht. rewrite Ht. cbn [negb orb].
  assert (word_set c ∩ word_set c = word_set c) as ->
    by (apply leibniz_equiv, (idemp _)).
  assert (word_set c ∪ word_set c = word_set c) as ->
    by (apply leibniz_equiv, (idemp _)).
  rewrite Ht. apply ratio_eq_1; [apply size_pos; exact H | reflexivity].
Qed.

(** X14. A text compared with itself passes the date, the feature and the
    length check at every similarity, so it is confirmed exactly when
    the word check passes: when the text has at least one word of more
    than two characters. A text without such a word is not confirmed as
    a duplicate of itself. *)
Theorem identical_text_needs_a_word (c : text) (similarity : Q) :
  c <> [] ->
  (safety c c similarity = true <-> word_set c <> ∅).
Proof.
  intros Hc. unfold safety_check.
  rewrite date_check_self, feature_check_self.
  unfold word_level_check.
  assert (Hlen : (0 < len c)%nat) by (destruct c; [congruence | cbn; lia]).
  apply Nat.ltb_lt in Hlen as Hb. rewrite Hb.
  assert (Hr : ratio (len c) (len c) == 1)
    by (apply ratio_eq_1; [exact Hlen | reflexivity]).
  assert (Qltb (ratio (len c) (len c)) (4 # 5) = false) as ->.
  { apply Qltb_ge. rewrite Hr. unfold Qle; cbn; lia. }
  assert (Qltb (5 # 4) (ratio (len c) (len c)) = false) as ->.
  { apply Qltb_ge. rewrite Hr. unfold Qle; cbn; lia. }
  cbn [orb negb].
  destruct (base_req_range c similarity) as [Hpos Hle1].
  split.
  - intros H Hempty.
    unfold _check_word_similarity in H.
    apply set_truthy_false in Hempty. rewrite Hempty in H. cbn [negb orb] in H.
    apply Qltb_lt in Hpos. rewrite Hpos in H. discriminate H.
  - intros Hw.
    assert (Qltb (_check_word_similarity word_set c c) (base_req c similarity)
            = false) as ->; [|reflexivity].
    apply Qltb_ge. rewrite (word_similarity_self c Hw). exact Hle1.
Qed.

Lemma date_check_monotone (c d : text) (s1 s2 : Q) :
  s1 <= s2 ->
  date_check _extract_dates c d s1 = true ->
  date_check _extract_dates c d s2 = true.
Proof.
  intros Hs. unfold date_check.
  destruct (set_truthy (_extract_dates c) && set_truthy (_extract_dates d));
    [|auto].
  rewrite !negb_true_iff, !Qltb_ge. intros H.
  eapply Qle_trans; [apply date_threshold_antitone; exact Hs | exact H].
Qed.

Lemma feature_check_monotone (c d : text) (s1 s2 : Q) :
  s1 <= s2 ->
  feature_check _extract_features c d s1 = true ->
  feature_check _extract_features c d s2 = true.
Proof.
  intros Hs. unfold feature_check.
  destruct (set_truthy (_extract_features c)
            && set_truthy (_extract_features d)); [|auto].
  rewrite !negb_true_iff, !Qltb_ge. intros H.
  eapply Qle_trans; [apply feat_threshold_antitone; exact Hs | exact H].
Qed.

Lemma word_level_check_monotone (c d : text) (s1 s2 : Q) :
  s1 <= s2 ->
  word_level_check word_set c d s1 = true ->
  word_level_check word_set c d s2 = true.
Proof.
  intros Hs. unfold word_level_check.
  destruct (Qltb (_check_word_similarity word_set c d) (base_req c s1)) eqn:E1;
    [discriminate|].
  intros H.
  assert (Qltb (_check_word_similarity word_set c d) (base_req c s2) = false)
    as ->; [|exact H].
  apply Qltb_ge. apply Qltb_ge in E1.
  eapply Qle_trans; [apply base_req_antitone; exact Hs | exact E1].
Qed.

(** X15. The verdict is monotone in the similarity the vector index reports:
    a pair of texts that passes the safety check at one similarity
    passes it at every higher one. *)
Theorem safety_check_is_monotone (c d : text) (s1 s2 : Q) :
  s1 <= s2 ->
  safety c d s1 = true ->
  safety c d s2 = true.
Proof.
  intros Hs. unfold safety_check.
  destruct (date_check _extract_dates c d s1) eqn:Ed; [|discriminate].
  rewrite (date_check_monotone c d s1 s2 Hs Ed).
  destruct (feature_check _extract_features c d s1) eqn:Ef; [|discriminate].
  rewrite (feature_check_monotone c d s1 s2 Hs Ef).
  apply word_level_check_monotone. exact Hs.
Qed.

(** Every note the loop writes is for a candidate of its list whose
    check ended in [Confirmed]. *)
Lemma loop_notes (document_id : Z) (current : text) (l : list Candidate)
    (t : list event) (doc orig : Z) (sim : Q) :
  In (AddNote doc orig sim) (snd (loop document_id current l t)) ->
  In (AddNote doc orig sim) t
  \/ (doc = document_id
      /\ exists best, In best l /\ orig = cand_id best
                      /\ sim = cand_similarity best
                      /\ check current best = Confirmed).
Proof.
  revert t. induction l as [|best rest IH]; intros t; [cbn; auto|].
  cbn [confirm_loop]. rewrite bind_run, emit_run.
  destruct (check current best) eqn:E.
  - intros H. destruct (IH _ H) as [Ht | (Hd & b & Hb & Hrest)].
    + apply in_app_or in Ht. destruct Ht as [Ht | [Ht | []]];
        [auto | discriminate].
    + right. split; [exact Hd|]. exists b. split; [right; exact Hb | exact Hrest].
  - intros H. destruct (IH _ H) as [Ht | (Hd & b & Hb & Hrest)].
    + apply in_app_or in Ht. destruct Ht as [Ht | [Ht | []]];
        [auto | discriminate].
    + right. split; [exact Hd|]. exists b. split; [right; exact Hb | exact Hrest].
  - rewrite bind_run, handle_duplicate_run. cbn [snd]. intros H.
    apply in_app_or in H. destruct H as [H | [H | [H | []]]].
    + apply in_app_or in H. destruct H as [H | [H | []]];
        [auto | discriminate].
    + injection H as <- <- <-. right. split; [reflexivity|].
      exists best. split; [left; reflexivity | auto].
    + discriminate.
Qed.

(** What [find_similar] returns: rows of the query at or above the
    threshold, never the excluded document. *)
Lemma find_similar_sound (chroma : ChromaClient) (content : text)
    (thr : Q) (exclude_id : Z) (n : nat) (c : Candidate) :
  In c (find_similar chroma content thr (Some exclude_id) n) ->
  thr <= cand_similarity c
  /\ (exclude_id <> 0%Z -> cand_id c <> exclude_id).
Proof.
  unfold find_similar.
  destruct (list_truthy (_get_embedding chroma content)); [|intros []].
  destruct (collection_query chroma _ n) as [rows|e]; [|intros []].
  intros H. apply in_map_iff in H. destruct H as (r & <- & Hr).
  apply list_elem_of_In in Hr. apply list_elem_of_filter in Hr.
  destruct Hr as [Hk _]. unfold keep_row in Hk.
  apply andb_true_iff in Hk. destruct Hk as [Hex Hthr].
  cbn [candidate_of_row cand_similarity cand_id]. split.
  - apply Qle_bool_iff. exact Hthr.
  - intros Hne Heq. unfold excluded in Hex.
    apply negb_true_iff, andb_false_iff in Hex. destruct Hex as [Hex | Hex].
    + apply negb_false_iff, Z.eqb_eq in Hex. contradiction.
    + apply Z.eqb_neq in Hex. contradiction.
Qed.

(** X16. A run writes a duplicate note only for a document it has checked:
    the module is enabled, the text has at least 50 characters, the
    other document scored at or above the configured threshold, is not
    the document itself, was fetched with a text that is not empty, and
    the two texts passed the safety check. *)
Theorem note_only_for_checked_candidate (document_id : Z) (content : text)
    (doc orig : Z) (sim : Q) :
  In (AddNote doc orig sim) (snd (run document_id content [])) ->
  doc = document_id
  /\ enabled config = true
  /\ (50 <= len content)%nat
  /\ threshold config <= sim
  /\ (document_id <> 0%Z -> orig <> document_id)
  /\ exists candidate_content,
       get_document orig = Ok (Some candidate_content)
       /\ candidate_content <> []
       /\ safety content candidate_content sim = true.
Proof.
  unfold process.
  destruct (enabled config); [|intros []]. cbn [negb].
  destruct (list_truthy content); [|intros []]. cbn [negb orb].
  destruct (len content <? 50)%nat eqn:El; [intros []|].
  apply Nat.ltb_ge in El.
  destruct new_chroma_client as [chroma|e]; [|intros []].
  destruct (find_similar chroma content (threshold config)
              (Some document_id) 25) as [|c0 l0] eqn:Ef; [intros []|].
  cbn [list_truthy]. intros H.
  apply loop_notes in H. destruct H as [[] | (Hd & best & Hb & -> & -> & Hc)].
  rewrite <- Ef in Hb. apply find_similar_sound in Hb.
  destruct Hb as [Hthr Hself].
  split; [exact Hd|]. split; [reflexivity|]. split; [exact El|].
  split; [exact Hthr|]. split; [exact Hself|].
  unfold check_candidate in Hc.
  destruct (get_document (cand_id best)) as [[cc|]|e]; try discriminate.
  exists cc. split; [reflexivity|].
  destruct cc as [|x cc]; [discriminate|]. split; [discriminate|].
  cbn [list_truthy] in Hc.
  destruct (safety_check _ _ _ _ _ _); [reflexivity | discriminate].
Qed.

End Laws.

Lemma identical_text_needs_a_word_witness :
  safety_check Examples.dates_of Examples.features_of Examples.words_of
    Examples.text_a Examples.text_a (9 # 10) = true
  <-> Examples.words_of Examples.text_a <> ∅.
Proof.
  apply (identical_text_needs_a_word Examples.dates_of Examples.features_of
           Examples.words_of Examples.text_a (9 # 10)).
  discriminate.
Defined.

Lemma safety_check_is_monotone_witness :
  safety_check Examples.dates_of Examples.features_of Examples.words_of
    Examples.text_a Examples.text_a (99 # 100) = true.
Proof.
  apply (safety_check_is_monotone Examples.dates_of Examples.features_of
           Examples.words_of Examples.text_a Examples.text_a
           (9 # 10) (99 # 100)).
  - unfold Qle. simpl. lia.
  - vm_compute. reflexivity.
Defined.

(** The run with four candidates: the note is for candidate 3. *)
Lemma note_only_for_checked_candidate_witness :
  Examples.documents 3 = Ok (Some Examples.text_a)
  /\ threshold Examples.detector_config <= 1 - (3 # 100).
Proof.
  destruct (note_only_for_checked_candidate Examples.dates_of
              Examples.features_of Examples.words_of Examples.documents
              (Ok Examples.chroma) Examples.detector_config 100
              Examples.text_a 100 3 (1 - (3 # 100)))
    as (_ & _ & _ & Hthr & _ & cc & Hdoc & _ & _).
  - vm_compute. auto 10.
  - split; [reflexivity | exact Hthr].
Defined.

End DetectorLaws.

(* ===================================================================== *)
(** * Facts about the OCR of page images                                  *)
(* ===================================================================== *)

Module ExtractorFacts.
Import Py LLM LLMFacts LLMEffort Extractor.

Section ImagesFacts.

Variable strip : string -> string.
Variable gpu_busy : nat -> nat -> bool.
Variable backend : nat -> nat -> string -> Payload -> outcome.
Variable ollama : LLMClient.
Variable prompt : string.

Abbreviation ocr_pages := (pages strip gpu_busy backend ollama prompt).

Lemma pages_calls (i : nat) (images_b64 : list string) :
  length (fst (ocr_pages i images_b64)) = length images_b64
  /\ length (snd (ocr_pages i images_b64)) = length images_b64
  /\ Forall (fun piece => piece <> ""%string) (fst (ocr_pages i images_b64))
  /\ Forall (fun t =>
       (exists k, (k <= 3)%nat /\ posted t = seq 0 (S k)
                  /\ slept t = take k delays)
       /\ forall a h p, In (Post a h p) t ->
            h = host ollama /\ p_model p = vision_model ollama
            /\ exists b64, In b64 images_b64 /\ p_images p = Some [b64])
     (snd (ocr_pages i images_b64)).
Proof.
  revert i. induction images_b64 as [|b64 rest IH]; intros i.
  - cbn. auto.
  - cbn [pages].
    pose proof (effort_shape strip (gpu_busy i) (backend i) ollama prompt ""
                  None (Some [b64]) None) as Heff.
    pose proof (fun a h p =>
                  attempts_posts strip (gpu_busy i) (backend i) ollama prompt
                    "" None (Some [b64]) None [0; 1; 2; 3]%nat a h p) as Hposts.
    pose proof (fun a h p =>
                  attempts_payload strip (gpu_busy i) (backend i) ollama prompt
                    "" None (Some [b64]) None [0; 1; 2; 3]%nat a h p) as Hpay.
    unfold generate. change (seq 0 max_attempts) with [0; 1; 2; 3]%nat.
    destruct (generate_attempts strip (gpu_busy i) (backend i) ollama prompt
                "" None (Some [b64]) None [0; 1; 2; 3]%nat) as [text t].
    cbn [snd] in Heff, Hposts, Hpay.
    destruct (IH (S i)) as (Hl1 & Hl2 & Hne & Hall).
    destruct (ocr_pages (S i) rest) as [full_text calls].
    cbn [fst snd length] in *.
    split; [congruence|]. split; [congruence|]. split.
    + constructor; [|exact Hne].
      destruct text; [discriminate | discriminate].
    + constructor.
      * split; [exact Heff|]. intros a h p Hin.
        destruct (Hposts a h p Hin) as (_ & Hh & Hm).
        rewrite Hh, Hm, (Hpay a h p Hin).
        cbn [route opt_list_truthy list_truthy fst snd].
        split; [reflexivity|]. split; [reflexivity|].
        exists b64. split; [left; reflexivity | reflexivity].
      * eapply Forall_impl; [exact Hall|]. cbv beta.
        intros t0 [H1 H2]. split; [exact H1|].
        intros a h p Hin. destruct (H2 a h p Hin) as (? & ? & b & ? & ?).
        split; [assumption|]. split; [assumption|].
        exists b. split; [right; assumption | assumption].
Qed.

(** A call all of whose attempts meet a transient failure returns the
    empty string. *)
Lemma generate_down (gpu : nat -> bool) (be : nat -> string -> Payload -> outcome)
    (images : option (list string)) :
  (forall a h p, is_transient (be a h p) = true) ->
  fst (generate strip gpu be ollama prompt "" None images None None)
  = ""%string.
Proof.
  intros H. unfold generate.
  change (seq 0 max_attempts) with [0; 1; 2; 3]%nat.
  rewrite !attempt_transient by (intros; apply H). reflexivity.
Qed.

Lemma pages_down (images_b64 : list string) (i n : nat) (b64 : string) :
  images_b64 !! n = Some b64 ->
  (forall a h p, is_transient (backend (i + n) a h p) = true) ->
  fst (ocr_pages i images_b64) !! n = Some (page_error (i + n)).
Proof.
  revert i n. induction images_b64 as [|b rest IH]; intros i n Hn Hdown;
    [discriminate|].
  cbn [pages].
  destruct n as [|n].
  - rewrite Nat.add_0_r in *.
    pose proof (generate_down (gpu_busy i) (backend i) (Some [b]) Hdown) as Hg.
    destruct (generate _ _ _ _ _ _ _ _ _ _) as [text t]. cbn [fst] in Hg.
    subst text. destruct (ocr_pages (S i) rest). reflexivity.
  - destruct (generate _ _ _ _ _ _ _ _ _ _) as [text t].
    specialize (IH (S i) n Hn).
    replace (S i + n)%nat with (i + S n)%nat in IH by lia.
    specialize (IH Hdown).
    destruct (ocr_pages (S i) rest). exact IH.
Qed.


(** X17. OCR of page images makes one call of [generate] per page. Every
    request of every call goes to the primary host with the vision model
    and carries one of the images, whatever the GPU-busy flag says; each
    call sends between one and four requests and waits at most 30
    seconds. The result joins one piece per page, none of them empty. *)
Theorem ocr_calls_per_page (images_b64 : list string) :
  let r := extract_text_from_images strip gpu_busy backend ollama prompt
             images_b64 in
  length (snd r) = length images_b64
  /\ (forall t, In t (snd r) ->
        (1 <= length (posted t) <= 4)%nat
        /\ fold_right Z.add 0 (slept t) <= 30
        /\ forall a h p, In (Post a h p) t ->
             h = host ollama /\ p_model p = vision_model ollama
             /\ exists b64, In b64 images_b64 /\ p_images p = Some [b64])
  /\ exists full_text,
       fst r = String.concat (newline +:+ newline) full_text
       /\ length full_text = length images_b64
       /\ Forall (fun piece => piece <> ""%string) full_text.
Proof.
  cbv zeta. unfold extract_text_from_images.
  destruct (pages_calls 0 images_b64) as (Hl1 & Hl2 & Hne & Hall).
  destruct (ocr_pages 0 images_b64) as [full_text calls].
  cbn [fst snd] in *.
  split; [exact Hl2|]. split.
  - intros t Ht. rewrite Forall_forall in Hall.
    apply list_elem_of_In in Ht.
    destruct (Hall t Ht) as [(k & Hk & Hp & Hs) Hposts].
    rewrite Hp, Hs, length_seq.
    split; [lia|]. split; [|exact Hposts].
    destruct k as [|[|[|[|k]]]]; cbn; lia.
  - exists full_text. auto.
Qed.

(** X18. A page whose call finds the backend down on all four attempts is
    not dropped and not left empty: its piece of the text is the marker
    with the page number, counted from 1. *)
Theorem failed_page_is_marked (images_b64 : list string) (n : nat)
    (b64 : string) :
  images_b64 !! n = Some b64 ->
  (forall a h p, is_transient (backend n a h p) = true) ->
  fst (ocr_pages 0 images_b64) !! n
  = Some ("[OCR Fehler Seite " +:+ str_of_nat (n + 1) +:+ "]").
Proof.
  intros Hn Hdown. exact (pages_down images_b64 0 n b64 Hn Hdown).
Qed.

End ImagesFacts.

(** Two pages, the backend down: the second piece. *)
Lemma failed_page_is_marked_witness :
  fst (pages ascii_strip (fun _ _ => false) MoreExamples.ocr_backend_down
         Examples.client "Erkenne den Text exakt." 0
         ["aGVsbG8="; "d2VsdA=="]%string) !! 1%nat
  = Some "[OCR Fehler Seite 2]"%string.
Proof.
  apply (failed_page_is_marked ascii_strip (fun _ _ => false)
           MoreExamples.ocr_backend_down Examples.client
           "Erkenne den Text exakt." ["aGVsbG8="; "d2VsdA=="]%string 1
           "d2VsdA=="%string).
  - reflexivity.
  - intros a h p. reflexivity.
Defined.

End ExtractorFacts.

(* ===================================================================== *)
(** * Facts about the sidecar step of the post-consume script             *)
(* ===================================================================== *)

Module PostConsumeFacts.
Import Hashing Py PostConsume PyFacts HashingFacts.

Section MainFacts.

Variable retry_data : SidecarData.

Abbreviation lookup_name source original_filename :=
  (post_consume_sidecar_name (post_consume_uid source) original_filename).





(** Whatever the buffer holds, [main] looks at one name only: files
    under other names are the same after the step, and the step never
    raises. *)
Lemma load_sidecar_frame (source : option (list byte))
    (original_filename : string) (s : State) :
  exists data s',
    load_sidecar retry_data source original_filename s = (Ok data, s')
    /\ forall name, name <> lookup_name source original_filename ->
                    buffer s' !! name = buffer s !! name.
Proof.
  unfold load_sidecar. cbv zeta. destruct s as [buf tr].
  rewrite bind_run. unfold path_exists at 1. cbn [gets buffer].
  destruct (buf !! lookup_name source original_filename) as [[d|]|] eqn:H.
  - rewrite try_except_run, bind_run. unfold json_load at 1.
    cbn [buffer]. rewrite H.
    rewrite bind_run, try_except_run. unfold os_remove at 1.
    cbn [buffer]. rewrite H.
    eexists _, _. split; [reflexivity|]. intros name Hne. cbn [buffer].
    apply lookup_delete_ne. congruence.
  - rewrite try_except_run, bind_run. unfold json_load at 1.
    cbn [buffer]. rewrite H.
    eexists _, _. split; [reflexivity|]. auto.
  - eexists _, _. split; [reflexivity|]. auto.
Qed.

End MainFacts.




Section RetryFacts.

Variable strip : string -> string.
Variable gpu_busy : nat -> nat -> bool.
Variable backend : nat -> nat -> string -> LLM.Payload -> LLM.outcome.
Variable ollama : LLM.LLMClient.
Variable prompt : string.


End RetryFacts.





End PostConsumeFacts.

(* ===================================================================== *)
(** * Facts about the extraction of dates                                 *)
(* ===================================================================== *)

Module DatesFacts.
Import Py Dates.

(** A match whose month group is not a number adds nothing. *)
Lemma add_match_month_name (found_dates : gset string)
    (day month year_str : string) :
  isdigit month = false ->
  add_match found_dates [day; month; year_str] = found_dates.
Proof.
  intros H. cbn [add_match].
  destruct (isdigit day); [|reflexivity].
  destruct (int year_str); [|reflexivity].
  unfold int at 2. rewrite H.
  destruct (int day); reflexivity.
Qed.

Lemma fold_add_match_month_names (l : list (list string))
    (found_dates : gset string) :
  Forall (fun m => exists day month year_str,
            m = [day; month; year_str] /\ isdigit month = false) l ->
  fold_left add_match l found_dates = found_dates.
Proof.
  intros H. revert found_dates.
  induction H as [|m l (day & month & year_str & -> & Hm) _ IH];
    intros found_dates; [reflexivity|].
  cbn [fold_left]. rewrite add_match_month_name by exact Hm. apply IH.
Qed.

Lemma abbreviation_is_no_number (month : string) :
  In month month_abbreviations -> isdigit month = false.
Proof.
  unfold month_abbreviations. cbn [In].
  intros H. repeat (destruct H as [<- | H]; [reflexivity|]). destruct H.
Qed.

Section ExtractFacts.

Variable findall : nat -> Duplicates.text -> list (list string).

(** X23. Dates written with a day and a month name ("12. Mai 2023") never
    reach the result: every match of the second pattern has a month
    group that is one of the twelve abbreviations, converting it to a
    number fails, and the match is skipped. The dates found are those of
    the first and the third pattern alone. *)
Theorem day_month_name_dates_are_dropped (t : Duplicates.text) :
  Forall (fun m => exists day month year_str,
            m = [day; month; year_str] /\ In month month_abbreviations)
         (findall 1%nat t) ->
  _extract_dates findall t
  = fold_left add_match (findall 2%nat t)
      (fold_left add_match (findall 0%nat t) ∅).
Proof.
  intros H. unfold _extract_dates. cbn [fold_left].
  rewrite (fold_add_match_month_names (findall 1%nat t)); [reflexivity|].
  eapply Forall_impl; [exact H|]. cbv beta.
  intros m (day & month & year_str & -> & Hin).
  exists day, month, year_str.
  split; [reflexivity | apply abbreviation_is_no_number; exact Hin].
Qed.

End ExtractFacts.

(** "01.02.24, 12. Mai 2023": the first date is found with its year
    completed, the second only as the month. *)
Lemma day_month_name_dates_are_dropped_witness :
  _extract_dates MoreExamples.findall []
  = fold_left add_match [["Mai"; "2023"]]%string
      (fold_left add_match [["01"; "02"; "24"]]%string ∅).
Proof.
  apply (day_month_name_dates_are_dropped MoreExamples.findall []).
  constructor; [|constructor].
  exists "12"%string, "Mai"%string, "2023"%string.
  split; [reflexivity|]. cbn. auto 10.
Defined.

Example dates_of_the_example :
  _extract_dates MoreExamples.findall []
  = {["1.2.2024"; "01.05.2023"]}%string.
Proof. vm_compute. reflexivity. Qed.

End DatesFacts.

(* ===================================================================== *)
(** * Facts about the retroactive poller                                  *)
(* ===================================================================== *)

Module RetaggerFacts.
Import Py Watchdog Retagger PyFacts WatchdogFacts.

(** X24. One round of the poller never gets to its request: with a
    configuration, the import of [modules.paperless_client] raises (as
    would building the client from a bad configuration, or the lookup
    of [client.session]), the round logs the error and sleeps 60
    seconds; without one it sleeps 60 seconds at once. Whatever the rest
    of the round would do, nothing is downloaded, rendered or queued:
    the world is the same but for the log. *)
Theorem retagger_round_does_nothing (new_client : result unit)
    (poll : M World unit) (config : bool) (w : World) :
  ai_retagger_round new_client poll config w
  = (Ok 60,
     if config then add_log ERROR "Fehler im ai_retagger" w else w).
Proof.
  unfold ai_retagger_round. rewrite try_except_run.
  destruct config; cbn [negb]; [|reflexivity].
  rewrite bind_run, import_paperless_client_raises. reflexivity.
Qed.

End RetaggerFacts.
